(** * Unified query translation layer: relational and search-engine DAOs

    A shallow embedding of [pyapp/dao/base.py], [pyapp/dao/mysql_dao.py] and
    [pyapp/dao/elasticsearch_dao.py], together with the small fragment of the
    Python runtime these modules rely on (values, truthiness, [str()] and
    [repr()], [int()] and [float()], exceptions).

    Conventions.
    - Python [int] is [Z]; Python [float] is an IEEE-754 binary64 value,
      written as a [spec_float]; Python [str] is [string], read as ASCII
      text (bytes above 127 are taken as printable characters).
    - A Python dict with string keys is an association list in insertion
      order, which is what [repr()] and the emitted documents show.
    - Code that can raise returns a [result]; code that talks to a backend
      threads a world (backend state and the list of round trips made).
    - [except Exception] is modelled as catching every [exn]; signals that
      derive from [BaseException] only (task cancellation, interpreter
      exit) are outside the model, and so is the log output.
    - [int()] and [str()] follow the language reference: the optional cap
      that an interpreter may put on the number of digits it converts
      ([sys.set_int_max_str_digits]) is not part of the model. *)

From Stdlib Require Import ZArith List String Ascii Bool Lia.
From Stdlib Require Import DecimalString SpecFloat.
Import ListNotations.
Local Open Scope list_scope.
Local Open Scope string_scope.
Local Open Scope Z_scope.

(* ================================================================== *)
(** ** The Python runtime fragment *)
(* ================================================================== *)

Module Py.

(** Exceptions that the modelled code raises itself or receives from the
    interpreter.  The payload is the message where the source (or a stable
    interpreter text) fixes it. *)
Inductive exn : Type :=
| ValueError (msg : string)
| TypeError
| NameError (name : string)
| KeyError (key : string)
| AttributeError
| OverflowError
| RuntimeError (msg : string)
| DriverError (msg : string).

Inductive result (A : Type) : Type :=
| Ok (a : A)
| Raise (e : exn).
Arguments Ok {A} a.
Arguments Raise {A} e.

Definition bind {A B : Type} (c : result A) (k : A -> result B) : result B :=
  match c with
  | Ok a => k a
  | Raise e => Raise e
  end.

Definition is_ok {A : Type} (c : result A) : bool :=
  match c with Ok _ => true | Raise _ => false end.

(** Values that reach the DAO layer: filter values, emitted documents. *)
#[local] Set Warnings "-register-all".
Inductive pyval : Type :=
| PNone
| PBool (b : bool)
| PInt (z : Z)
| PFloat (f : spec_float)
| PStr (s : string)
| PList (l : list pyval)
| PDict (d : list (string * pyval)).

(** *** Characters and strings *)

Definition chr (n : nat) : ascii := ascii_of_nat n.
Definition nl : string := String (chr 10) EmptyString.
Definition char_eqb (a b : ascii) : bool := Ascii.eqb a b.

Definition is_digit (c : ascii) : bool :=
  let n := nat_of_ascii c in (Nat.leb 48 n && Nat.leb n 57)%bool.

Definition digit_val (c : ascii) : Z := Z.of_nat (nat_of_ascii c) - 48.

(** Whitespace as [int()] skips it around the digits. *)
Definition is_space (c : ascii) : bool :=
  let n := nat_of_ascii c in
  ((Nat.leb 9 n && Nat.leb n 13) || Nat.eqb n 32)%bool.

Fixpoint contains_char (c : ascii) (s : string) : bool :=
  match s with
  | EmptyString => false
  | String a r => (char_eqb a c || contains_char c r)%bool
  end.

(** [s.split(c)] for a one-character separator. *)
Fixpoint split_char (c : ascii) (s : string) : list string :=
  match s with
  | EmptyString => [EmptyString]
  | String a r =>
      if char_eqb a c then EmptyString :: split_char c r
      else match split_char c r with
           | [] => [String a EmptyString]
           | w :: ws => String a w :: ws
           end
  end.

Definition lower_char (c : ascii) : ascii :=
  let n := nat_of_ascii c in
  if (Nat.leb 65 n && Nat.leb n 90)%bool then ascii_of_nat (n + 32) else c.

(** [s.lower()] on ASCII text. *)
Fixpoint lower (s : string) : string :=
  match s with
  | EmptyString => EmptyString
  | String a r => String (lower_char a) (lower r)
  end.

(** [sep.join(parts)]. *)
Definition join (sep : string) (parts : list string) : string :=
  String.concat sep parts.

Fixpoint repeat_char (c : ascii) (n : nat) : string :=
  match n with
  | O => EmptyString
  | S k => String c (repeat_char c k)
  end.

(** [str(n)] for an int. *)
Definition str_of_Z (z : Z) : string := NilZero.string_of_int (Z.to_int z).

(** *** [int(s)] for a string, base 10 *)

Inductive scan_state : Type := AtStart | AfterDigit | AfterUnderscore.

Fixpoint scan_int (acc : Z) (st : scan_state) (s : string)
  : option (Z * string) :=
  match s with
  | EmptyString =>
      match st with AfterDigit => Some (acc, EmptyString) | _ => None end
  | String c r =>
      if is_digit c then scan_int (10 * acc + digit_val c) AfterDigit r
      else if char_eqb c "_" then
        match st with AfterDigit => scan_int acc AfterUnderscore r | _ => None end
      else
        match st with AfterDigit => Some (acc, s) | _ => None end
  end.

Fixpoint lstrip (s : string) : string :=
  match s with
  | EmptyString => EmptyString
  | String c r => if is_space c then lstrip r else s
  end.

Fixpoint all_space (s : string) : bool :=
  match s with
  | EmptyString => true
  | String c r => (is_space c && all_space r)%bool
  end.

Definition invalid_literal (s_repr : string) : exn :=
  ValueError ("invalid literal for int() with base 10: " ++ s_repr).

(** *** Floats: [float(n)], [int(x)] and [repr(x)] *)

Definition float_of_Z (z : Z) : result spec_float :=
  match binary_normalize 53 1024 z 0 false with
  | S754_infinity _ => Raise OverflowError
  | f => Ok f
  end.

(** [int(x)] for a float truncates towards zero. *)
Definition int_of_float (f : spec_float) : result Z :=
  match f with
  | S754_zero _ => Ok 0
  | S754_infinity _ => Raise OverflowError
  | S754_nan => Raise (ValueError "cannot convert float NaN to integer")
  | S754_finite s m e =>
      let a := if 0 <=? e then Zpos m * 2 ^ e else Zpos m / 2 ^ (- e) in
      Ok (if s then - a else a)
  end.

Fixpoint lead_zeros (fuel : nat) (a b : Z) : Z :=
  match fuel with
  | O => 0
  | S k => if b <=? a * 10 then 0 else 1 + lead_zeros k (a * 10) b
  end.

(** The [k] with [10^(k-1) <= a/b < 10^k], for positive [a] and [b]. *)
Definition decimal_point (a b : Z) : Z :=
  if b <=? a then Z.of_nat (String.length (str_of_Z (a / b)))
  else - lead_zeros 400 a b.

(** The decimal [d * 10^s] nearest to [X*P/Q] among those that still read
    back as the same double, whose rounding interval is [LO*P/Q, HI*P/Q]
    (closed when the mantissa is even). *)
Definition candidate (closed : bool) (X LO HI P Q s : Z) : option Z :=
  let up := 10 ^ Z.max (- s) 0 in
  let B := Q * 10 ^ Z.max s 0 in
  let A := X * P * up in
  let AL := LO * P * up in
  let AH := HI * P * up in
  let d0 := A / B in
  let d1 := d0 + 1 in
  let inside d :=
    if closed then ((AL <=? d * B) && (d * B <=? AH))%bool
    else ((AL <? d * B) && (d * B <? AH))%bool in
  let r := A - d0 * B in
  match inside d0, inside d1 with
  | true, true =>
      Some (if 2 * r <? B then d0 else if B <? 2 * r then d1
            else if Z.even d0 then d0 else d1)
  | true, false => Some d0
  | false, true => Some d1
  | false, false => None
  end.

Fixpoint shortest (fuel : nat) (closed : bool) (X LO HI P Q k n : Z)
  : Z * Z :=
  match fuel with
  | O => (0, 0)
  | S g =>
      match candidate closed X LO HI P Q (k - n) with
      | Some d => (d, k - n)
      | None => shortest g closed X LO HI P Q k (n + 1)
      end
  end.

Fixpoint rstrip_zeros_rev (rev_digits : list ascii) : list ascii :=
  match rev_digits with
  | c :: r => if char_eqb c "0" then rstrip_zeros_rev r else rev_digits
  | [] => []
  end.

Definition rstrip_zeros (s : string) : string :=
  string_of_list_ascii (rev (rstrip_zeros_rev (rev (list_ascii_of_string s)))).

Definition pad2 (s : string) : string :=
  match s with
  | String c EmptyString => String "0" s
  | _ => s
  end.

(** Layout of the digits, as [repr()] does it: positional between 1e-4
    and 1e16, exponent form outside. *)
Definition layout (digits : string) (decpt : Z) : string :=
  let n := Z.of_nat (String.length digits) in
  if ((decpt <=? -4) || (16 <? decpt))%bool then
    let e := decpt - 1 in
    let mant :=
      match digits with
      | String c EmptyString => digits
      | String c r => String c ("." ++ r)
      | EmptyString => EmptyString
      end in
    mant ++ "e" ++ (if e <? 0 then "-" else "+") ++ pad2 (str_of_Z (Z.abs e))
  else if decpt <=? 0 then
    "0." ++ repeat_char "0" (Z.to_nat (- decpt)) ++ digits
  else if decpt <? n then
    substring 0 (Z.to_nat decpt) digits ++ "." ++
    substring (Z.to_nat decpt) (Z.to_nat (n - decpt)) digits
  else
    digits ++ repeat_char "0" (Z.to_nat (decpt - n)) ++ ".0".

(** [repr(x)] for a float: the shortest decimal that reads back as [x]. *)
Definition float_repr (f : spec_float) : string :=
  match f with
  | S754_zero s => if s then "-0.0" else "0.0"
  | S754_infinity s => if s then "-inf" else "inf"
  | S754_nan => "nan"
  | S754_finite s m e =>
      let M := Zpos m in
      let X := 4 * M in
      let HI := X + 2 in
      let LO := if ((M =? 2 ^ 52) && (-1074 <? e))%bool then X - 1 else X - 2 in
      let e2 := e - 2 in
      let P := 2 ^ Z.max e2 0 in
      let Q := 2 ^ Z.max (- e2) 0 in
      let k := decimal_point (X * P) Q in
      let '(d, s10) := shortest 17 (Z.even M) X LO HI P Q k 1 in
      let all := str_of_Z d in
      let body := layout (rstrip_zeros all) (s10 + Z.of_nat (String.length all)) in
      if s then "-" ++ body else body
  end.

(** *** [repr()] and [str()] *)

Definition backslash : ascii := chr 92.
Definition single_quote : ascii := chr 39.
Definition double_quote : ascii := chr 34.

Definition hex_digit (n : nat) : ascii :=
  if Nat.ltb n 10 then ascii_of_nat (48 + n) else ascii_of_nat (87 + n).

Definition escape_char (quote c : ascii) : string :=
  let n := nat_of_ascii c in
  if (char_eqb c backslash || char_eqb c quote)%bool then
    String backslash (String c EmptyString)
  else if Nat.eqb n 10 then String backslash "n"
  else if Nat.eqb n 13 then String backslash "r"
  else if Nat.eqb n 9 then String backslash "t"
  else if (Nat.ltb n 32 || Nat.eqb n 127)%bool then
    String backslash
      (String "x" (String (hex_digit (Nat.div n 16))
                     (String (hex_digit (Nat.modulo n 16)) EmptyString)))
  else String c EmptyString.

Fixpoint escape (quote : ascii) (s : string) : string :=
  match s with
  | EmptyString => EmptyString
  | String c r => escape_char quote c ++ escape quote r
  end.

(** [repr(s)] for a string: single quotes unless the text has a single
    quote and no double quote. *)
Definition repr_str (s : string) : string :=
  let q :=
    if (contains_char single_quote s && negb (contains_char double_quote s))%bool
    then double_quote else single_quote in
  String q (escape q s ++ String q EmptyString).

Fixpoint py_repr (v : pyval) : string :=
  match v with
  | PNone => "None"
  | PBool b => if b then "True" else "False"
  | PInt z => str_of_Z z
  | PFloat f => float_repr f
  | PStr s => repr_str s
  | PList l => "[" ++ join ", " (map py_repr l) ++ "]"
  | PDict d =>
      "{" ++ join ", " (map (fun kv => repr_str (fst kv) ++ ": " ++ py_repr (snd kv)) d)
          ++ "}"
  end.

(** [str(v)], which is what an f-string field [{v}] inserts. *)
Definition py_str (v : pyval) : string :=
  match v with
  | PStr s => s
  | _ => py_repr v
  end.

(** *** Truthiness, type tests, iteration *)

Definition float_truthy (f : spec_float) : bool :=
  match f with S754_zero _ => false | _ => true end.

Definition truthy (v : pyval) : bool :=
  match v with
  | PNone => false
  | PBool b => b
  | PInt z => negb (z =? 0)
  | PFloat f => float_truthy f
  | PStr s => negb (String.eqb s EmptyString)
  | PList l => match l with [] => false | _ => true end
  | PDict d => match d with [] => false | _ => true end
  end.

(** [isinstance(v, (int, float))]; [bool] is a subclass of [int]. *)
Definition isinstance_int_float (v : pyval) : bool :=
  match v with
  | PBool _ | PInt _ | PFloat _ => true
  | _ => false
  end.

Definition isinstance_str (v : pyval) : bool :=
  match v with PStr _ => true | _ => false end.

Fixpoint chars (s : string) : list pyval :=
  match s with
  | EmptyString => []
  | String c r => PStr (String c EmptyString) :: chars r
  end.

(** The items a [for] loop sees. *)
Definition py_iter (v : pyval) : result (list pyval) :=
  match v with
  | PList l => Ok l
  | PStr s => Ok (chars s)
  | PDict d => Ok (map (fun kv => PStr (fst kv)) d)
  | _ => Raise TypeError
  end.

(** [int(s)] for a string. *)
Definition int_of_str (s : string) : result Z :=
  let t := lstrip s in
  let '(neg, body) :=
    match t with
    | String c r =>
        if char_eqb c "-" then (true, r)
        else if char_eqb c "+" then (false, r) else (false, t)
    | EmptyString => (false, t)
    end in
  match scan_int 0 AtStart body with
  | Some (n, rest) =>
      if all_space rest then Ok (if neg then - n else n)
      else Raise (invalid_literal (repr_str s))
  | None => Raise (invalid_literal (repr_str s))
  end.

(** *** [float(s)] for a string *)

(** Underscores may only stand between two digits. *)
Fixpoint underscores_ok (prev_digit : bool) (s : string) : bool :=
  match s with
  | EmptyString => true
  | String c r =>
      if char_eqb c "_" then
        (prev_digit &&
         match r with String d _ => is_digit d | EmptyString => false end &&
         underscores_ok false r)%bool
      else underscores_ok (is_digit c) r
  end.

Fixpoint drop_underscores (s : string) : string :=
  match s with
  | EmptyString => EmptyString
  | String c r =>
      if char_eqb c "_" then drop_underscores r else String c (drop_underscores r)
  end.

(** A run of digits: its value, its length and what follows. *)
Fixpoint scan_digits (acc : Z) (n : Z) (s : string) : Z * Z * string :=
  match s with
  | String c r =>
      if is_digit c then scan_digits (10 * acc + digit_val c) (n + 1) r
      else (acc, n, s)
  | EmptyString => (acc, n, s)
  end.

Definition take_sign (s : string) : bool * string :=
  match s with
  | String c r =>
      if char_eqb c "-" then (true, r)
      else if char_eqb c "+" then (false, r) else (false, s)
  | EmptyString => (false, s)
  end.

Fixpoint rstrip_space_rev (rev_chars : list ascii) : list ascii :=
  match rev_chars with
  | c :: r => if is_space c then rstrip_space_rev r else rev_chars
  | [] => []
  end.

(** [s.strip()] for the whitespace that [int()] and [float()] accept. *)
Definition strip (s : string) : string :=
  string_of_list_ascii
    (rev (rstrip_space_rev (rev (list_ascii_of_string (lstrip s))))).

(** The double nearest to [d * 10^e10], ties to even. *)
Definition round_decimal (d e10 : Z) : spec_float :=
  if d =? 0 then S754_zero false
  else if 400 <? e10 + Z.log2 d / 4 then S754_infinity false
  else if e10 + Z.log2 d + 1 <? -400 then S754_zero false
  else if 0 <=? e10 then binary_normalize 53 1024 (d * 10 ^ e10) 0 false
  else
    let den := 10 ^ (- e10) in
    let k := Z.max 0 (64 + Z.log2 den - Z.log2 d) in
    let num := d * 2 ^ k in
    let q := num / den in
    let sticky := if num mod den =? 0 then 0 else 1 in
    binary_normalize 53 1024 (2 * q + sticky) (- k - 1) false.

Definition could_not_convert (s : string) : exn :=
  ValueError ("could not convert string to float: " ++ repr_str s).

Definition float_of_str (s : string) : result spec_float :=
  let t := strip s in
  let '(neg, body) := take_sign t in
  let signed f := if neg then SFopp f else f in
  let word := lower body in
  if (String.eqb word "inf" || String.eqb word "infinity")%bool then
    Ok (S754_infinity neg)
  else if String.eqb word "nan" then Ok S754_nan
  else if negb (underscores_ok false body) then Raise (could_not_convert s)
  else
    let plain := drop_underscores body in
    let '(ip, n_int, r1) := scan_digits 0 0 plain in
    let '(all, n_frac, r2) :=
      match r1 with
      | String c r => if char_eqb c "." then scan_digits ip 0 r else (ip, 0, r1)
      | EmptyString => (ip, 0, r1)
      end in
    if n_int + n_frac =? 0 then Raise (could_not_convert s)
    else
      match r2 with
      | EmptyString => Ok (signed (round_decimal all (- n_frac)))
      | String c r =>
          if (char_eqb c "e" || char_eqb c "E")%bool then
            let '(eneg, r3) := take_sign r in
            match scan_digits 0 0 r3 with
            | (ev, n_exp, EmptyString) =>
                if n_exp =? 0 then Raise (could_not_convert s)
                else
                  Ok (signed
                        (round_decimal all ((if eneg then - ev else ev) - n_frac)))
            | _ => Raise (could_not_convert s)
            end
          else Raise (could_not_convert s)
      end.

(** *** [or], [float()] and [int()] on values *)

(** [v or 0]. *)
Definition or_zero (v : pyval) : pyval :=
  if truthy v then v else PInt 0.

(** [float(v)]. *)
Definition py_float (v : pyval) : result spec_float :=
  match v with
  | PBool b => float_of_Z (if b then 1 else 0)
  | PInt z => float_of_Z z
  | PFloat f => Ok f
  | PStr s => float_of_str s
  | PNone | PList _ | PDict _ => Raise TypeError
  end.

(** [int(v)]. *)
Definition py_int (v : pyval) : result Z :=
  match v with
  | PBool b => Ok (if b then 1 else 0)
  | PInt z => Ok z
  | PFloat f => int_of_float f
  | PStr s => int_of_str s
  | PNone | PList _ | PDict _ => Raise TypeError
  end.

(** *** Dictionaries *)

Fixpoint lookup (k : string) (d : list (string * pyval)) : option pyval :=
  match d with
  | [] => None
  | (k', v) :: r => if String.eqb k' k then Some v else lookup k r
  end.

(** [d.get(k, default)] on a dict. *)
Definition get (d : list (string * pyval)) (k : string) (default : pyval) : pyval :=
  match lookup k d with
  | Some v => v
  | None => default
  end.

(** [v.get(k, default)] on any value: only a dict has the method. *)
Definition py_get (v : pyval) (k : string) (default : pyval) : result pyval :=
  match v with
  | PDict d => Ok (get d k default)
  | _ => Raise AttributeError
  end.

(** [d[k] = v]: an existing key keeps its place, a new one goes last. *)
Fixpoint set_item (d : list (string * pyval)) (k : string) (v : pyval)
  : list (string * pyval) :=
  match d with
  | [] => [(k, v)]
  | (k', v') :: r =>
      if String.eqb k' k then (k, v) :: r else (k', v') :: set_item r k v
  end.

End Py.

(* ================================================================== *)
(** ** [dao/base.py]: the shared model and the SQL clause builder *)
(* ================================================================== *)

Module Base.
Import Py.

(** [StatResult]; the dataclass does not check its field types, so
    [count] holds whatever number the adapter stored. *)
Record StatResult : Type := mkStatResult {
  count : pyval;
  sum : spec_float;
  average : spec_float;
  min : spec_float;
  max : spec_float
}.

Definition float_zero : spec_float := S754_zero false.

(** [StatResult()] with the dataclass defaults. *)
Definition StatResult_default : StatResult :=
  mkStatResult (PInt 0) float_zero float_zero float_zero float_zero.

(** [SearchResponse]; the hits are dicts, [total] is whatever the backend
    reported. *)
Record SearchResponse : Type := mkSearchResponse {
  hits : list pyval;
  total : pyval;
  stats : list (string * StatResult)
}.

Record QueryFilter : Type := mkQueryFilter {
  field : string;
  operator : string;
  value : pyval
}.

Record SortOption : Type := mkSortOption {
  sort_field : string;
  direction : string
}.

Record PaginationOptions : Type := mkPaginationOptions {
  offset : Z;
  limit : Z;
  max_limit : Z
}.

(** [PaginationOptions(offset, limit)]: [max_limit] takes its default. *)
Definition PaginationOptions_of (offset limit : Z) : PaginationOptions :=
  mkPaginationOptions offset limit 1000.

(** The attributes of a [QueryBuilder] instance. *)
Record QueryBuilder : Type := mkQueryBuilder {
  query : string;
  params : list pyval;
  filters : list QueryFilter;
  sorts : list SortOption;
  pagination : option PaginationOptions
}.

Definition reset : QueryBuilder :=
  mkQueryBuilder EmptyString [] [] [] None.

Definition set_params (qb : QueryBuilder) (ps : list pyval) : QueryBuilder :=
  mkQueryBuilder (query qb) ps (filters qb) (sorts qb) (pagination qb).

Definition add_filter (qb : QueryBuilder) (f : string) (op : string) (v : pyval)
  : QueryBuilder :=
  mkQueryBuilder (query qb) (params qb)
    (filters qb ++ [mkQueryFilter f op v])%list (sorts qb) (pagination qb).

Definition add_sort (qb : QueryBuilder) (f : string) (dir : string)
  : QueryBuilder :=
  mkQueryBuilder (query qb) (params qb) (filters qb)
    (sorts qb ++ [mkSortOption f dir])%list (pagination qb).

Definition paginate (qb : QueryBuilder) (offset limit : Z) : QueryBuilder :=
  mkQueryBuilder (query qb) (params qb) (filters qb) (sorts qb)
    (Some (PaginationOptions_of offset limit)).

(** [f"${len(self.params)}"] once the parameter is appended. *)
Definition placeholder (n : nat) : string := "$" ++ str_of_Z (Z.of_nat n).

(** The loop of the [in] and [not_in] branches: every element is appended
    to the parameters and gets the placeholder of its position. *)
Fixpoint expand_list (ps : list pyval) (vals : list pyval)
  : list string * list pyval :=
  match vals with
  | [] => ([], ps)
  | v :: rest =>
      let ps' := (ps ++ [v])%list in
      let '(phs, final) := expand_list ps' rest in
      (placeholder (List.length ps') :: phs, final)
  end.

(** [QueryBuilder._build_filter_clause]: the clause (or the exception) and
    the builder with its parameter list as the call leaves it. *)
Definition _build_filter_clause (qb : QueryBuilder) (filter_obj : QueryFilter)
  : result string * QueryBuilder :=
  let param_placeholder := placeholder (List.length (params qb) + 1) in
  let fld := field filter_obj in
  let op := operator filter_obj in
  let scalar sym v :=
    (Ok (fld ++ sym ++ param_placeholder), set_params qb (params qb ++ [v])%list) in
  let listed kw :=
    match py_iter (value filter_obj) with
    | Raise e => (Raise e, qb)
    | Ok vals =>
        let '(placeholders, ps) := expand_list (params qb) vals in
        (Ok (fld ++ kw ++ join ", " placeholders ++ ")"), set_params qb ps)
    end in
  if String.eqb op "eq" then scalar " = " (value filter_obj)
  else if String.eqb op "ne" then scalar " != " (value filter_obj)
  else if String.eqb op "gt" then scalar " > " (value filter_obj)
  else if String.eqb op "lt" then scalar " < " (value filter_obj)
  else if String.eqb op "gte" then scalar " >= " (value filter_obj)
  else if String.eqb op "lte" then scalar " <= " (value filter_obj)
  else if String.eqb op "like" then
    scalar " LIKE " (PStr ("%" ++ py_str (value filter_obj) ++ "%"))
  else if String.eqb op "in" then listed " IN ("
  else if String.eqb op "not_in" then listed " NOT IN ("
  else (Raise (ValueError ("Unsupported operator: " ++ op)), qb).

(** The loop of [build_where_clause]. *)
Fixpoint build_clauses (qb : QueryBuilder) (fs : list QueryFilter)
  : result (list string) * QueryBuilder :=
  match fs with
  | [] => (Ok [], qb)
  | f :: rest =>
      match _build_filter_clause qb f with
      | (Raise e, qb') => (Raise e, qb')
      | (Ok clause, qb') =>
          match build_clauses qb' rest with
          | (Raise e, qb'') => (Raise e, qb'')
          | (Ok clauses, qb'') => (Ok (clause :: clauses), qb'')
          end
      end
  end.

Definition build_where_clause (qb : QueryBuilder) : result string * QueryBuilder :=
  match filters qb with
  | [] => (Ok EmptyString, qb)
  | fs =>
      match build_clauses qb fs with
      | (Raise e, qb') => (Raise e, qb')
      | (Ok where_clauses, qb') =>
          (Ok ("WHERE " ++ join " AND " where_clauses), qb')
      end
  end.

Definition build_order_clause (qb : QueryBuilder) : string :=
  match sorts qb with
  | [] => EmptyString
  | ss =>
      "ORDER BY " ++
      join ", "
        (map (fun sort_obj =>
                sort_field sort_obj ++ " " ++
                (if String.eqb (lower (direction sort_obj)) "asc"
                 then "ASC" else "DESC"))
             ss)
  end.

Definition build_pagination_clause (qb : QueryBuilder) : string :=
  match pagination qb with
  | None => EmptyString
  | Some p => "LIMIT " ++ str_of_Z (limit p) ++ " OFFSET " ++ str_of_Z (offset p)
  end.

End Base.

(* ================================================================== *)
(** ** [dao/mysql_dao.py]: the relational adapter *)
(* ================================================================== *)

Module MySQL.
Import Py Base.

Definition row : Type := list (string * pyval).

(** The attributes of a [MySQLDAO] instance: [config] and [connection]
    from [BaseDAO.__init__], [pool] from its own. *)
Record MySQLDAO : Type := mkMySQLDAO {
  config : list (string * pyval);
  connection : option nat;
  pool : option nat
}.

Definition new (connection_config : list (string * pyval)) : MySQLDAO :=
  mkMySQLDAO connection_config None None.

(** [ConnectionMixin.is_connected]. *)
Definition is_connected (self : MySQLDAO) : bool :=
  match connection self with Some _ => true | None => false end.

(** The keyword arguments [connect] passes to [aiomysql.create_pool]. *)
Definition pool_arguments (self : MySQLDAO) : list (string * pyval) :=
  [ ("host", get (config self) "address" (PStr "localhost"));
    ("port", get (config self) "port" (PInt 3306));
    ("user", get (config self) "username" (PStr "root"));
    ("password", get (config self) "password" (PStr EmptyString));
    ("db", get (config self) "dbname" (PStr "uec"));
    ("charset", get (config self) "charset" (PStr "utf8mb4"));
    ("minsize", PInt 1);
    ("maxsize", PInt 10);
    ("autocommit", PBool true) ].

(** [MySQLDAO.connect], against a driver whose [create_pool] either hands
    back a pool or raises. *)
Definition connect (create_pool : list (string * pyval) -> result nat)
    (self : MySQLDAO) : result bool * MySQLDAO :=
  match create_pool (pool_arguments self) with
  | Ok p => (Ok true, mkMySQLDAO (config self) (connection self) (Some p))
  | Raise e => (Ok false, self)
  end.

(** What the server answers to a statement and its parameters. *)
Definition server : Type := string -> list pyval -> result (list row).

(** The statements sent so far, oldest first. *)
Definition trace : Type := list (string * list pyval).

(** [MySQLDAO.execute_query]. *)
Definition execute_query (srv : server) (self : MySQLDAO)
    (query : string) (params : list pyval) (tr : trace)
  : result (list row) * trace :=
  match pool self with
  | None => (Raise (RuntimeError "MySQL connection pool not initialized"), tr)
  | Some _ => (srv query params, (tr ++ [(query, params)])%list)
  end.

Definition indent (n : nat) : string := repeat_char " " n.
Definition line (n : nat) (text : string) : string := indent n ++ text ++ nl.

Definition add_filters (builder : QueryBuilder) (fs : list QueryFilter)
  : QueryBuilder :=
  fold_left (fun b f => add_filter b (field f) (operator f) (value f)) fs builder.

Definition add_sorts (builder : QueryBuilder) (ss : list SortOption)
  : QueryBuilder :=
  fold_left (fun b s => add_sort b (sort_field s) (direction s)) ss builder.

(** The builder as [search] has filled it when it starts to compile. *)
Definition search_builder (filters : list QueryFilter)
    (sort_options : option (list SortOption))
    (pagination : option PaginationOptions) : QueryBuilder :=
  let builder := add_filters reset filters in
  let builder :=
    match sort_options with
    | Some ss => add_sorts builder ss
    | None => builder
    end in
  match pagination with
  | Some p => paginate builder (offset p) (limit p)
  | None => builder
  end.

Definition select_query (table where_clause order_clause pagination_clause : string)
  : string :=
  nl ++ line 12 ("SELECT * FROM " ++ table)
     ++ line 12 where_clause
     ++ line 12 order_clause
     ++ line 12 pagination_clause
     ++ indent 8.

Definition count_query (table where_clause : string) : string :=
  nl ++ line 12 ("SELECT COUNT(*) as total FROM " ++ table)
     ++ line 12 where_clause
     ++ indent 8.

(** [row[key]]. *)
Definition getitem (r : row) (key : string) : result pyval :=
  match lookup key r with
  | Some v => Ok v
  | None => Raise (KeyError key)
  end.

(** [MySQLDAO.search]. *)
Definition search (srv : server) (self : MySQLDAO) (table : string)
    (filters : list QueryFilter) (sort_options : option (list SortOption))
    (pagination : option PaginationOptions) (tr : trace)
  : result SearchResponse * trace :=
  let builder := search_builder filters sort_options pagination in
  match build_where_clause builder with
  | (Raise e, _) => (Raise e, tr)
  | (Ok where_clause, builder) =>
      let order_clause := build_order_clause builder in
      let pagination_clause := build_pagination_clause builder in
      let query := select_query table where_clause order_clause pagination_clause in
      match execute_query srv self query (params builder) tr with
      | (Raise e, tr) => (Raise e, tr)
      | (Ok results, tr) =>
          match execute_query srv self (count_query table where_clause)
                  (params builder) tr with
          | (Raise e, tr) => (Raise e, tr)
          | (Ok count_result, tr) =>
              match count_result with
              | [] => (Ok (mkSearchResponse (map PDict results) (PInt 0) []), tr)
              | first :: _ =>
                  match getitem first "total" with
                  | Raise e => (Raise e, tr)
                  | Ok t => (Ok (mkSearchResponse (map PDict results) t []), tr)
                  end
              end
          end
      end
  end.

Definition aggregate_query (table agg_field where_clause : string) : string :=
  nl ++ line 12 "SELECT "
     ++ line 16 ("COUNT(" ++ agg_field ++ ") as count,")
     ++ line 16 ("SUM(" ++ agg_field ++ ") as sum,")
     ++ line 16 ("AVG(" ++ agg_field ++ ") as average,")
     ++ line 16 ("MIN(" ++ agg_field ++ ") as min,")
     ++ line 16 ("MAX(" ++ agg_field ++ ") as max")
     ++ line 12 ("FROM " ++ table)
     ++ line 12 where_clause
     ++ indent 8.

(** The [StatResult] built from the first row of the answer. *)
Definition stat_of_row (r : row) : result StatResult :=
  bind (getitem r "count") (fun c =>
  bind (bind (getitem r "sum") (fun v => py_float (or_zero v))) (fun s =>
  bind (bind (getitem r "average") (fun v => py_float (or_zero v))) (fun a =>
  bind (bind (getitem r "min") (fun v => py_float (or_zero v))) (fun lo =>
  bind (bind (getitem r "max") (fun v => py_float (or_zero v))) (fun hi =>
  Ok (mkStatResult (or_zero c) s a lo hi)))))).

(** [MySQLDAO.aggregate]. *)
Definition aggregate (srv : server) (self : MySQLDAO) (table : string)
    (filters : list QueryFilter) (agg_field : string) (tr : trace)
  : result StatResult * trace :=
  let builder := add_filters reset filters in
  match build_where_clause builder with
  | (Raise e, _) => (Raise e, tr)
  | (Ok where_clause, builder) =>
      let query := aggregate_query table agg_field where_clause in
      match execute_query srv self query (params builder) tr with
      | (Raise e, tr) => (Raise e, tr)
      | (Ok result_rows, tr) =>
          match result_rows with
          | first :: _ => (stat_of_row first, tr)
          | [] => (Ok StatResult_default, tr)
          end
      end
  end.

End MySQL.

(* ================================================================== *)
(** ** [dao/elasticsearch_dao.py]: the search-engine adapter *)
(* ================================================================== *)

Module ES.
Import Py Base.

(** The names the module binds at top level, through its imports and its
    class statement.  A call through any other name that is not a builtin
    raises [NameError] when it is reached. *)
Definition module_globals : list string :=
  [ "asyncio"; "Dict"; "List"; "Any"; "Optional"; "Union"; "json"; "re";
    "datetime"; "AsyncElasticsearch"; "async_bulk"; "BaseDAO";
    "ConnectionMixin"; "ValidationMixin"; "QueryBuilder"; "SearchResponse";
    "StatResult"; "QueryFilter"; "SortOption"; "PaginationOptions";
    "LOG_INFO"; "LOG_ERROR"; "LOG_DEBUG"; "ElasticsearchDAO" ].

(** A call of one of the logging helpers, by the name the code uses. *)
Definition log (name : string) : result unit :=
  if existsb (String.eqb name) module_globals then Ok tt
  else Raise (NameError name).

(** [except Exception as e: LOG_ERROR(...); raise]. *)
Definition log_and_reraise (e : exn) {A : Type} : result A :=
  bind (log "LOG_ERROR") (fun _ => Raise e).

(** *** Time fields *)

Definition time_fields : list string :=
  [ "SJSJ"; "XJSJ"; "RKSJ"; "SAVETIME";
    "KDSJ"; "ZYRKSJ"; "GXSJ"; "CJSJ";
    "JZSJ"; "TJSJ"; "XXSXSJ"; "GGSJXXXRKSJ";
    "JSSJ"; "KSSJ"; "NWRKSJ"; "ZDSJ"; "QXSJ"; "ZYKRKSJ";
    "CCSJ"; "JCSJ"; "SCSJ"; "LDSJ"; "RZSJ";
    "HCSJ"; "XXRKSJ"; "JYSJ"; "CSRQ"; "CSSJ"; "DDSJ";
    "JPSJ"; "YDSJ"; "LKSJ"; "CFSJ"; "YDCFSJ"; "DDCJSJ"; "FKSJ"; "TBSJ" ].

Definition _is_time_field (field_name : string) : bool :=
  existsb (String.eqb field_name) time_fields.

Fixpoint skip_digits (s : string) : string :=
  match s with
  | String c r => if is_digit c then skip_digits r else s
  | EmptyString => s
  end.

Definition starts_with_digit (s : string) : bool :=
  match s with String c _ => is_digit c | EmptyString => false end.

(** [re.match(r'^\d+,\d+$', s)] on ASCII text; [$] also matches just
    before a final newline. *)
Definition match_millis_range (s : string) : bool :=
  (starts_with_digit s &&
   match skip_digits s with
   | String c r =>
       char_eqb c "," && starts_with_digit r &&
       (let tail := skip_digits r in
        String.eqb tail EmptyString || String.eqb tail nl)
   | EmptyString => false
   end)%bool.

Definition unpack_error (n : nat) : exn :=
  if Nat.ltb n 2
  then ValueError ("not enough values to unpack (expected 2, got "
                     ++ str_of_Z (Z.of_nat n) ++ ")")
  else ValueError "too many values to unpack (expected 2)".

(** [ElasticsearchDAO._convert_time_value]. *)
Definition _convert_time_value (value : pyval) : result pyval :=
  match value with
  | PStr s =>
      if (contains_char "," s && match_millis_range s)%bool then
        match split_char "," s with
        | [start_ts; end_ts] =>
            bind (int_of_str start_ts) (fun lo =>
            bind (int_of_str end_ts) (fun hi =>
            Ok (PDict [("gte", PInt lo); ("lte", PInt hi)])))
        | parts => Raise (unpack_error (List.length parts))
        end
      else Ok value
  | _ => Ok value
  end.

(** The value a clause is built from: the first step of
    [_build_filter_clause], which converts the value of a time field. *)
Definition clause_value (filter_obj : QueryFilter) : result pyval :=
  if _is_time_field (field filter_obj)
  then _convert_time_value (value filter_obj)
  else Ok (value filter_obj).

(** *** The query document *)

Definition dict1 (k : string) (v : pyval) : pyval := PDict [(k, v)].

(** [ElasticsearchDAO._build_filter_clause]; [None] is Python's [None]. *)
Definition _build_filter_clause (filter_obj : QueryFilter)
  : result (option pyval) :=
  let fld := field filter_obj in
  let op := operator filter_obj in
  bind (clause_value filter_obj) (fun v =>
  if String.eqb op "eq" then
    if isinstance_int_float v
    then Ok (Some (dict1 "term" (dict1 fld v)))
    else Ok (Some (dict1 "wildcard" (dict1 fld (PStr ("*" ++ py_str v ++ "*")))))
  else if String.eqb op "ne" then
    Ok (Some (dict1 "bool" (dict1 "must_not" (dict1 "term" (dict1 fld v)))))
  else if String.eqb op "gt" then
    Ok (Some (dict1 "range" (dict1 fld (dict1 "gt" v))))
  else if String.eqb op "lt" then
    Ok (Some (dict1 "range" (dict1 fld (dict1 "lt" v))))
  else if String.eqb op "gte" then
    Ok (Some (dict1 "range" (dict1 fld (dict1 "gte" v))))
  else if String.eqb op "lte" then
    Ok (Some (dict1 "range" (dict1 fld (dict1 "lte" v))))
  else if String.eqb op "like" then
    Ok (Some (dict1 "wildcard" (dict1 fld (PStr ("*" ++ py_str v ++ "*")))))
  else if String.eqb op "in" then
    Ok (Some (dict1 "terms" (dict1 fld v)))
  else if String.eqb op "not_in" then
    Ok (Some (dict1 "bool" (dict1 "must_not" (dict1 "terms" (dict1 fld v)))))
  else
    bind (log "LOG_WARNING") (fun _ => Ok None)).

(** The loop of [_build_bool_query]: a clause is kept when it is truthy. *)
Fixpoint must_clauses (fs : list QueryFilter) : result (list pyval) :=
  match fs with
  | [] => Ok []
  | f :: rest =>
      bind (_build_filter_clause f) (fun clause =>
      bind (must_clauses rest) (fun others =>
      match clause with
      | Some c => if truthy c then Ok (c :: others) else Ok others
      | None => Ok others
      end))
  end.

Definition _build_bool_query (filters : list QueryFilter) : result pyval :=
  match filters with
  | [] => Ok (dict1 "match_all" (PDict []))
  | _ =>
      bind (must_clauses filters) (fun cs =>
      Ok (dict1 "bool" (dict1 "must" (PList cs))))
  end.

Definition sort_spec (sort_obj : SortOption) : pyval :=
  dict1 (sort_field sort_obj) (dict1 "order" (PStr (lower (direction sort_obj)))).

Definition _build_search_query (filters : list QueryFilter)
    (sort_options : option (list SortOption))
    (pagination : option PaginationOptions) : result pyval :=
  bind (_build_bool_query filters) (fun q =>
  let query_body :=
    [ ("query", q);
      ("size", PInt (match pagination with Some p => limit p | None => 100 end));
      ("from", PInt (match pagination with Some p => offset p | None => 0 end)) ] in
  match sort_options with
  | Some ((_ :: _) as ss) =>
      Ok (PDict (set_item query_body "sort" (PList (map sort_spec ss))))
  | _ => Ok (PDict query_body)
  end).

(** *** The adapter *)

(** The attributes of an [ElasticsearchDAO] instance. *)
Record ElasticsearchDAO : Type := mkElasticsearchDAO {
  config : list (string * pyval);
  connection : option nat;
  client : option nat
}.

Definition new (connection_config : list (string * pyval)) : ElasticsearchDAO :=
  mkElasticsearchDAO connection_config None None.

(** [ConnectionMixin.is_connected]. *)
Definition is_connected (self : ElasticsearchDAO) : bool :=
  match connection self with Some _ => true | None => false end.

(** The keyword arguments [connect] passes to [AsyncElasticsearch]; the
    pair [(username, password)] is written as a two-element list. *)
Definition client_arguments (self : ElasticsearchDAO) : list (string * pyval) :=
  let username := get (config self) "username" PNone in
  let password := get (config self) "password" PNone in
  let auth :=
    if (truthy username && truthy password)%bool
    then PList [username; password] else PNone in
  [ ("hosts", PList [get (config self) "uri" (PStr "http://localhost:9200")]);
    ("basic_auth", auth);
    ("timeout", PInt 30);
    ("max_retries", PInt 3);
    ("retry_on_timeout", PBool true) ].

(** [except Exception as e: LOG_ERROR(...); return False]. *)
Definition log_and_return_false : result bool :=
  bind (log "LOG_ERROR") (fun _ => Ok false).

(** [ElasticsearchDAO.connect], against a library whose constructor and
    whose [info()] probe either answer or raise.  The client is stored
    before it is probed. *)
Definition connect (make_client : list (string * pyval) -> result nat)
    (info : nat -> result pyval) (self : ElasticsearchDAO)
  : result bool * ElasticsearchDAO :=
  match make_client (client_arguments self) with
  | Raise e => (log_and_return_false, self)
  | Ok c =>
      let self' := mkElasticsearchDAO (config self) (connection self) (Some c) in
      let body :=
        bind (info c) (fun i =>
        bind (py_get i "version" (PDict [])) (fun v =>
        bind (py_get v "number" (PStr "unknown")) (fun _ =>
        bind (log "LOG_INFO") (fun _ => Ok true)))) in
      match body with
      | Ok b => (Ok b, self')
      | Raise e => (log_and_return_false, self')
      end
  end.

(** A request of the client library that reaches the cluster. *)
Inductive request : Type :=
| ReqSearch (index : string) (body : pyval) (scroll : option string)
    (size : option Z)
| ReqScroll (scroll_id : pyval) (scroll : string)
| ReqClearScroll (scroll_id : pyval).

Definition is_clear_scroll (r : request) : bool :=
  match r with ReqClearScroll _ => true | _ => false end.

Section Cluster.

(** The cluster: a state and the answer it gives to each request. *)
Variable S : Type.
Variable respond : S -> request -> result pyval * S.

(** The cluster state and the requests made so far, oldest first. *)
Definition world : Type := S * list request.

Definition send (req : request) (w : world) : result pyval * world :=
  let '(answer, st) := respond (fst w) req in
  (answer, (st, (snd w ++ [req])%list)).

Definition not_initialized : exn :=
  RuntimeError "Elasticsearch client not initialized".

(** [source = hit.get('_source', {}); source['_id'] = ...;
    source['_score'] = ...] for one hit. *)
Definition flatten_hit (hit : pyval) : result pyval :=
  bind (py_get hit "_source" (PDict [])) (fun source =>
  bind (py_get hit "_id" PNone) (fun id =>
  match source with
  | PDict d =>
      bind (py_get hit "_score" PNone) (fun score =>
      Ok (PDict (set_item (set_item d "_id" id) "_score" score)))
  | _ => Raise TypeError
  end)).

Fixpoint flatten_hits (hs : list pyval) : result (list pyval) :=
  match hs with
  | [] => Ok []
  | h :: rest =>
      bind (flatten_hit h) (fun x =>
      bind (flatten_hits rest) (fun xs => Ok (x :: xs)))
  end.

(** [response.get('hits', {}).get('hits', [])]. *)
Definition response_hits (response : pyval) : result pyval :=
  bind (py_get response "hits" (PDict [])) (fun h => py_get h "hits" (PList [])).

(** [ElasticsearchDAO.search]. *)
Definition search (self : ElasticsearchDAO) (index : string)
    (filters : list QueryFilter) (sort_options : option (list SortOption))
    (pagination : option PaginationOptions) (w : world)
  : result SearchResponse * world :=
  match client self with
  | None => (Raise not_initialized, w)
  | Some _ =>
      match _build_search_query filters sort_options pagination with
      | Raise e => (log_and_reraise e, w)
      | Ok query_body =>
          match send (ReqSearch index query_body None None) w with
          | (Raise e, w) => (log_and_reraise e, w)
          | (Ok response, w) =>
              let extracted :=
                bind (response_hits response) (fun hs =>
                bind (py_iter hs) (fun items =>
                bind (flatten_hits items) (fun flat =>
                bind (py_get response "hits" (PDict [])) (fun h =>
                bind (py_get h "total" (PDict [])) (fun t =>
                bind (py_get t "value" (PInt 0)) (fun n =>
                Ok (mkSearchResponse flat n []))))))) in
              match extracted with
              | Ok r => (Ok r, w)
              | Raise e => (log_and_reraise e, w)
              end
          end
      end
  end.

Definition metric (agg_field kind : string) : pyval :=
  dict1 kind (dict1 "field" (PStr agg_field)).

Definition aggregation_body (q : pyval) (agg_field : string) : pyval :=
  PDict
    [ ("size", PInt 0);
      ("query", q);
      ("aggs",
        PDict [ ("total_count", metric agg_field "value_count");
                ("total_sum", metric agg_field "sum");
                ("total_avg", metric agg_field "avg");
                ("total_min", metric agg_field "min");
                ("total_max", metric agg_field "max") ]) ].

(** [aggregations.get(name, {}).get('value', 0)]. *)
Definition metric_value (aggregations : pyval) (name : string) : result pyval :=
  bind (py_get aggregations name (PDict [])) (fun m => py_get m "value" (PInt 0)).

(** The [StatResult] built from the answer of the aggregation request. *)
Definition stat_of_response (response : pyval) : result StatResult :=
  bind (py_get response "aggregations" (PDict [])) (fun aggregations =>
  bind (bind (metric_value aggregations "total_count") py_int) (fun c =>
  bind (bind (metric_value aggregations "total_sum") py_float) (fun s =>
  bind (bind (metric_value aggregations "total_avg") py_float) (fun a =>
  bind (bind (metric_value aggregations "total_min") py_float) (fun lo =>
  bind (bind (metric_value aggregations "total_max") py_float) (fun hi =>
  Ok (mkStatResult (PInt c) s a lo hi))))))).

(** [ElasticsearchDAO.aggregate]. *)
Definition aggregate (self : ElasticsearchDAO) (index : string)
    (filters : list QueryFilter) (agg_field : string) (w : world)
  : result StatResult * world :=
  match client self with
  | None => (Raise not_initialized, w)
  | Some _ =>
      match _build_bool_query filters with
      | Raise e => (log_and_reraise e, w)
      | Ok q =>
          match send (ReqSearch index (aggregation_body q agg_field) None None) w with
          | (Raise e, w) => (log_and_reraise e, w)
          | (Ok response, w) =>
              match stat_of_response response with
              | Ok r => (Ok r, w)
              | Raise e => (log_and_reraise e, w)
              end
          end
      end
  end.

(** What one fetch of the walk keeps of its answer: the continuation
    token, the [hits] value and its items for [all_hits.extend(hits)]. *)
Definition read_page (response : pyval) : result (pyval * pyval * list pyval) :=
  bind (py_get response "_scroll_id" PNone) (fun scroll_id =>
  bind (response_hits response) (fun hs =>
  bind (py_iter hs) (fun items => Ok (scroll_id, hs, items)))).

(** The [while hits:] loop of [scroll_search].  [None] means that the
    loop was still running when the fuel ran out. *)
Fixpoint scroll_loop (fuel : nat) (scroll_timeout : string)
    (scroll_id hs : pyval) (all_hits : list pyval) (w : world)
  : option (result (pyval * list pyval) * world) :=
  if truthy hs then
    match fuel with
    | O => None
    | Datatypes.S fuel' =>
        match send (ReqScroll scroll_id scroll_timeout) w with
        | (Raise e, w) => Some (Raise e, w)
        | (Ok response, w) =>
            match read_page response with
            | Raise e => Some (Raise e, w)
            | Ok (scroll_id, hs, items) =>
                let all_hits := (all_hits ++ items)%list in
                if truthy hs
                then scroll_loop fuel' scroll_timeout scroll_id hs all_hits w
                else Some (Ok (scroll_id, all_hits), w)
            end
        end
    end
  else Some (Ok (scroll_id, all_hits), w).

(** [[hit.get('_source', {}) for hit in all_hits]]. *)
Fixpoint sources (all_hits : list pyval) : result (list pyval) :=
  match all_hits with
  | [] => Ok []
  | h :: rest =>
      bind (py_get h "_source" (PDict [])) (fun x =>
      bind (sources rest) (fun xs => Ok (x :: xs)))
  end.

(** The part of [scroll_search] from the initial search to the end of
    the loop: the last continuation token and the accumulated hits. *)
Definition fetch_all (fuel : nat) (index : string) (query : pyval)
    (scroll_size : Z) (scroll_timeout : string) (w : world)
  : option (result (pyval * list pyval) * world) :=
  match send (ReqSearch index query (Some scroll_timeout) (Some scroll_size)) w with
  | (Raise e, w) => Some (Raise e, w)
  | (Ok response, w) =>
      match read_page response with
      | Raise e => Some (Raise e, w)
      | Ok (scroll_id, hs, items) =>
          scroll_loop fuel scroll_timeout scroll_id hs items w
      end
  end.

(** [ElasticsearchDAO.scroll_search]: the walk, then the release of the
    token when it is truthy, then the sources of the hits. *)
Definition scroll_search (fuel : nat) (self : ElasticsearchDAO)
    (index : string) (query : pyval) (scroll_size : Z)
    (scroll_timeout : string) (w : world)
  : option (result (list pyval) * world) :=
  match client self with
  | None => Some (Raise not_initialized, w)
  | Some _ =>
      match fetch_all fuel index query scroll_size scroll_timeout w with
      | None => None
      | Some (Raise e, w) => Some (log_and_reraise e, w)
      | Some (Ok (scroll_id, all_hits), w) =>
          let released :=
            if truthy scroll_id then send (ReqClearScroll scroll_id) w
            else (Ok PNone, w) in
          match released with
          | (Raise e, w) => Some (log_and_reraise e, w)
          | (Ok _, w) =>
              match sources all_hits with
              | Ok r => Some (Ok r, w)
              | Raise e => Some (log_and_reraise e, w)
              end
          end
      end
  end.

End Cluster.

(** *** A paged index

    A cluster that serves the hits of one index page by page: the search
    request fixes the page size and returns the first page, each scroll
    returns the next one, and every answer carries the same token.  With a
    budget [Some k] the node answers [k] fetches and fails on the next. *)

Record paged : Type := mkPaged {
  remaining : list pyval;
  page_size : nat;
  budget : option nat
}.

Definition cursor : pyval := PStr "cursor-1".

Definition page (hs : list pyval) : pyval :=
  PDict [("_scroll_id", cursor); ("hits", PDict [("hits", PList hs)])].

Definition node_down : exn := DriverError "ConnectionError: node unreachable".

Definition serve (st : paged) (n : nat) : result pyval * paged :=
  match budget st with
  | Some O => (Raise node_down, st)
  | b =>
      (Ok (page (firstn n (remaining st))),
       mkPaged (skipn n (remaining st)) n
         (match b with Some (Datatypes.S k) => Some k | _ => None end))
  end.

Definition paged_respond (st : paged) (req : request) : result pyval * paged :=
  match req with
  | ReqSearch _ _ _ size =>
      serve st (match size with Some n => Z.to_nat n | None => 10%nat end)
  | ReqScroll _ _ => serve st (page_size st)
  | ReqClearScroll _ => (Ok (PDict []), st)
  end.

(** A hit as the cluster returns it. *)
Definition hit (id : string) (source : pyval) : pyval :=
  PDict [("_index", PStr "docs"); ("_id", PStr id); ("_source", source)].

End ES.

(* ================================================================== *)
(** ** Scenarios used below *)
(* ================================================================== *)

Module Scenario.
Import Py Base.

(** The filter of the identity-card lookup. *)
Definition id_card_filter : QueryFilter :=
  mkQueryFilter "id_card" "eq" (PStr "110101199001011234").

(** The filter of the time-range lookup. *)
Definition time_range_filter : QueryFilter :=
  mkQueryFilter "SJSJ" "eq" (PStr "1700000000000,1700003600000").

(** A page request beyond its own [max_limit]. *)
Definition oversized_page : PaginationOptions :=
  mkPaginationOptions 0 5000 1000.

(** A filter whose operator is not in the vocabulary. *)
Definition regex_filter : QueryFilter :=
  mkQueryFilter "name" "regex" (PStr "^a.*").

(** An adapter whose pool is set. *)
Definition mysql_ready : MySQL.MySQLDAO := MySQL.mkMySQLDAO [] None (Some 1%nat).

(** A server that answers every statement with no rows. *)
Definition empty_server : MySQL.server := fun _ _ => Ok [].

(** An adapter whose client is set. *)
Definition es_ready : ES.ElasticsearchDAO := ES.mkElasticsearchDAO [] None (Some 1%nat).

(** What the search engine answers to the five-metric aggregation when no
    document matches: a zero count and sum, and null for avg, min, max. *)
Definition empty_aggregations : pyval :=
  PDict
    [ ("took", PInt 1);
      ("hits", PDict [("total", PDict [("value", PInt 0)]); ("hits", PList [])]);
      ("aggregations",
        PDict [ ("total_count", PDict [("value", PInt 0)]);
                ("total_sum", PDict [("value", PFloat (S754_zero false))]);
                ("total_avg", PDict [("value", PNone)]);
                ("total_min", PDict [("value", PNone)]);
                ("total_max", PDict [("value", PNone)]) ]) ].

(** A cluster that gives the same answer to every request. *)
Definition constant_cluster (answer : pyval) (st : unit) (req : ES.request)
  : result pyval * unit := (Ok answer, st).

(** Five documents. *)
Definition five_docs : list pyval :=
  [ ES.hit "1" (PDict [("n", PInt 1)]);
    ES.hit "2" (PDict [("n", PInt 2)]);
    ES.hit "3" (PDict [("n", PInt 3)]);
    ES.hit "4" (PDict [("n", PInt 4)]);
    ES.hit "5" (PDict [("n", PInt 5)]) ].

Definition five_sources : list pyval :=
  [ PDict [("n", PInt 1)]; PDict [("n", PInt 2)]; PDict [("n", PInt 3)];
    PDict [("n", PInt 4)]; PDict [("n", PInt 5)] ].

Definition match_all : pyval := PDict [("match_all", PDict [])].

(** The row a relational aggregate returns when no row matches. *)
Definition null_row : MySQL.row :=
  [ ("count", PInt 0); ("sum", PNone); ("average", PNone);
    ("min", PNone); ("max", PNone) ].

(** A driver failure while connecting. *)
Definition refused : exn := DriverError "ConnectionError: connection refused".

(** A search-engine library whose constructor works and whose probe fails. *)
Definition make_client_ok (kwargs : list (string * pyval)) : result nat := Ok 7%nat.
Definition info_refused (c : nat) : result pyval := Raise refused.

End Scenario.

(* ================================================================== *)
(** ** Vocabulary of the statements *)
(* ================================================================== *)

Module Spec.
Import Py Base.

(** The closed operator vocabulary. *)
Definition vocabulary : list string :=
  ["eq"; "ne"; "gt"; "lt"; "gte"; "lte"; "like"; "in"; "not_in"].

Definition in_vocabulary (op : string) : bool :=
  existsb (String.eqb op) vocabulary.

(** The error the relational builder raises for an operator [op]. *)
Definition unsupported_operator (op : string) : exn :=
  ValueError ("Unsupported operator: " ++ op).

Fixpoint all_digits (s : string) : bool :=
  match s with
  | EmptyString => true
  | String c r => (is_digit c && all_digits r)%bool
  end.

(** A non-empty run of decimal digits: what [\d+] matches. *)
Definition digit_run (s : string) : bool :=
  (negb (String.eqb s EmptyString) && all_digits s)%bool.

Fixpoint decimal_from (acc : Z) (s : string) : Z :=
  match s with
  | EmptyString => acc
  | String c r => decimal_from (10 * acc + digit_val c) r
  end.

(** The number a run of digits denotes. *)
Definition decimal (s : string) : Z := decimal_from 0 s.

(** The two ways a text matched up to [$] can end. *)
Definition line_end (rest : string) : Prop := rest = EmptyString \/ rest = nl.

(** The range object of a time filter. *)
Definition range_object (lo hi : Z) : pyval :=
  PDict [("gte", PInt lo); ("lte", PInt hi)].

(** A filter that the relational builder compiles without raising. *)
Definition compiles (f : QueryFilter) : bool :=
  (in_vocabulary (operator f) &&
   (if (String.eqb (operator f) "in" || String.eqb (operator f) "not_in")%bool
    then is_ok (py_iter (value f)) else true))%bool.

(** The hits a walk is expected to see: dicts. *)
Definition is_dict (v : pyval) : bool :=
  match v with PDict _ => true | _ => false end.

(** [hit.get('_source', {})] for a hit that is a dict. *)
Definition source_of (h : pyval) : pyval :=
  match h with
  | PDict d => get d "_source" (PDict [])
  | _ => PNone
  end.

(** The requests of a trace that release a continuation token. *)
Definition releases (reqs : list ES.request) : list ES.request :=
  List.filter ES.is_clear_scroll reqs.

(** The number of pages of size [n] that [len] hits fill. *)
Definition pages (n len : nat) : nat := Nat.div (len + n - 1) n.

End Spec.

(* ================================================================== *)
(** ** More of the runtime: [str.replace], [str.strip], substrings *)
(* ================================================================== *)

Module PyText.
Import Py.

(** [s.replace(old, new)] for a non-empty [old]: matches are taken from
    the left and do not overlap; [skip] counts the characters of the
    current match that are still to be dropped. *)
Fixpoint replace_from (old new : string) (skip : nat) (s : string) : string :=
  match s with
  | EmptyString => EmptyString
  | String c r =>
      match skip with
      | Datatypes.S k => replace_from old new k r
      | O =>
          if String.prefix old s
          then new ++ replace_from old new (String.length old - 1) r
          else String c (replace_from old new 0 r)
      end
  end.

(** With an empty [old], [new] goes before every character and at the end. *)
Fixpoint interleave (new : string) (s : string) : string :=
  match s with
  | EmptyString => new
  | String c r => new ++ String c (interleave new r)
  end.

Definition replace (old new s : string) : string :=
  match old with
  | EmptyString => interleave new s
  | _ => replace_from old new 0 s
  end.

(** [p in s] for strings. *)
Fixpoint has_sub (p s : string) : bool :=
  match s with
  | EmptyString => String.prefix p EmptyString
  | String c r => (String.prefix p s || has_sub p r)%bool
  end.

(** The characters [str.strip()] removes, on ASCII text. *)
Definition is_whitespace (c : ascii) : bool :=
  let n := nat_of_ascii c in
  ((Nat.leb 9 n && Nat.leb n 13) || (Nat.leb 28 n && Nat.leb n 32))%bool.

Fixpoint lstrip_ws (s : string) : string :=
  match s with
  | EmptyString => EmptyString
  | String c r => if is_whitespace c then lstrip_ws r else s
  end.

Fixpoint rstrip_ws_rev (rev_chars : list ascii) : list ascii :=
  match rev_chars with
  | c :: r => if is_whitespace c then rstrip_ws_rev r else rev_chars
  | [] => []
  end.

(** [s.strip()]. *)
Definition str_strip (s : string) : string :=
  string_of_list_ascii
    (rev (rstrip_ws_rev (rev (list_ascii_of_string (lstrip_ws s))))).

Fixpoint count_char (c : ascii) (s : string) : nat :=
  match s with
  | EmptyString => O
  | String a r => ((if char_eqb a c then 1 else 0) + count_char c r)%nat
  end.

End PyText.

(* ================================================================== *)
(** ** [dao/base.py]: [ValidationMixin] *)
(* ================================================================== *)

Module Validation.
Import Py Base PyText.

Definition str_truthy (s : string) : bool := negb (String.eqb s EmptyString).

(** The loop of [validate_search_filters]. *)
Fixpoint validate_loop (fs : list QueryFilter) : bool :=
  match fs with
  | [] => true
  | filter_obj :: rest =>
      if (negb (str_truthy (field filter_obj))
          || negb (str_truthy (operator filter_obj)))%bool
      then false
      else validate_loop rest
  end.

(** [ValidationMixin.validate_search_filters]. *)
Definition validate_search_filters (fs : list QueryFilter) : bool :=
  match fs with
  | [] => true
  | _ => validate_loop fs
  end.

Definition quote : string := String single_quote EmptyString.

(** [ValidationMixin.sanitize_input]. *)
Definition sanitize_input (v : pyval) : pyval :=
  match v with
  | PStr s =>
      let s1 := replace quote (quote ++ quote) s in
      let s2 := replace ";" EmptyString s1 in
      PStr (replace "--" EmptyString s2)
  | _ => v
  end.

End Validation.

(* ================================================================== *)
(** ** [dao/mysql_dao.py]: mutations, transactions, schema queries *)
(* ================================================================== *)

Module MySQLOps.
Import Py Base.

(** What a cursor shows after a statement. *)
Record cursor_state : Type := mkCursor {
  rowcount : Z;
  lastrowid : option Z
}.

(** What reaches the server through a connection of the pool. *)
Inductive event : Type :=
| Execute (query : string) (params : list pyval)
| ExecuteMany (query : string) (rows : list (list pyval))
| Begin
| Commit
| Rollback
| ClosePool.

(** The driver: the outcome of each call the adapter makes on the pool,
    on a connection and on a cursor. *)
Record driver : Type := mkDriver {
  acquire : result unit;
  execute : string -> list pyval -> result cursor_state;
  executemany : string -> list (list pyval) -> result cursor_state;
  conn_begin : result unit;
  conn_commit : result unit;
  conn_rollback : result unit;
  pool_close : result unit
}.

Definition trace : Type := list event.

Definition not_initialized : exn :=
  RuntimeError "MySQL connection pool not initialized".

(** [MySQLDAO.disconnect]. *)
Definition disconnect (drv : driver) (self : MySQL.MySQLDAO) (tr : trace)
  : result bool * MySQL.MySQLDAO * trace :=
  match MySQL.pool self with
  | None => (Ok true, self, tr)
  | Some _ =>
      match pool_close drv with
      | Ok _ => (Ok true, self, (tr ++ [ClosePool])%list)
      | Raise e => (Ok false, self, (tr ++ [ClosePool])%list)
      end
  end.

(** [params or []]. *)
Definition params_or_empty (params : option (list pyval)) : list pyval :=
  match params with
  | Some ps => ps
  | None => []
  end.

(** [MySQLDAO.execute_update]. *)
Definition execute_update (drv : driver) (self : MySQL.MySQLDAO)
    (query : string) (params : option (list pyval)) (tr : trace)
  : result Z * trace :=
  match MySQL.pool self with
  | None => (Raise not_initialized, tr)
  | Some _ =>
      match acquire drv with
      | Raise e => (Raise e, tr)
      | Ok _ =>
          let ps := params_or_empty params in
          match execute drv query ps with
          | Raise e => (Raise e, (tr ++ [Execute query ps])%list)
          | Ok c => (Ok (rowcount c), (tr ++ [Execute query ps])%list)
          end
      end
  end.

Definition insert_query (table : string) (columns placeholders : list string)
  : string :=
  nl ++ MySQL.line 12 ("INSERT INTO " ++ table ++ " (" ++ join ", " columns ++ ")")
     ++ MySQL.line 12 ("VALUES (" ++ join ", " placeholders ++ ")")
     ++ MySQL.indent 8.

(** [str(cursor.lastrowid)]. *)
Definition str_of_rowid (id : option Z) : string :=
  match id with
  | Some z => str_of_Z z
  | None => "None"
  end.

(** [MySQLDAO.insert_one]; the method has no guard of its own, so without
    a pool [self.pool.acquire()] fails on [None]. *)
Definition insert_one (drv : driver) (self : MySQL.MySQLDAO) (table : string)
    (data : list (string * pyval)) (tr : trace)
  : result (option string) * trace :=
  match data with
  | [] => (Ok None, tr)
  | _ =>
      let columns := map fst data in
      let values := map snd data in
      let placeholders := repeat "%s" (List.length values) in
      let query := insert_query table columns placeholders in
      match MySQL.pool self with
      | None => (Raise AttributeError, tr)
      | Some _ =>
          match acquire drv with
          | Raise e => (Raise e, tr)
          | Ok _ =>
              match execute drv query values with
              | Raise e => (Raise e, (tr ++ [Execute query values])%list)
              | Ok c =>
                  (Ok (Some (str_of_rowid (lastrowid c))),
                   (tr ++ [Execute query values])%list)
              end
          end
      end
  end.

(** [[row.get(col) for col in columns]]. *)
Definition project (columns : list string) (r : list (string * pyval))
  : list pyval :=
  map (fun col => get r col PNone) columns.

(** [[str(record_id + i) for i in range(n)]]. *)
Definition consecutive_ids (first : Z) (n : nat) : list string :=
  map (fun i => str_of_Z (first + Z.of_nat i)) (seq 0 n).

(** [MySQLDAO.insert_many]. *)
Definition insert_many (drv : driver) (self : MySQL.MySQLDAO) (table : string)
    (data : list (list (string * pyval))) (tr : trace)
  : result (list string) * trace :=
  match data with
  | [] => (Ok [], tr)
  | first :: _ =>
      let columns := map fst first in
      let placeholders := repeat "%s" (List.length columns) in
      let values_list := map (project columns) data in
      let query := insert_query table columns placeholders in
      match MySQL.pool self with
      | None => (Raise AttributeError, tr)
      | Some _ =>
          match acquire drv with
          | Raise e => (Raise e, tr)
          | Ok _ =>
              let tr' := (tr ++ [ExecuteMany query values_list])%list in
              match executemany drv query values_list with
              | Raise e => (Raise e, tr')
              | Ok c =>
                  match lastrowid c with
                  | None => (Raise TypeError, tr')
                  | Some id => (Ok (consecutive_ids id (List.length data)), tr')
                  end
              end
          end
      end
  end.

Definition update_query (table : string) (set_clauses : list string) : string :=
  nl ++ MySQL.line 12 ("UPDATE " ++ table)
     ++ MySQL.line 12 ("SET " ++ join ", " set_clauses)
     ++ MySQL.line 12 "WHERE id = %s"
     ++ MySQL.indent 8.

(** [MySQLDAO.update_one]. *)
Definition update_one (drv : driver) (self : MySQL.MySQLDAO) (table : string)
    (record_id : pyval) (data : list (string * pyval)) (tr : trace)
  : result bool * trace :=
  match data with
  | [] => (Ok false, tr)
  | _ =>
      let set_clauses := map (fun kv => fst kv ++ " = %s") data in
      let values := (map snd data ++ [record_id])%list in
      let query := update_query table set_clauses in
      match execute_update drv self query (Some values) tr with
      | (Raise e, tr) => (Raise e, tr)
      | (Ok affected_rows, tr) => (Ok (0 <? affected_rows), tr)
      end
  end.

Definition delete_query (table : string) : string :=
  "DELETE FROM " ++ table ++ " WHERE id = %s".

(** [MySQLDAO.delete_one]. *)
Definition delete_one (drv : driver) (self : MySQL.MySQLDAO) (table : string)
    (record_id : pyval) (tr : trace) : result bool * trace :=
  match execute_update drv self (delete_query table) (Some [record_id]) tr with
  | (Raise e, tr) => (Raise e, tr)
  | (Ok affected_rows, tr) => (Ok (0 <? affected_rows), tr)
  end.

Definition table_schema_query : string :=
  nl ++ MySQL.line 12 "SELECT "
     ++ MySQL.line 16 "COLUMN_NAME as column_name,"
     ++ MySQL.line 16 "DATA_TYPE as data_type,"
     ++ MySQL.line 16 "IS_NULLABLE as is_nullable,"
     ++ MySQL.line 16 "COLUMN_KEY as column_key,"
     ++ MySQL.line 16 "COLUMN_DEFAULT as column_default,"
     ++ MySQL.line 16 "COLUMN_COMMENT as column_comment"
     ++ MySQL.line 12 "FROM INFORMATION_SCHEMA.COLUMNS"
     ++ MySQL.line 12 "WHERE TABLE_SCHEMA = %s AND TABLE_NAME = %s"
     ++ MySQL.line 12 "ORDER BY ORDINAL_POSITION"
     ++ MySQL.indent 8.

Definition table_list_query : string :=
  nl ++ MySQL.line 12 "SELECT "
     ++ MySQL.line 16 "TABLE_NAME as table_name,"
     ++ MySQL.line 16 "TABLE_COMMENT as table_comment"
     ++ MySQL.line 12 "FROM INFORMATION_SCHEMA.TABLES"
     ++ MySQL.line 12 "WHERE TABLE_SCHEMA = %s"
     ++ MySQL.line 12 "ORDER BY TABLE_NAME"
     ++ MySQL.indent 8.

(** [MySQLDAO.get_table_schema]. *)
Definition get_table_schema (srv : MySQL.server) (self : MySQL.MySQLDAO)
    (table_name : string) (tr : MySQL.trace)
  : result (list MySQL.row) * MySQL.trace :=
  MySQL.execute_query srv self table_schema_query
    [get (MySQL.config self) "dbname" PNone; PStr table_name] tr.

(** [MySQLDAO.get_table_list]. *)
Definition get_table_list (srv : MySQL.server) (self : MySQL.MySQLDAO)
    (tr : MySQL.trace) : result (list MySQL.row) * MySQL.trace :=
  MySQL.execute_query srv self table_list_query
    [get (MySQL.config self) "dbname" PNone] tr.

(** One entry of the list given to [execute_transaction]: a dict whose
    ['query'], when present, is a string and whose ['params'], when
    present, is a list. *)
Record operation : Type := mkOperation {
  op_query : option string;
  op_params : option (list pyval)
}.

(** The [for operation in operations] loop. *)
Fixpoint run_operations (drv : driver) (ops : list operation) (tr : trace)
  : result unit * trace :=
  match ops with
  | [] => (Ok tt, tr)
  | op :: rest =>
      match op_query op with
      | None => (Raise (KeyError "query"), tr)
      | Some q =>
          let ps := params_or_empty (op_params op) in
          match execute drv q ps with
          | Raise e => (Raise e, (tr ++ [Execute q ps])%list)
          | Ok _ => run_operations drv rest (tr ++ [Execute q ps])%list
          end
      end
  end.

(** [MySQLDAO.execute_transaction]. *)
Definition execute_transaction (drv : driver) (self : MySQL.MySQLDAO)
    (operations : list operation) (tr : trace) : result bool * trace :=
  match MySQL.pool self with
  | None => (Raise not_initialized, tr)
  | Some _ =>
      match acquire drv with
      | Raise e => (Raise e, tr)
      | Ok _ =>
          match conn_begin drv with
          | Raise e => (Raise e, (tr ++ [Begin])%list)
          | Ok _ =>
              let attempt :=
                match run_operations drv operations (tr ++ [Begin])%list with
                | (Raise e, tr) => (Raise e, tr)
                | (Ok _, tr) =>
                    match conn_commit drv with
                    | Raise e => (Raise e, (tr ++ [Commit])%list)
                    | Ok _ => (Ok true, (tr ++ [Commit])%list)
                    end
                end in
              match attempt with
              | (Ok b, tr) => (Ok b, tr)
              | (Raise e, tr) =>
                  match conn_rollback drv with
                  | Raise e' => (Raise e', (tr ++ [Rollback])%list)
                  | Ok _ => (Raise e, (tr ++ [Rollback])%list)
                  end
              end
          end
      end
  end.

(** [MySQLDAO.backup_table]. *)
Definition backup_table (drv : driver) (self : MySQL.MySQLDAO)
    (table_name backup_suffix : string) (tr : trace) : result bool * trace :=
  let backup := table_name ++ backup_suffix in
  match execute_update drv self ("DROP TABLE IF EXISTS " ++ backup) None tr with
  | (Raise e, tr) => (Raise e, tr)
  | (Ok _, tr) =>
      match execute_update drv self
              ("CREATE TABLE " ++ backup ++ " AS SELECT * FROM " ++ table_name)
              None tr with
      | (Raise e, tr) => (Raise e, tr)
      | (Ok _, tr) => (Ok true, tr)
      end
  end.

End MySQLOps.

(* ================================================================== *)
(** ** [dao/elasticsearch_dao.py]: documents, indices, raw queries *)
(* ================================================================== *)

Module ESOps.
Import Py Base.

(** Calls of the client library other than search and scroll; every
    document call carries [refresh='wait_for']. *)
Inductive call : Type :=
| CallClose
| CallIndex (index : string) (body : pyval)
| CallBulk (actions : list pyval)
| CallUpdate (index : string) (id : string) (body : pyval)
| CallDelete (index : string) (id : string)
| CallExists (index : string)
| CallCreate (index : string) (body : option pyval)
| CallDeleteIndex (index : string)
| CallGetMapping (index : string).

(** The library: what each call answers, and what [async_bulk] returns
    (the success count and the list of errors). *)
Record library : Type := mkLibrary {
  answer : call -> result pyval;
  bulk : list pyval -> result (Z * list pyval)
}.

Definition trace : Type := list call.

(** Exceptions of classes that the runtime fragment above has no use for. *)
Inductive exception : Type :=
| Std (e : exn)
| PlainException (msg : string)
| NotImplementedError (msg : string).

Inductive outcome (A : Type) : Type :=
| Done (a : A)
| Throw (e : exception).
Arguments Done {A} a.
Arguments Throw {A} e.

(** [ElasticsearchDAO.disconnect]. *)
Definition disconnect (lib : library) (self : ES.ElasticsearchDAO) (tr : trace)
  : result bool * ES.ElasticsearchDAO * trace :=
  match ES.client self with
  | None => (Ok true, self, tr)
  | Some _ =>
      match answer lib CallClose with
      | Ok _ => (bind (ES.log "LOG_INFO") (fun _ => Ok true), self,
                 (tr ++ [CallClose])%list)
      | Raise e => (ES.log_and_return_false, self, (tr ++ [CallClose])%list)
      end
  end.

(** The body of a method that checks the client, makes one call and
    either passes the failure on ([raise]) or turns it into [fallback]. *)
Definition guarded_call {A : Type} (lib : library) (self : ES.ElasticsearchDAO)
    (c : call) (on_answer : pyval -> result A) (on_error : exn -> result A)
    (tr : trace) : result A * trace :=
  match ES.client self with
  | None => (Raise ES.not_initialized, tr)
  | Some _ =>
      match bind (answer lib c) on_answer with
      | Ok a => (Ok a, (tr ++ [c])%list)
      | Raise e => (on_error e, (tr ++ [c])%list)
      end
  end.

(** [ElasticsearchDAO.insert_one]. *)
Definition insert_one (lib : library) (self : ES.ElasticsearchDAO)
    (index : string) (data : list (string * pyval)) (tr : trace)
  : result pyval * trace :=
  guarded_call lib self (CallIndex index (PDict data))
    (fun response =>
       bind (py_get response "_id" PNone) (fun doc_id =>
       bind (ES.log "LOG_INFO") (fun _ => Ok doc_id)))
    (fun e => ES.log_and_reraise e) tr.

(** [ElasticsearchDAO.update_one]. *)
Definition update_one (lib : library) (self : ES.ElasticsearchDAO)
    (index doc_id : string) (data : list (string * pyval)) (tr : trace)
  : result bool * trace :=
  guarded_call lib self (CallUpdate index doc_id (ES.dict1 "doc" (PDict data)))
    (fun _ => bind (ES.log "LOG_INFO") (fun _ => Ok true))
    (fun e => ES.log_and_reraise e) tr.

(** [ElasticsearchDAO.delete_one]. *)
Definition delete_one (lib : library) (self : ES.ElasticsearchDAO)
    (index doc_id : string) (tr : trace) : result bool * trace :=
  guarded_call lib self (CallDelete index doc_id)
    (fun _ => bind (ES.log "LOG_INFO") (fun _ => Ok true))
    (fun e => ES.log_and_reraise e) tr.

(** [ElasticsearchDAO.index_exists]. *)
Definition index_exists (lib : library) (self : ES.ElasticsearchDAO)
    (index : string) (tr : trace) : result pyval * trace :=
  guarded_call lib self (CallExists index)
    (fun r => Ok r)
    (fun e => bind (ES.log "LOG_ERROR") (fun _ => Ok (PBool false))) tr.

(** [ElasticsearchDAO.create_index]. *)
Definition create_index (lib : library) (self : ES.ElasticsearchDAO)
    (index : string) (mapping : option (list (string * pyval))) (tr : trace)
  : result bool * trace :=
  let body :=
    match mapping with
    | Some ((_ :: _) as m) => Some (ES.dict1 "mappings" (PDict m))
    | _ => None
    end in
  guarded_call lib self (CallCreate index body)
    (fun _ => bind (ES.log "LOG_INFO") (fun _ => Ok true))
    (fun e => ES.log_and_return_false) tr.

(** [ElasticsearchDAO.delete_index]. *)
Definition delete_index (lib : library) (self : ES.ElasticsearchDAO)
    (index : string) (tr : trace) : result bool * trace :=
  guarded_call lib self (CallDeleteIndex index)
    (fun _ => bind (ES.log "LOG_INFO") (fun _ => Ok true))
    (fun e => ES.log_and_return_false) tr.

(** [ElasticsearchDAO.get_mapping]. *)
Definition get_mapping (lib : library) (self : ES.ElasticsearchDAO)
    (index : string) (tr : trace) : result pyval * trace :=
  guarded_call lib self (CallGetMapping index)
    (fun r => Ok r)
    (fun e => bind (ES.log "LOG_ERROR") (fun _ => Ok (PDict []))) tr.

(** [[f"doc_{i}" for i in range(n)]]. *)
Definition doc_ids (n : nat) : list string :=
  map (fun i => "doc_" ++ str_of_Z (Z.of_nat i)) (seq 0 n).

Definition bulk_action (index : string) (doc : list (string * pyval)) : pyval :=
  PDict [("_index", PStr index); ("_source", PDict doc)].

(** [ElasticsearchDAO.insert_many]. *)
Definition insert_many (lib : library) (self : ES.ElasticsearchDAO)
    (index : string) (data : list (list (string * pyval))) (tr : trace)
  : outcome (list string) * trace :=
  match ES.client self with
  | None => (Throw (Std ES.not_initialized), tr)
  | Some _ =>
      let actions := map (bulk_action index) data in
      let tr' := (tr ++ [CallBulk actions])%list in
      match bulk lib actions with
      | Raise e => (Throw (Std e), tr')
      | Ok (success_count, errors) =>
          match errors with
          | _ :: _ =>
              (Throw (PlainException
                        ("Bulk insert failed with "
                           ++ str_of_Z (Z.of_nat (List.length errors))
                           ++ " errors")), tr')
          | [] => (Done (doc_ids (List.length data)), tr')
          end
      end
  end.

(** [ElasticsearchDAO.execute_query], with the outcome of [json.loads]
    on the query text. *)
Definition execute_query (json_loads : string -> result pyval)
    (self : ES.ElasticsearchDAO) (query : string) : outcome (list pyval) :=
  match ES.client self with
  | None => Throw (Std ES.not_initialized)
  | Some _ =>
      match json_loads query with
      | Raise e => Throw (Std e)
      | Ok query_dict =>
          Throw (NotImplementedError
                   "ES query execution requires index specification")
      end
  end.

(** [ElasticsearchDAO.execute_update]. *)
Definition execute_update (self : ES.ElasticsearchDAO) (query : string)
  : outcome Z :=
  Throw (NotImplementedError "ES update operations not yet implemented").

End ESOps.

(* ================================================================== *)
(** ** [dao/__init__.py]: factory, manager and helpers *)
(* ================================================================== *)

Module DaoPackage.
Import Py Base PyText.

(** The table of [is_time_field], as this module writes it. *)
Definition time_fields : list string :=
  [ "SJSJ"; "XJSJ"; "RKSJ"; "SAVETIME";
    "KDSJ"; "ZYRKSJ"; "GXSJ"; "CJSJ";
    "JZSJ"; "TJSJ"; "XXSXSJ"; "GGSJXXXRKSJ";
    "JSSJ"; "KSSJ"; "NWRKSJ"; "ZDSJ"; "QXSJ"; "ZYKRKSJ";
    "CCSJ"; "JCSJ"; "SCSJ"; "LDSJ"; "RZSJ";
    "HCSJ"; "XXRKSJ"; "JYSJ"; "CSRQ"; "CSSJ"; "DDSJ";
    "JPSJ"; "YDSJ"; "LKSJ"; "CFSJ"; "YDCFSJ"; "DDCJSJ"; "FKSJ"; "TBSJ" ].

Definition is_time_field (field_name : string) : bool :=
  existsb (String.eqb field_name) time_fields.

Definition flexible_time_fields : list string := ["SJSJ"; "XJSJ"].

Definition is_flexible_time_field (field_name : string) : bool :=
  existsb (String.eqb field_name) flexible_time_fields.

(** [parse_time_range]; the flag [to_millis] is not read by the code. *)
Definition parse_time_range (time_range_str : string) : pyval :=
  if contains_char "," time_range_str then
    match split_char "," time_range_str with
    | [start; stop] =>
        PDict [("start", PStr (str_strip start)); ("end", PStr (str_strip stop))]
    | _ => PStr time_range_str
    end
  else PStr time_range_str.

(** An adapter of either kind, as the factory and the manager hold it. *)
Inductive adapter : Type :=
| MySQLAdapter (d : MySQL.MySQLDAO)
| ESAdapter (d : ES.ElasticsearchDAO).

(** What the manager and the factory take from outside: the [enable]
    flags of the settings, the outcome of the two factory methods that
    read the settings, and the drivers the adapters connect through. *)
Record environment : Type := mkEnvironment {
  mysql_enable : bool;
  es_enable : bool;
  create_mysql_dao : result MySQL.MySQLDAO;
  create_elasticsearch_dao : result ES.ElasticsearchDAO;
  create_pool : list (string * pyval) -> result nat;
  make_client : list (string * pyval) -> result nat;
  info : nat -> result pyval
}.

(** [DAOFactory.create_dao]. *)
Definition create_dao (env : environment) (dao_type : string) : result adapter :=
  if String.eqb (lower dao_type) "mysql" then
    bind (create_mysql_dao env) (fun d => Ok (MySQLAdapter d))
  else if (String.eqb (lower dao_type) "elasticsearch"
           || String.eqb (lower dao_type) "es")%bool then
    bind (create_elasticsearch_dao env) (fun d => Ok (ESAdapter d))
  else Raise (ValueError ("Unsupported DAO type: " ++ dao_type)).

(** The attributes of a [DatabaseManager]. *)
Record DatabaseManager : Type := mkDatabaseManager {
  mysql_dao : option MySQL.MySQLDAO;
  elasticsearch_dao : option ES.ElasticsearchDAO;
  connections : list (string * adapter)
}.

Definition new_manager : DatabaseManager := mkDatabaseManager None None [].

(** [connections[name] = dao]. *)
Fixpoint register (cs : list (string * adapter)) (name : string) (a : adapter)
  : list (string * adapter) :=
  match cs with
  | [] => [(name, a)]
  | (k, v) :: r =>
      if String.eqb k name then (name, a) :: r else (k, v) :: register r name a
  end.

Fixpoint find (name : string) (cs : list (string * adapter)) : option adapter :=
  match cs with
  | [] => None
  | (k, v) :: r => if String.eqb k name then Some v else find name r
  end.

(** The MySQL block of [initialize_all]: the success flag it leaves and
    the manager. *)
Definition initialize_mysql (env : environment) (self : DatabaseManager)
  : bool * DatabaseManager :=
  match create_mysql_dao env with
  | Raise e => (false, self)
  | Ok d =>
      match MySQL.connect (create_pool env) d with
      | (Raise e, d') =>
          (false, mkDatabaseManager (Some d') (elasticsearch_dao self)
                    (connections self))
      | (Ok _, d') =>
          (true, mkDatabaseManager (Some d') (elasticsearch_dao self)
                   (register (connections self) "mysql" (MySQLAdapter d')))
      end
  end.

(** The Elasticsearch block of [initialize_all]. *)
Definition initialize_es (env : environment) (self : DatabaseManager)
  : bool * DatabaseManager :=
  match create_elasticsearch_dao env with
  | Raise e => (false, self)
  | Ok d =>
      match ES.connect (make_client env) (info env) d with
      | (Raise e, d') =>
          (false, mkDatabaseManager (mysql_dao self) (Some d') (connections self))
      | (Ok _, d') =>
          (true, mkDatabaseManager (mysql_dao self) (Some d')
                   (register (connections self) "elasticsearch" (ESAdapter d')))
      end
  end.

(** [DatabaseManager.initialize_all]. *)
Definition initialize_all (env : environment) (self : DatabaseManager)
  : bool * DatabaseManager :=
  let '(ok1, self) :=
    if mysql_enable env then initialize_mysql env self else (true, self) in
  let '(ok2, self) :=
    if es_enable env then initialize_es env self else (true, self) in
  ((ok1 && ok2)%bool, self).

(** [DatabaseManager.get_dao]. *)
Definition manager_get_dao (self : DatabaseManager) (dao_type : string)
  : option adapter :=
  find (lower dao_type) (connections self).

(** The module-level [get_dao], on the global manager. *)
Definition get_dao (db_manager : DatabaseManager) (dao_type : string)
  : result adapter :=
  match manager_get_dao db_manager dao_type with
  | Some dao => Ok dao
  | None => Raise (RuntimeError ("DAO " ++ dao_type ++ " not initialized"))
  end.

(** The loop of [close_all]: each adapter is disconnected in turn; the
    flag turns false only if [disconnect] raises. *)
Fixpoint close_each (drv : MySQLOps.driver) (lib : ESOps.library)
    (cs : list (string * adapter)) (tr1 : MySQLOps.trace) (tr2 : ESOps.trace)
  : bool * MySQLOps.trace * ESOps.trace :=
  match cs with
  | [] => (true, tr1, tr2)
  | (name, MySQLAdapter d) :: rest =>
      let '(r, _, tr1) := MySQLOps.disconnect drv d tr1 in
      let '(ok, tr1, tr2) := close_each drv lib rest tr1 tr2 in
      ((is_ok r && ok)%bool, tr1, tr2)
  | (name, ESAdapter d) :: rest =>
      let '(r, _, tr2) := ESOps.disconnect lib d tr2 in
      let '(ok, tr1, tr2) := close_each drv lib rest tr1 tr2 in
      ((is_ok r && ok)%bool, tr1, tr2)
  end.

(** [DatabaseManager.close_all]. *)
Definition close_all (drv : MySQLOps.driver) (lib : ESOps.library)
    (self : DatabaseManager) (tr1 : MySQLOps.trace) (tr2 : ESOps.trace)
  : bool * DatabaseManager * MySQLOps.trace * ESOps.trace :=
  let '(success, tr1, tr2) := close_each drv lib (connections self) tr1 tr2 in
  (success, mkDatabaseManager (mysql_dao self) (elasticsearch_dao self) [],
   tr1, tr2).

(** The filters [search_by_keywords] builds: one equality filter for
    every key whose value is not [None]. *)
Fixpoint keyword_filters (key_fields : list (string * pyval)) : list QueryFilter :=
  match key_fields with
  | [] => []
  | (fld, v) :: rest =>
      match v with
      | PNone => keyword_filters rest
      | _ => mkQueryFilter fld "eq" v :: keyword_filters rest
      end
  end.

Definition with_stats (r : SearchResponse) (agg_field : string) (st : StatResult)
  : SearchResponse :=
  mkSearchResponse (hits r) (total r) [(agg_field, st)].

Section Backends.

Variable S : Type.
Variable respond : S -> ES.request -> result pyval * S.
Variable srv : MySQL.server.

(** The two worlds a request may touch. *)
Definition worlds : Type := ES.world S * MySQL.trace.

Definition adapter_search (dao : adapter) (index : string)
    (fs : list QueryFilter) (pag : option PaginationOptions) (w : worlds)
  : result SearchResponse * worlds :=
  match dao with
  | ESAdapter d =>
      let '(r, w1) := ES.search S respond d index fs None pag (fst w) in
      (r, (w1, snd w))
  | MySQLAdapter d =>
      let '(r, tr) := MySQL.search srv d index fs None pag (snd w) in
      (r, (fst w, tr))
  end.

Definition adapter_aggregate (dao : adapter) (index : string)
    (fs : list QueryFilter) (agg_field : string) (w : worlds)
  : result StatResult * worlds :=
  match dao with
  | ESAdapter d =>
      let '(r, w1) := ES.aggregate S respond d index fs agg_field (fst w) in
      (r, (w1, snd w))
  | MySQLAdapter d =>
      let '(r, tr) := MySQL.aggregate srv d index fs agg_field (snd w) in
      (r, (fst w, tr))
  end.

(** [search_by_keywords]; [agg_field] is the optional string argument. *)
Definition search_by_keywords (db_manager : DatabaseManager) (index : string)
    (key_fields : list (string * pyval)) (agg_field : option string)
    (offset size : Z) (w : worlds) : result SearchResponse * worlds :=
  let fs := keyword_filters key_fields in
  match get_dao db_manager "elasticsearch" with
  | Raise e => (Raise e, w)
  | Ok es_dao =>
      let pag := mkPaginationOptions offset size 1000 in
      match adapter_search es_dao index fs (Some pag) w with
      | (Raise e, w) => (Raise e, w)
      | (Ok r, w) =>
          match agg_field with
          | Some (String _ _ as name) =>
              match adapter_aggregate es_dao index fs name w with
              | (Raise e, w) => (Raise e, w)
              | (Ok st, w) => (Ok (with_stats r name st), w)
              end
          | _ => (Ok r, w)
          end
      end
  end.

End Backends.

End DaoPackage.

(* ================================================================== *)
(** ** [conf/__init__.py] and the factory methods of [dao/__init__.py] *)
(* ================================================================== *)

Module Conf.
Import Py.

(** [DatabaseConfig]: the fields the class declares. *)
Record DatabaseConfig : Type := mkDatabaseConfig {
  enable : bool;
  username : string;
  password : string;
  address : string;
  port : Z;
  dbname : string;
  charset : string
}.

(** [DatabaseConfig()] with the defaults of the class. *)
Definition DatabaseConfig_default : DatabaseConfig :=
  mkDatabaseConfig true EmptyString EmptyString EmptyString 0 EmptyString "utf8".

(** The value of a declared field, by its name. *)
Definition field_value (cfg : DatabaseConfig) (name : string) : option pyval :=
  if String.eqb name "enable" then Some (PBool (enable cfg))
  else if String.eqb name "username" then Some (PStr (username cfg))
  else if String.eqb name "password" then Some (PStr (password cfg))
  else if String.eqb name "address" then Some (PStr (address cfg))
  else if String.eqb name "port" then Some (PInt (port cfg))
  else if String.eqb name "dbname" then Some (PStr (dbname cfg))
  else if String.eqb name "charset" then Some (PStr (charset cfg))
  else None.

(** [cfg.<name>] for the names the factory methods read: the declared
    fields, and [uri], which the class does not declare and whose read
    raises [AttributeError]. *)
Definition read (cfg : DatabaseConfig) (name : string) : result pyval :=
  match field_value cfg name with
  | Some v => Ok v
  | None => Raise AttributeError
  end.

(** The sections of [Settings] that the DAO package reads. *)
Record Settings : Type := mkSettings {
  es : DatabaseConfig;
  mysql : DatabaseConfig
}.

End Conf.

Module DAOFactory.
Import Py.

(** [DAOFactory.create_mysql_dao]. *)
Definition create_mysql_dao (settings : Conf.Settings) : result MySQL.MySQLDAO :=
  bind (Conf.read (Conf.mysql settings) "address") (fun address =>
  bind (Conf.read (Conf.mysql settings) "port") (fun port =>
  bind (Conf.read (Conf.mysql settings) "username") (fun username =>
  bind (Conf.read (Conf.mysql settings) "password") (fun password =>
  bind (Conf.read (Conf.mysql settings) "dbname") (fun dbname =>
  bind (Conf.read (Conf.mysql settings) "charset") (fun charset =>
  Ok (MySQL.new [ ("address", address); ("port", port); ("username", username);
                  ("password", password); ("dbname", dbname);
                  ("charset", charset) ]))))))).

(** [DAOFactory.create_elasticsearch_dao]; the dict display reads
    [settings.es.uri] first. *)
Definition create_elasticsearch_dao (settings : Conf.Settings)
  : result ES.ElasticsearchDAO :=
  bind (Conf.read (Conf.es settings) "uri") (fun uri =>
  bind (Conf.read (Conf.es settings) "username") (fun username =>
  bind (Conf.read (Conf.es settings) "password") (fun password =>
  Ok (ES.new [ ("uri", uri); ("username", username); ("password", password) ])))).

(** What the manager takes from outside when the factory methods are
    these and the flags are those of the settings. *)
Definition environment (settings : Conf.Settings)
    (create_pool make_client : list (string * pyval) -> result nat)
    (info : nat -> result pyval) : DaoPackage.environment :=
  DaoPackage.mkEnvironment
    (Conf.enable (Conf.mysql settings)) (Conf.enable (Conf.es settings))
    (create_mysql_dao settings) (create_elasticsearch_dao settings)
    create_pool make_client info.

End DAOFactory.

(* ================================================================== *)
(** ** [service/base.py]: the data service over an adapter *)
(* ================================================================== *)

Module Service.
Import Py.

(** What a method of the data service raises: an error that came up from
    the DAO layer or one of the builtin errors modelled there, or the
    interpreter's [ZeroDivisionError]. *)
Inductive error : Type :=
| Dao (e : exn)
| ZeroDivisionError.

Inductive outcome (A : Type) : Type :=
| Done (a : A)
| Throw (e : error).
Arguments Done {A} a.
Arguments Throw {A} e.

Definition obind {A B : Type} (c : outcome A) (k : A -> outcome B) : outcome B :=
  match c with
  | Done a => k a
  | Throw e => Throw e
  end.

(** [SearchResult]; [total] and [total_pages] hold what the arithmetic on
    the backend's total gives. *)
Record SearchResult : Type := mkSearchResult {
  items : list pyval;
  total : pyval;
  page : Z;
  size : Z;
  total_pages : pyval;
  stats : list (string * Base.StatResult)
}.

(** The attributes of a [DataService] that its methods read. *)
Record DataService : Type := mkDataService {
  dao_type : string;
  _dao : option DaoPackage.adapter
}.

Definition not_initialized : error := Dao (RuntimeError "Service not initialized").

(** [a // b] on ints. *)
Definition floordiv (a b : Z) : outcome Z :=
  if b =? 0 then Throw ZeroDivisionError else Done (a / b).

Section Backends.

Variable S : Type.
Variable respond : S -> ES.request -> result pyval * S.
Variable srv : MySQL.server.

(** [(total + size - 1) // size] when [total] is a float and [size] is
    positive, as the interpreter's float arithmetic computes it. *)
Variable float_pages : spec_float -> Z -> outcome pyval.

(** [self._dao.search(index, filters, sort_options, pagination)]. *)
Definition dao_search (dao : DaoPackage.adapter) (index : string)
    (fs : list Base.QueryFilter) (sorts : option (list Base.SortOption))
    (pag : option Base.PaginationOptions) (w : DaoPackage.worlds S)
  : result Base.SearchResponse * DaoPackage.worlds S :=
  match dao with
  | DaoPackage.ESAdapter d =>
      let '(r, w1) := ES.search S respond d index fs sorts pag (fst w) in
      (r, (w1, snd w))
  | DaoPackage.MySQLAdapter d =>
      let '(r, tr) := MySQL.search srv d index fs sorts pag (snd w) in
      (r, (fst w, tr))
  end.

(** [(response.total + size - 1) // size if size > 0 else 1]. *)
Definition page_count (response_total : pyval) (sz : Z) : outcome pyval :=
  if sz >? 0 then
    match response_total with
    | PInt n => Done (PInt ((n + sz - 1) / sz))
    | PBool b => Done (PInt (((if b then 1 else 0) + sz - 1) / sz))
    | PFloat f => float_pages f sz
    | PNone | PStr _ | PList _ | PDict _ => Throw (Dao TypeError)
    end
  else Done (PInt 1).

(** [DataService.search_data]. *)
Definition search_data (self : DataService) (index : string)
    (filters : list Base.QueryFilter) (sort_options : option (list Base.SortOption))
    (pagination : option Base.PaginationOptions) (w : DaoPackage.worlds S)
  : outcome SearchResult * DaoPackage.worlds S :=
  match _dao self with
  | None => (Throw not_initialized, w)
  | Some dao =>
      match dao_search dao index filters sort_options pagination w with
      | (Raise e, w) => (Throw (Dao e), w)
      | (Ok response, w) =>
          (obind (match pagination with
                  | Some p =>
                      obind (floordiv (Base.offset p) (Base.limit p))
                        (fun q => Done (q + 1))
                  | None => Done 1
                  end) (fun pg =>
           let sz := match pagination with
                     | Some p => Base.limit p
                     | None => Z.of_nat (List.length (Base.hits response))
                     end in
           obind (page_count (Base.total response) sz) (fun pages =>
           Done (mkSearchResult (Base.hits response) (Base.total response)
                   pg sz pages (Base.stats response)))),
           w)
      end
  end.

(** [DataService.get_by_id]. *)
Definition get_by_id (self : DataService) (index : string) (record_id : pyval)
    (w : DaoPackage.worlds S) : outcome pyval * DaoPackage.worlds S :=
  match _dao self with
  | None => (Throw not_initialized, w)
  | Some dao =>
      let filters := [Base.mkQueryFilter "id" "eq" record_id] in
      match dao_search dao index filters None
              (Some (Base.mkPaginationOptions 0 1 1000)) w with
      | (Raise e, w) => (Throw (Dao e), w)
      | (Ok response, w) =>
          (Done (match Base.hits response with
                 | first :: _ => first
                 | [] => PNone
                 end), w)
      end
  end.

End Backends.

End Service.

(* ================================================================== *)
(** ** Vocabulary of the further statements *)
(* ================================================================== *)

Module Notions.
Import Py Base.

(** The parameters a filter that compiles adds to the list. *)
Definition contributed (f : QueryFilter) : list pyval :=
  if String.eqb (operator f) "like"
  then [PStr ("%" ++ py_str (value f) ++ "%")]
  else if (String.eqb (operator f) "in" || String.eqb (operator f) "not_in")%bool
  then match py_iter (value f) with Ok items => items | Raise _ => [] end
  else [value f].

(** A sort direction that reads [asc] or [desc] in some casing. *)
Definition is_word (s : string) : bool :=
  (String.eqb (lower s) "asc" || String.eqb (lower s) "desc")%bool.

(** The statement an entry of a transaction stands for. *)
Definition statement_of (op : MySQLOps.operation) : option MySQLOps.event :=
  match MySQLOps.op_query op with
  | Some q => Some (MySQLOps.Execute q (MySQLOps.params_or_empty (MySQLOps.op_params op)))
  | None => None
  end.

(** The statements of a list of entries, those without a query left out. *)
Definition sent (ops : list MySQLOps.operation) : list MySQLOps.event :=
  flat_map (fun op => match statement_of op with Some ev => [ev] | None => [] end)
    ops.

(** An entry that has a query which the server accepts. *)
Definition succeeds (drv : MySQLOps.driver) (op : MySQLOps.operation) : bool :=
  match MySQLOps.op_query op with
  | Some q =>
      is_ok (MySQLOps.execute drv q (MySQLOps.params_or_empty (MySQLOps.op_params op)))
  | None => false
  end.

(** A hit whose [_source] is a dict. *)
Definition plain_hit (h : pyval) : bool :=
  match h with
  | PDict d => match get d "_source" (PDict []) with PDict _ => true | _ => false end
  | _ => false
  end.

(** A cluster whose every answer is a page with hits. *)
Definition never_empty (S : Type) (respond : S -> ES.request -> result pyval * S)
  : Prop :=
  forall st req, exists response st' scroll_id hs items,
    respond st req = (Ok response, st') /\
    ES.read_page response = Ok (scroll_id, hs, items) /\
    truthy hs = true.

(** Values a [for] loop cannot run over. *)
Definition is_scalar (v : pyval) : bool :=
  match v with
  | PNone | PBool _ | PInt _ | PFloat _ => true
  | _ => false
  end.

Definition starts_with_dash (s : string) : bool :=
  match s with String c _ => char_eqb c "-" | EmptyString => false end.

End Notions.

(* ================================================================== *)
(** ** Further scenarios *)
(* ================================================================== *)

Module Examples.
Import Py Base.

(** A driver that accepts everything and reports row id 41. *)
Definition healthy_driver : MySQLOps.driver :=
  MySQLOps.mkDriver (Ok tt)
    (fun _ _ => Ok (MySQLOps.mkCursor 1 (Some 41)))
    (fun _ _ => Ok (MySQLOps.mkCursor 2 (Some 41)))
    (Ok tt) (Ok tt) (Ok tt) (Ok tt).

(** A driver that rejects the statement [bad]. *)
Definition picky_driver : MySQLOps.driver :=
  MySQLOps.mkDriver (Ok tt)
    (fun q _ => if String.eqb q "bad" then Raise (DriverError "syntax error")
                else Ok (MySQLOps.mkCursor 1 None))
    (fun _ _ => Ok (MySQLOps.mkCursor 1 None))
    (Ok tt) (Ok tt) (Ok tt) (Ok tt).

(** A driver on which only DROP statements succeed. *)
Definition drop_only_driver : MySQLOps.driver :=
  MySQLOps.mkDriver (Ok tt)
    (fun q _ => if String.prefix "DROP" q then Ok (MySQLOps.mkCursor 0 None)
                else Raise (DriverError "disk full"))
    (fun _ _ => Ok (MySQLOps.mkCursor 1 None))
    (Ok tt) (Ok tt) (Ok tt) (Ok tt).

(** A search-engine library whose every call fails. *)
Definition failing_library : ESOps.library :=
  ESOps.mkLibrary (fun _ => Raise Scenario.refused) (fun _ => Raise Scenario.refused).

(** A search-engine library that acknowledges every call. *)
Definition healthy_library : ESOps.library :=
  ESOps.mkLibrary (fun _ => Ok (PDict [("_id", PStr "abc"); ("acknowledged", PBool true)]))
    (fun actions => Ok (Z.of_nat (List.length actions), [])).

(** A cluster that answers every request with the same one-hit page. *)
Definition endless_page : pyval :=
  ES.page [ES.hit "1" (PDict [("n", PInt 1)])].

(** The settings in which every section has the defaults of its class. *)
Definition default_settings : Conf.Settings :=
  Conf.mkSettings Conf.DatabaseConfig_default Conf.DatabaseConfig_default.

(** The adapter that the MySQL factory method builds from them. *)
Definition default_mysql_dao : MySQL.MySQLDAO :=
  MySQL.new [ ("address", PStr EmptyString); ("port", PInt 0);
              ("username", PStr EmptyString); ("password", PStr EmptyString);
              ("dbname", PStr EmptyString); ("charset", PStr "utf8") ].

(** The repository's factory under the default settings, with drivers
    that refuse every connection. *)
Definition refusing_environment : DaoPackage.environment :=
  DAOFactory.environment default_settings
    (fun _ => Raise Scenario.refused)
    (fun _ => Raise Scenario.refused)
    (fun _ => Raise Scenario.refused).

(** A server that answers the COUNT statement with a total of 2 and every
    other statement with two rows. *)
Definition counting_server : MySQL.server :=
  fun q _ =>
    if PyText.has_sub "COUNT(*)" q then Ok [[("total", PInt 2)]]
    else Ok [[("id_card", PStr "110101199001011234"); ("name", PStr "li")];
             [("id_card", PStr "110101199001011234"); ("name", PStr "wang")]].

(** A float arithmetic that is never asked. *)
Definition no_float_pages (f : spec_float) (sz : Z) : Service.outcome pyval :=
  Service.Throw (Service.Dao TypeError).

(** A data service over a connected search-engine adapter. *)
Definition engine_service : Service.DataService :=
  Service.mkDataService "elasticsearch" (Some (DaoPackage.ESAdapter Scenario.es_ready)).

(** An answer with one hit and a total of seven. *)
Definition seven_found : pyval :=
  PDict [("hits", PDict [("total", PDict [("value", PInt 7)]);
                         ("hits", PList [ES.hit "1" (PDict [("n", PInt 1)])])])].

End Examples.

(* ================================================================== *)
(** ** Facts about the runtime fragment *)
(* ================================================================== *)

Section RuntimeFacts.
Import Py Base Spec.

Lemma append_empty_r (s : string) : s ++ EmptyString = s.
Proof. induction s as [|c r IH]; simpl; [reflexivity | now rewrite IH]. Qed.

Lemma append_assoc (a b c : string) : (a ++ b) ++ c = a ++ (b ++ c).
Proof. induction a as [|x r IH]; simpl; [reflexivity | now rewrite IH]. Qed.

Lemma digit_bounds (c : ascii) :
  is_digit c = true -> (48 <= nat_of_ascii c <= 57)%nat.
Proof.
  unfold is_digit. intros H. apply andb_true_iff in H as [H1 H2].
  apply Nat.leb_le in H1. apply Nat.leb_le in H2. lia.
Qed.

Lemma digit_not_space (c : ascii) : is_digit c = true -> is_space c = false.
Proof.
  intros H. apply digit_bounds in H. unfold is_space.
  apply orb_false_iff. split.
  - apply andb_false_iff. right. apply Nat.leb_gt. lia.
  - apply Nat.eqb_neq. lia.
Qed.

Lemma digit_not_char (c x : ascii) :
  is_digit c = true -> is_digit x = false -> char_eqb c x = false.
Proof.
  intros Hc Hx. unfold char_eqb. destruct (Ascii.eqb_spec c x) as [->|]; [|reflexivity].
  congruence.
Qed.

Lemma all_digits_no_comma (d : string) :
  all_digits d = true -> contains_char "," d = false.
Proof.
  induction d as [|c r IH]; simpl; [reflexivity|].
  intros H. apply andb_true_iff in H as [Hc Hr].
  rewrite (digit_not_char c ","%char Hc eq_refl). simpl. auto.
Qed.

Lemma contains_comma_app (a b : string) :
  contains_char "," (a ++ String "," b) = true.
Proof.
  induction a as [|c r IH]; simpl.
  - reflexivity.
  - rewrite IH. apply orb_true_r.
Qed.

Lemma skip_digits_app (d rest : string) :
  all_digits d = true -> ES.starts_with_digit rest = false ->
  ES.skip_digits (d ++ rest) = rest.
Proof.
  intros Hd Hr. induction d as [|c r IH]; simpl.
  - destruct rest as [|x t]; simpl in *; [reflexivity | now rewrite Hr].
  - simpl in Hd. apply andb_true_iff in Hd as [Hc Hd]. rewrite Hc. auto.
Qed.

Lemma starts_with_digit_app (d rest : string) :
  digit_run d = true -> ES.starts_with_digit (d ++ rest) = true.
Proof.
  unfold digit_run. destruct d as [|c r]; simpl; [discriminate|].
  intros H. now apply andb_true_iff in H as [H _].
Qed.

Lemma digit_run_all (d : string) : digit_run d = true -> all_digits d = true.
Proof. unfold digit_run. intros H. now apply andb_true_iff in H as [_ H]. Qed.

Lemma line_end_no_digit (rest : string) :
  line_end rest -> ES.starts_with_digit rest = false.
Proof. intros [-> | ->]; reflexivity. Qed.

Lemma line_end_no_comma (rest : string) :
  line_end rest -> contains_char "," rest = false.
Proof. intros [-> | ->]; reflexivity. Qed.

Lemma line_end_all_space (rest : string) : line_end rest -> all_space rest = true.
Proof. intros [-> | ->]; reflexivity. Qed.

Lemma match_millis_range_shape (d1 d2 rest : string) :
  digit_run d1 = true -> digit_run d2 = true -> line_end rest ->
  ES.match_millis_range (d1 ++ String "," (d2 ++ rest)) = true.
Proof.
  intros H1 H2 Hr. unfold ES.match_millis_range.
  rewrite (starts_with_digit_app d1 _ H1).
  rewrite (skip_digits_app d1 (String "," (d2 ++ rest)) (digit_run_all _ H1) eq_refl).
  rewrite (starts_with_digit_app d2 _ H2).
  rewrite (skip_digits_app d2 _ (digit_run_all _ H2) (line_end_no_digit _ Hr)).
  destruct Hr as [-> | ->]; reflexivity.
Qed.

Lemma contains_char_app (c : ascii) (a b : string) :
  contains_char c (a ++ b) = (contains_char c a || contains_char c b)%bool.
Proof.
  induction a as [|x r IH]; simpl; [reflexivity|].
  rewrite IH. now rewrite orb_assoc.
Qed.

Lemma split_char_none (c : ascii) (s : string) :
  contains_char c s = false -> split_char c s = [s].
Proof.
  induction s as [|x r IH]; simpl; [reflexivity|].
  intros H. apply orb_false_iff in H as [Hx Hr].
  rewrite Hx. now rewrite (IH Hr).
Qed.

Lemma split_char_first (c : ascii) (a b : string) :
  contains_char c a = false ->
  split_char c (a ++ String c b) = a :: split_char c b.
Proof.
  induction a as [|x r IH]; simpl.
  - intros _. unfold char_eqb. now rewrite Ascii.eqb_refl.
  - intros H. apply orb_false_iff in H as [Hx Hr].
    rewrite Hx. now rewrite (IH Hr).
Qed.

Lemma scan_int_digits (rest : string) :
  line_end rest ->
  forall d acc st,
    all_digits d = true ->
    (d <> EmptyString \/ st = AfterDigit) ->
    scan_int acc st (d ++ rest) = Some (decimal_from acc d, rest).
Proof.
  intros Hr. induction d as [|c r IH]; intros acc st Hd Hne.
  - destruct Hne as [Hne | ->]; [congruence|].
    destruct Hr as [-> | ->]; reflexivity.
  - simpl in Hd. apply andb_true_iff in Hd as [Hc Hd].
    simpl. rewrite Hc. apply IH; auto.
Qed.

Lemma int_of_str_digits (d rest : string) :
  digit_run d = true -> line_end rest ->
  int_of_str (d ++ rest) = Ok (decimal d).
Proof.
  intros Hd Hr. pose proof (digit_run_all _ Hd) as Hall.
  unfold int_of_str.
  destruct d as [|c r]; [discriminate|].
  simpl in Hall. apply andb_true_iff in Hall as [Hc Hall].
  assert (Hl : lstrip (String c r ++ rest) = String c (r ++ rest)).
  { simpl. now rewrite (digit_not_space c Hc). }
  rewrite Hl.
  rewrite (digit_not_char c "-"%char Hc eq_refl).
  rewrite (digit_not_char c "+"%char Hc eq_refl).
  change (String c (r ++ rest)) with (String c r ++ rest).
  rewrite (scan_int_digits rest Hr (String c r) 0 AtStart).
  - now rewrite (line_end_all_space _ Hr).
  - simpl. now rewrite Hc, Hall.
  - left. discriminate.
Qed.

(** A text of the shape [d1,d2] is converted to the range of the two numbers. *)
Lemma convert_time_value_range (d1 d2 rest : string) :
  digit_run d1 = true -> digit_run d2 = true -> line_end rest ->
  ES._convert_time_value (PStr (d1 ++ String "," (d2 ++ rest)))
  = Ok (range_object (decimal d1) (decimal d2)).
Proof.
  intros H1 H2 Hr. unfold ES._convert_time_value.
  rewrite contains_comma_app, (match_millis_range_shape _ _ _ H1 H2 Hr). simpl.
  rewrite (split_char_first _ _ _ (all_digits_no_comma _ (digit_run_all _ H1))).
  rewrite split_char_none.
  2:{ rewrite contains_char_app, (all_digits_no_comma _ (digit_run_all _ H2)).
      now rewrite (line_end_no_comma _ Hr). }
  pose proof (int_of_str_digits d1 EmptyString H1 (or_introl eq_refl)) as E1.
  rewrite append_empty_r in E1. rewrite E1. simpl.
  rewrite (int_of_str_digits d2 rest H2 Hr). reflexivity.
Qed.

Lemma digits_prefix (s : string) :
  exists d, all_digits d = true /\ s = d ++ ES.skip_digits s.
Proof.
  induction s as [|c r [d [Hd Hs]]]; simpl.
  - exists EmptyString. now split.
  - destruct (is_digit c) eqn:Hc.
    + exists (String c d). simpl. rewrite Hc, Hd. split; [reflexivity | now f_equal].
    + exists EmptyString. now split.
Qed.

Lemma digit_run_prefix (s : string) :
  ES.starts_with_digit s = true ->
  exists d, digit_run d = true /\ s = d ++ ES.skip_digits s.
Proof.
  intros Hs. destruct s as [|c r]; [discriminate|]. simpl in Hs.
  destruct (digits_prefix r) as [d [Hd Hr]].
  exists (String c d). unfold digit_run. simpl. rewrite Hs, Hd. split; [reflexivity|].
  now f_equal.
Qed.

(** What [match_millis_range] accepts is exactly the shape [d1,d2], with
    an optional final newline. *)
Lemma match_millis_range_inv (s : string) :
  ES.match_millis_range s = true ->
  exists d1 d2 rest,
    digit_run d1 = true /\ digit_run d2 = true /\ line_end rest /\
    s = d1 ++ String "," (d2 ++ rest).
Proof.
  unfold ES.match_millis_range. intros H.
  apply andb_true_iff in H as [Hs H].
  destruct (digit_run_prefix s Hs) as [d1 [Hd1 Es]].
  destruct (ES.skip_digits s) as [|c r] eqn:Hk; [discriminate|].
  apply andb_true_iff in H as [H Ht].
  apply andb_true_iff in H as [Hc Hr].
  unfold char_eqb in Hc. apply Ascii.eqb_eq in Hc. subst c.
  destruct (digit_run_prefix r Hr) as [d2 [Hd2 Er]].
  exists d1, d2, (ES.skip_digits r). repeat split; auto.
  - apply orb_true_iff in Ht as [Ht | Ht]; apply String.eqb_eq in Ht;
      [left | right]; exact Ht.
  - now rewrite <- Er.
Qed.

Lemma convert_time_value_total (v : pyval) :
  exists v', ES._convert_time_value v = Ok v'.
Proof.
  destruct v as [| b | z | f | s | l | d]; try (eexists; reflexivity).
  unfold ES._convert_time_value.
  destruct (contains_char "," s && ES.match_millis_range s)%bool eqn:Hm.
  - apply andb_true_iff in Hm as [_ Hm].
    destruct (match_millis_range_inv s Hm) as (d1 & d2 & rest & H1 & H2 & Hr & ->).
    pose proof (convert_time_value_range d1 d2 rest H1 H2 Hr) as E.
    unfold ES._convert_time_value in E.
    rewrite contains_comma_app, (match_millis_range_shape _ _ _ H1 H2 Hr) in E.
    simpl in E. eexists. exact E.
  - eexists. reflexivity.
Qed.

(** The first step of the clause builder never raises. *)
Lemma clause_value_total (f : QueryFilter) :
  exists v, ES.clause_value f = Ok v.
Proof.
  unfold ES.clause_value. destruct (ES._is_time_field (field f)).
  - apply convert_time_value_total.
  - eexists. reflexivity.
Qed.

(** It changes nothing but a range text on a time field. *)
Lemma clause_value_unchanged (f : QueryFilter) :
  ES._is_time_field (field f) = false \/
  (forall s, value f = PStr s -> ES.match_millis_range s = false) ->
  ES.clause_value f = Ok (value f).
Proof.
  unfold ES.clause_value. intros [-> | H]; [reflexivity|].
  destruct (ES._is_time_field (field f)); [|reflexivity].
  destruct (value f) as [| b | z | x | s | l | d]; try reflexivity.
  unfold ES._convert_time_value. rewrite (H s eq_refl).
  now rewrite andb_false_r.
Qed.

End RuntimeFacts.

(* ================================================================== *)
(** ** Equality filters and time ranges in the search-engine compiler *)
(* ================================================================== *)

Section SearchEngineClauses.
Import Py Base Spec Scenario.

(** C1, counterexample.  An equality filter on a time field whose value is
    a millisecond range text is not numeric, yet the wildcard pattern that
    is emitted does not wrap that text: it wraps the text of the range
    object the value was converted to. *)
Lemma es_eq_time_range_pattern :
  isinstance_int_float (value time_range_filter) = false /\
  ES._build_filter_clause time_range_filter
  = Ok (Some (ES.dict1 "wildcard"
                (ES.dict1 "SJSJ"
                   (PStr "*{'gte': 1700000000000, 'lte': 1700003600000}*")))) /\
  ES._build_filter_clause time_range_filter
  <> Ok (Some (ES.dict1 "wildcard"
                 (ES.dict1 "SJSJ" (PStr "*1700000000000,1700003600000*")))).
Proof.
  split; [reflexivity|]. split; [vm_compute; reflexivity|].
  vm_compute. discriminate.
Qed.

(** The clause of an equality filter is decided by the value that the
    time-field step leaves. *)
Lemma es_eq_clause_of_value (f : QueryFilter) (v : pyval) :
  operator f = "eq" ->
  ES.clause_value f = Ok v ->
  ES._build_filter_clause f
  = Ok (Some (if isinstance_int_float v
              then ES.dict1 "term" (ES.dict1 (field f) v)
              else ES.dict1 "wildcard"
                     (ES.dict1 (field f) (PStr ("*" ++ py_str v ++ "*"))))).
Proof.
  intros Hop Hv. unfold ES._build_filter_clause. rewrite Hv, Hop. simpl.
  destruct (isinstance_int_float v); reflexivity.
Qed.

(** C1, amended.  For every equality filter whose value the time-field
    step leaves alone, that is any filter unless its field is a time field
    and its value a millisecond range text: when the value is numeric (an
    int or a float) the clause is the term clause [{term: {field:
    value}}], otherwise it is a wildcard clause whose pattern is the value
    wrapped in [*...*]. *)
Theorem es_eq_clause (f : QueryFilter) :
  operator f = "eq" ->
  ES._is_time_field (field f) = false \/
  (forall s, value f = PStr s -> ES.match_millis_range s = false) ->
  ES._build_filter_clause f
  = Ok (Some (if isinstance_int_float (value f)
              then ES.dict1 "term" (ES.dict1 (field f) (value f))
              else ES.dict1 "wildcard"
                     (ES.dict1 (field f)
                        (PStr ("*" ++ py_str (value f) ++ "*"))))).
Proof.
  intros Hop H. apply es_eq_clause_of_value; [exact Hop|].
  now apply clause_value_unchanged.
Qed.

Lemma es_eq_clause_witness :
  ES._build_filter_clause (mkQueryFilter "age" "eq" (PInt 42))
  = Ok (Some (ES.dict1 "term" (ES.dict1 "age" (PInt 42)))) /\
  ES._build_filter_clause (mkQueryFilter "name" "eq" (PStr "li"))
  = Ok (Some (ES.dict1 "wildcard" (ES.dict1 "name" (PStr "*li*")))) /\
  ES._build_filter_clause (mkQueryFilter "SJSJ" "eq" (PInt 1700000000000))
  = Ok (Some (ES.dict1 "term" (ES.dict1 "SJSJ" (PInt 1700000000000)))).
Proof.
  split; [|split].
  - exact (es_eq_clause (mkQueryFilter "age" "eq" (PInt 42)) eq_refl
             (or_introl eq_refl)).
  - exact (es_eq_clause (mkQueryFilter "name" "eq" (PStr "li")) eq_refl
             (or_introl eq_refl)).
  - refine (es_eq_clause (mkQueryFilter "SJSJ" "eq" (PInt 1700000000000)) eq_refl
              (or_intror _)).
    intros s H. discriminate H.
Defined.




End SearchEngineClauses.

(* ================================================================== *)
(** ** The relational compiler *)
(* ================================================================== *)

Section RelationalCompiler.
Import Py Base Spec Scenario.

Lemma filter_eta (f : QueryFilter) :
  mkQueryFilter (field f) (operator f) (value f) = f.
Proof. now destruct f. Qed.

Lemma add_filters_spec (fs : list QueryFilter) (b : QueryBuilder) :
  MySQL.add_filters b fs
  = mkQueryBuilder (query b) (params b) (filters b ++ fs)%list (sorts b) (pagination b).
Proof.
  unfold MySQL.add_filters. revert b.
  induction fs as [|f fs IH]; intros b; simpl.
  - rewrite app_nil_r. now destruct b.
  - rewrite IH. unfold add_filter. simpl. rewrite filter_eta.
    now rewrite <- app_assoc.
Qed.

Lemma add_sorts_keeps (ss : list SortOption) (b : QueryBuilder) :
  filters (MySQL.add_sorts b ss) = filters b /\
  params (MySQL.add_sorts b ss) = params b /\
  pagination (MySQL.add_sorts b ss) = pagination b.
Proof.
  unfold MySQL.add_sorts. revert b.
  induction ss as [|s ss IH]; intros b; simpl; [auto|].
  destruct (IH (add_sort b (sort_field s) (direction s))) as (H1 & H2 & H3).
  rewrite H1, H2, H3. auto.
Qed.

(** [search] hands the caller's filters to the builder as they are, with
    an empty parameter list. *)
Lemma search_builder_filters (fs : list QueryFilter)
    (sort_options : option (list SortOption)) (pag : option PaginationOptions) :
  filters (MySQL.search_builder fs sort_options pag) = fs /\
  params (MySQL.search_builder fs sort_options pag) = [].
Proof.
  unfold MySQL.search_builder.
  assert (H0 : filters (MySQL.add_filters reset fs) = fs /\
               params (MySQL.add_filters reset fs) = []).
  { rewrite add_filters_spec. simpl. auto. }
  destruct H0 as [Hf Hp].
  destruct sort_options as [ss|]; destruct pag as [p|]; simpl;
    try destruct (add_sorts_keeps ss (MySQL.add_filters reset fs)) as (H1 & H2 & _);
    try rewrite H1; try rewrite H2; auto.
Qed.

Lemma expand_list_spec (vals ps : list pyval) :
  expand_list ps vals
  = (map placeholder (seq (S (List.length ps)) (List.length vals)),
     (ps ++ vals)%list).
Proof.
  revert ps. induction vals as [|v rest IH]; intros ps; simpl.
  - now rewrite app_nil_r.
  - rewrite IH. rewrite length_app. simpl.
    rewrite Nat.add_1_r. now rewrite <- app_assoc.
Qed.

Lemma not_in_vocabulary (op : string) :
  in_vocabulary op = false ->
  String.eqb op "eq" = false /\ String.eqb op "ne" = false /\
  String.eqb op "gt" = false /\ String.eqb op "lt" = false /\
  String.eqb op "gte" = false /\ String.eqb op "lte" = false /\
  String.eqb op "like" = false /\ String.eqb op "in" = false /\
  String.eqb op "not_in" = false.
Proof.
  unfold in_vocabulary, vocabulary. simpl. intros H.
  repeat (apply orb_false_iff in H as [? H]). repeat split; assumption.
Qed.

Lemma unsupported_filter_raises (qb : QueryBuilder) (f : QueryFilter) :
  in_vocabulary (operator f) = false ->
  _build_filter_clause qb f = (Raise (unsupported_operator (operator f)), qb).
Proof.
  intros H. apply not_in_vocabulary in H.
  destruct H as (H1 & H2 & H3 & H4 & H5 & H6 & H7 & H8 & H9).
  unfold _build_filter_clause.
  now rewrite H1, H2, H3, H4, H5, H6, H7, H8, H9.
Qed.

Lemma compiles_ok (qb : QueryBuilder) (f : QueryFilter) :
  compiles f = true ->
  exists clause qb', _build_filter_clause qb f = (Ok clause, qb').
Proof.
  unfold compiles, in_vocabulary, vocabulary, _build_filter_clause. simpl.
  intros H. apply andb_true_iff in H as [Hv Hi].
  destruct (String.eqb (operator f) "eq"); [eauto|].
  destruct (String.eqb (operator f) "ne"); [eauto|].
  destruct (String.eqb (operator f) "gt"); [eauto|].
  destruct (String.eqb (operator f) "lt"); [eauto|].
  destruct (String.eqb (operator f) "gte"); [eauto|].
  destruct (String.eqb (operator f) "lte"); [eauto|].
  destruct (String.eqb (operator f) "like"); [eauto|].
  destruct (String.eqb (operator f) "in").
  { simpl in Hi. destruct (py_iter (value f)); [|discriminate].
    destruct (expand_list (params qb) a). eauto. }
  destruct (String.eqb (operator f) "not_in").
  { simpl in Hi. destruct (py_iter (value f)); [|discriminate].
    destruct (expand_list (params qb) a). eauto. }
  discriminate.
Qed.

(** The loop stops at the first filter it cannot compile. *)
Lemma build_clauses_unsupported (pre post : list QueryFilter) (f : QueryFilter) :
  forallb compiles pre = true ->
  in_vocabulary (operator f) = false ->
  forall qb,
    fst (build_clauses qb (pre ++ f :: post))
    = Raise (unsupported_operator (operator f)).
Proof.
  intros Hpre Hf. induction pre as [|g pre IH]; intros qb; simpl.
  - now rewrite (unsupported_filter_raises qb f Hf).
  - simpl in Hpre. apply andb_true_iff in Hpre as [Hg Hpre].
    destruct (compiles_ok qb g Hg) as (c & qb' & E). rewrite E.
    specialize (IH Hpre qb').
    destruct (build_clauses qb' (pre ++ f :: post)) as [[cs|e] qb'']; simpl in *;
      congruence.
Qed.

Lemma build_clauses_some_unsupported (fs : list QueryFilter) :
  existsb (fun f => negb (in_vocabulary (operator f))) fs = true ->
  forall qb, exists e, fst (build_clauses qb fs) = Raise e.
Proof.
  induction fs as [|g fs IH]; simpl; [discriminate|].
  intros H qb. apply orb_true_iff in H.
  destruct (in_vocabulary (operator g)) eqn:Hg.
  - destruct H as [H|H]; [discriminate|].
    destruct (_build_filter_clause qb g) as [[c|e] qb']; simpl; [|eauto].
    destruct (IH H qb') as [e E].
    destruct (build_clauses qb' fs) as [[cs|e'] qb'']; simpl in *; eauto.
    discriminate.
  - rewrite (unsupported_filter_raises qb g Hg). simpl. eauto.
Qed.

Lemma build_where_clause_raises (qb : QueryBuilder) (e : exn) :
  filters qb <> [] ->
  fst (build_clauses qb (filters qb)) = Raise e ->
  fst (build_where_clause qb) = Raise e.
Proof.
  unfold build_where_clause. intros Hne H.
  destruct (filters qb) as [|f fs] eqn:Hfs; [congruence|].
  destruct (build_clauses qb (f :: fs)) as [[cs|e'] qb']; simpl in *; congruence.
Qed.

Lemma search_compile_error (srv : MySQL.server) (self : MySQL.MySQLDAO)
    (table : string) (fs : list QueryFilter) (sorts : option (list SortOption))
    (pag : option PaginationOptions) (tr : MySQL.trace) (e : exn) :
  fst (build_where_clause (MySQL.search_builder fs sorts pag)) = Raise e ->
  MySQL.search srv self table fs sorts pag tr = (Raise e, tr).
Proof.
  unfold MySQL.search.
  destruct (build_where_clause (MySQL.search_builder fs sorts pag)) as [[c|e'] b];
    simpl; intros H; [discriminate | congruence].
Qed.

Lemma aggregate_compile_error (srv : MySQL.server) (self : MySQL.MySQLDAO)
    (table : string) (fs : list QueryFilter) (agg_field : string)
    (tr : MySQL.trace) (e : exn) :
  fst (build_where_clause (MySQL.add_filters reset fs)) = Raise e ->
  MySQL.aggregate srv self table fs agg_field tr = (Raise e, tr).
Proof.
  unfold MySQL.aggregate.
  destruct (build_where_clause (MySQL.add_filters reset fs)) as [[c|e'] b];
    simpl; intros H; [discriminate | congruence].
Qed.

Lemma es_unsupported_filter (f : QueryFilter) :
  in_vocabulary (operator f) = false ->
  ES._build_filter_clause f = bind (ES.log "LOG_WARNING") (fun _ => Ok None).
Proof.
  intros H. apply not_in_vocabulary in H.
  destruct H as (H1 & H2 & H3 & H4 & H5 & H6 & H7 & H8 & H9).
  unfold ES._build_filter_clause.
  destruct (clause_value_total f) as [v ->]. simpl.
  now rewrite H1, H2, H3, H4, H5, H6, H7, H8, H9.
Qed.

(** C8.  For an [in] or [not_in] filter over a list of [n] values the
    clause is [field IN (...)] or [field NOT IN (...)] with exactly [n]
    placeholders between the parentheses, numbered from the position after
    the parameters already present, and the [n] values are appended to the
    parameter list in the order of the list. *)
Theorem in_list_placeholders (qb : QueryBuilder) (fld op : string)
    (vals : list pyval) :
  op = "in" \/ op = "not_in" ->
  let placeholders :=
    map placeholder (seq (S (List.length (params qb))) (List.length vals)) in
  _build_filter_clause qb (mkQueryFilter fld op (PList vals))
  = (Ok (fld ++ (if String.eqb op "in" then " IN (" else " NOT IN (")
             ++ join ", " placeholders ++ ")"),
     set_params qb (params qb ++ vals)%list) /\
  List.length placeholders = List.length vals.
Proof.
  intros Hop placeholders. split.
  - unfold _build_filter_clause. simpl.
    destruct Hop as [-> | ->]; simpl; now rewrite expand_list_spec.
  - unfold placeholders. now rewrite length_map, length_seq.
Qed.

Lemma in_list_placeholders_witness :
  _build_filter_clause (set_params reset [PStr "x"])
    (mkQueryFilter "age" "in" (PList [PInt 30; PInt 40; PInt 50]))
  = (Ok "age IN ($2, $3, $4)",
     set_params reset [PStr "x"; PInt 30; PInt 40; PInt 50]) /\
  List.length (map placeholder (seq 2 3)) = 3%nat.
Proof.
  exact (in_list_placeholders (set_params reset [PStr "x"]) "age" "in"
           [PInt 30; PInt 40; PInt 50] (or_introl eq_refl)).
Defined.

(** C9, counterexample.  For the identity-card filter the relational
    clause is not [WHERE id_card = ?] and the search-engine clause is not
    a term clause. *)
Lemma id_card_scenario_differs :
  fst (build_where_clause (MySQL.search_builder [id_card_filter] None None))
  <> Ok "WHERE id_card = ?" /\
  ES._build_filter_clause id_card_filter
  <> Ok (Some (ES.dict1 "term" (ES.dict1 "id_card" (PStr "110101199001011234")))).
Proof. split; vm_compute; discriminate. Qed.

(** C9, amended.  For the identity-card filter the relational compiler
    produces [WHERE id_card = $1], with a numbered placeholder, and the
    parameter list holding the one string; the search-engine compiler
    produces a wildcard clause over [*110101199001011234*], the value
    being a string. *)
Theorem id_card_scenario :
  fst (build_where_clause (MySQL.search_builder [id_card_filter] None None))
  = Ok "WHERE id_card = $1" /\
  params (snd (build_where_clause (MySQL.search_builder [id_card_filter] None None)))
  = [PStr "110101199001011234"] /\
  ES._build_filter_clause id_card_filter
  = Ok (Some (ES.dict1 "wildcard"
                (ES.dict1 "id_card" (PStr "*110101199001011234*")))).
Proof. repeat split; vm_compute; reflexivity. Qed.

(** C2, counterexample.  For the time-range filter the relational
    compiler receives the text as it was given: one equality clause and
    one string parameter, not two millisecond integers. *)
Lemma time_range_scenario_differs :
  fst (build_where_clause (MySQL.search_builder [time_range_filter] None None))
  = Ok "WHERE SJSJ = $1" /\
  params (snd (build_where_clause (MySQL.search_builder [time_range_filter] None None)))
  <> [PInt 1700000000000; PInt 1700003600000].
Proof. split; vm_compute; [reflexivity | discriminate]. Qed.

(** C2, amended.  The time-field step belongs to the search-engine clause
    builder only: there the value of the time-range filter becomes [{gte:
    1700000000000, lte: 1700003600000}].  The relational adapter hands
    every filter list to its builder unchanged, and for this one emits
    [WHERE SJSJ = $1] with the original text as the only parameter. *)
Theorem time_range_scenario :
  ES.clause_value time_range_filter
  = Ok (range_object 1700000000000 1700003600000) /\
  (forall fs sorts pag, filters (MySQL.search_builder fs sorts pag) = fs) /\
  fst (build_where_clause (MySQL.search_builder [time_range_filter] None None))
  = Ok "WHERE SJSJ = $1" /\
  params (snd (build_where_clause (MySQL.search_builder [time_range_filter] None None)))
  = [PStr "1700000000000,1700003600000"].
Proof.
  split; [vm_compute; reflexivity|]. split.
  - intros fs sorts pag. apply search_builder_filters.
  - split; vm_compute; reflexivity.
Qed.

(** C3, counterexample.  A page request whose limit is above its
    [max_limit] is compiled by both compilers and the statement is sent. *)
Lemma oversized_page_is_compiled :
  max_limit oversized_page < limit oversized_page /\
  build_pagination_clause (MySQL.search_builder [] None (Some oversized_page))
  = "LIMIT 5000 OFFSET 0" /\
  ES._build_search_query [] None (Some oversized_page)
  = Ok (PDict [("query", match_all); ("size", PInt 5000); ("from", PInt 0)]) /\
  is_ok (fst (MySQL.search empty_server mysql_ready "t" [] None
                (Some oversized_page) [])) = true.
Proof. repeat split; vm_compute; reflexivity. Qed.

(** C3, amended.  For every page request, whatever its limit and its
    [max_limit], the relational compiler produces exactly [LIMIT limit
    OFFSET offset] and the search-engine compiler a document with [size:
    limit] and [from: offset]; no step compares the limit with
    [max_limit], so nothing is rejected. *)
Theorem pagination_compiled_unchecked (p : PaginationOptions) (fs : list QueryFilter)
    (sorts : option (list SortOption)) :
  build_pagination_clause (MySQL.search_builder fs sorts (Some p))
  = "LIMIT " ++ str_of_Z (limit p) ++ " OFFSET " ++ str_of_Z (offset p) /\
  match ES._build_bool_query fs with
  | Ok q =>
      exists body,
        ES._build_search_query fs sorts (Some p) = Ok (PDict body) /\
        lookup "query" body = Some q /\
        lookup "size" body = Some (PInt (limit p)) /\
        lookup "from" body = Some (PInt (offset p))
  | Raise e => ES._build_search_query fs sorts (Some p) = Raise e
  end.
Proof.
  split.
  - unfold MySQL.search_builder, build_pagination_clause. reflexivity.
  - unfold ES._build_search_query.
    destruct (ES._build_bool_query fs) as [q|e]; simpl; [|reflexivity].
    destruct sorts as [[|s ss]|]; simpl; eexists; repeat split; reflexivity.
Qed.

(** C4, counterexample.  With a filter whose operator is outside the
    vocabulary the search-engine adapter does not fail with the
    unsupported-operator error. *)
Lemma es_no_unsupported_operator_error :
  in_vocabulary (operator regex_filter) = false /\
  fst (ES.search unit (constant_cluster (PDict [])) es_ready "people"
         [regex_filter] None None (tt, []))
  = Raise (NameError "LOG_WARNING") /\
  fst (ES.search unit (constant_cluster (PDict [])) es_ready "people"
         [regex_filter] None None (tt, []))
  <> Raise (unsupported_operator (operator regex_filter)).
Proof.
  split; [reflexivity|]. split; vm_compute; [reflexivity | discriminate].
Qed.

(** C4, amended.  For a filter whose operator is outside the vocabulary
    the relational clause builder raises [ValueError("Unsupported
    operator: <op>")] and leaves the parameters as they were; [search] and
    [aggregate] of the relational adapter then fail as a whole before any
    statement is sent, with that error when the filters before it compile.
    The search-engine clause builder has no such error: for such a filter
    it never yields a clause and never raises the unsupported-operator
    error. *)
Theorem unsupported_operator_handling :
  (forall qb f,
     in_vocabulary (operator f) = false ->
     _build_filter_clause qb f = (Raise (unsupported_operator (operator f)), qb)) /\
  (forall srv self table pre f post sorts pag agg_field tr,
     in_vocabulary (operator f) = false ->
     forallb compiles pre = true ->
     MySQL.search srv self table (pre ++ f :: post) sorts pag tr
     = (Raise (unsupported_operator (operator f)), tr) /\
     MySQL.aggregate srv self table (pre ++ f :: post) agg_field tr
     = (Raise (unsupported_operator (operator f)), tr)) /\
  (forall srv self table fs sorts pag tr,
     existsb (fun f => negb (in_vocabulary (operator f))) fs = true ->
     exists e, MySQL.search srv self table fs sorts pag tr = (Raise e, tr)) /\
  (forall f,
     in_vocabulary (operator f) = false ->
     (forall c, ES._build_filter_clause f <> Ok (Some c)) /\
     ES._build_filter_clause f <> Raise (unsupported_operator (operator f))).
Proof.
  split; [exact unsupported_filter_raises|]. split; [|split].
  - intros srv self table pre f post sorts pag agg_field tr Hf Hpre. split.
    + apply search_compile_error.
      destruct (search_builder_filters (pre ++ f :: post) sorts pag) as [Hfs _].
      apply build_where_clause_raises.
      * rewrite Hfs. now destruct pre.
      * rewrite Hfs. now apply build_clauses_unsupported.
    + apply aggregate_compile_error.
      assert (Hfs : filters (MySQL.add_filters reset (pre ++ f :: post))
                    = (pre ++ f :: post)%list)
        by (rewrite add_filters_spec; reflexivity).
      apply build_where_clause_raises.
      * rewrite Hfs. now destruct pre.
      * rewrite Hfs. now apply build_clauses_unsupported.
  - intros srv self table fs sorts pag tr Hex.
    destruct (search_builder_filters fs sorts pag) as [Hfs _].
    destruct (build_clauses_some_unsupported fs Hex
                (MySQL.search_builder fs sorts pag)) as [e He].
    exists e. apply search_compile_error.
    apply build_where_clause_raises.
    + rewrite Hfs. destruct fs; [discriminate | discriminate].
    + now rewrite Hfs.
  - intros f Hf. rewrite (es_unsupported_filter f Hf). split.
    + intros c. vm_compute. discriminate.
    + vm_compute. discriminate.
Qed.

Lemma unsupported_operator_handling_witness :
  MySQL.search empty_server mysql_ready "people"
    [id_card_filter; regex_filter] None None []
  = (Raise (ValueError "Unsupported operator: regex"), []) /\
  (forall c, ES._build_filter_clause regex_filter <> Ok (Some c)).
Proof.
  split.
  - exact (proj1 (proj1 (proj2 unsupported_operator_handling)
             empty_server mysql_ready "people" [id_card_filter] regex_filter []
             None None "age" [] eq_refl eq_refl)).
  - exact (proj1 (proj2 (proj2 (proj2 unsupported_operator_handling))
             regex_filter eq_refl)).
Defined.

End RelationalCompiler.

(* ================================================================== *)
(** ** Aggregates over an empty result set *)
(* ================================================================== *)

Section Aggregates.
Import Py Base Spec Scenario.

(** The relational adapter maps NULL aggregates to zero. *)
Lemma mysql_stat_of_null_row (c : pyval) :
  c = PNone \/ c = PInt 0 ->
  MySQL.stat_of_row
    [ ("count", c); ("sum", PNone); ("average", PNone);
      ("min", PNone); ("max", PNone) ]
  = Ok StatResult_default.
Proof. intros [-> | ->]; reflexivity. Qed.

Lemma mysql_aggregate_empty (srv : MySQL.server) (table agg_field : string)
    (tr : MySQL.trace) :
  srv (MySQL.aggregate_query table agg_field EmptyString) [] = Ok [] \/
  srv (MySQL.aggregate_query table agg_field EmptyString) [] = Ok [null_row] ->
  fst (MySQL.aggregate srv mysql_ready table [] agg_field tr)
  = Ok StatResult_default.
Proof.
  unfold MySQL.aggregate, MySQL.execute_query. simpl.
  intros [-> | ->]; reflexivity.
Qed.

(** So does the search-engine adapter when the metrics are absent. *)
Lemma es_stat_of_absent_metrics :
  ES.stat_of_response (PDict []) = Ok StatResult_default /\
  ES.stat_of_response
    (PDict [("aggregations",
             PDict [("total_count", PDict []); ("total_avg", PDict [])])])
  = Ok StatResult_default.
Proof. split; reflexivity. Qed.

(** C5, at the failing input.  When the search engine answers the
    aggregation over an empty result set with null for avg, min and max,
    [aggregate] raises [TypeError] instead of returning the zero
    [StatResult]: [.get('value', 0)] yields the null that is present, and
    [float(None)] raises. *)
Theorem es_aggregate_null_metrics :
  ES.stat_of_response empty_aggregations = Raise TypeError /\
  ES.aggregate unit (constant_cluster empty_aggregations) es_ready
    "people" [] "age" (tt, [])
  = (Raise TypeError,
     (tt, [ES.ReqSearch "people" (ES.aggregation_body match_all "age") None None])).
Proof. split; vm_compute; reflexivity. Qed.

End Aggregates.

(* ================================================================== *)
(** ** Connecting *)
(* ================================================================== *)

Section Connecting.
Import Py Base Spec Scenario.

(** No adapter ever assigns [self.connection]: the mixin's test reads the
    same before and after any call of [connect]. *)
Lemma is_connected_unchanged :
  (forall create_pool self,
     MySQL.is_connected (snd (MySQL.connect create_pool self))
     = MySQL.is_connected self) /\
  (forall make_client info self,
     ES.is_connected (snd (ES.connect make_client info self))
     = ES.is_connected self).
Proof.
  split.
  - intros create_pool self. unfold MySQL.connect.
    now destruct (create_pool (MySQL.pool_arguments self)).
  - intros make_client info self. unfold ES.connect.
    destruct (make_client (ES.client_arguments self)) as [c|e]; [|reflexivity].
    now destruct (bind (info c) _).
Qed.

(** C10, counterexample.  When the probe of a freshly built client fails,
    [connect] of the search-engine adapter returns [False] but keeps the
    client: unlike a fresh adapter, it no longer refuses to search. *)
Lemma es_failed_connect_keeps_client :
  ES.connect make_client_ok info_refused (ES.new [])
  = (Ok false, ES.mkElasticsearchDAO [] None (Some 7%nat)) /\
  fst (ES.search unit (constant_cluster (PDict [])) (ES.new [])
         "people" [] None None (tt, []))
  = Raise (ES.not_initialized) /\
  ES.search unit (constant_cluster (PDict []))
    (snd (ES.connect make_client_ok info_refused (ES.new [])))
    "people" [] None None (tt, [])
  = (Ok (mkSearchResponse [] (PInt 0) []),
     (tt, [ES.ReqSearch "people"
             (PDict [("query", match_all); ("size", PInt 100); ("from", PInt 0)])
             None None])).
Proof. repeat split; vm_compute; reflexivity. Qed.

(** C10, amended.  [connect] of either adapter never raises: it returns
    [False] when the driver fails and [True] when it succeeds.  A failed
    call leaves the relational adapter as it was; the search-engine
    adapter is left as it was when the client cannot be built, but keeps
    the client it built when the failure comes from the probe. *)
Theorem connect_returns_boolean :
  (forall create_pool self,
     (exists b self', MySQL.connect create_pool self = (Ok b, self')) /\
     (forall p, create_pool (MySQL.pool_arguments self) = Ok p ->
        MySQL.connect create_pool self
        = (Ok true, MySQL.mkMySQLDAO (MySQL.config self) (MySQL.connection self) (Some p))) /\
     (forall e, create_pool (MySQL.pool_arguments self) = Raise e ->
        MySQL.connect create_pool self = (Ok false, self))) /\
  (forall make_client info self,
     (exists b self', ES.connect make_client info self = (Ok b, self')) /\
     (forall e, make_client (ES.client_arguments self) = Raise e ->
        ES.connect make_client info self = (Ok false, self)) /\
     (forall c e, make_client (ES.client_arguments self) = Ok c ->
        info c = Raise e ->
        ES.connect make_client info self
        = (Ok false, ES.mkElasticsearchDAO (ES.config self) (ES.connection self) (Some c))) /\
     (forall c d, make_client (ES.client_arguments self) = Ok c ->
        info c = Ok (PDict d) ->
        is_dict (get d "version" (PDict [])) = true ->
        ES.connect make_client info self
        = (Ok true, ES.mkElasticsearchDAO (ES.config self) (ES.connection self) (Some c)))).
Proof.
  split.
  - intros create_pool self. unfold MySQL.connect.
    destruct (create_pool (MySQL.pool_arguments self)) as [p|e].
    + split; [eauto|]. split; [intros q H; congruence | discriminate].
    + split; [eauto|]. split; [discriminate | reflexivity].
  - intros make_client info self. unfold ES.connect.
    change ES.log_and_return_false with (@Ok bool false).
    change (ES.log "LOG_INFO") with (Ok tt).
    destruct (make_client (ES.client_arguments self)) as [c|e].
    + split; [|split; [discriminate | split]].
      * destruct (info c) as [i|e]; simpl; [|eauto].
        destruct (py_get i "version" (PDict [])) as [v|e]; simpl; [|eauto].
        destruct (py_get v "number" (PStr "unknown")) as [n|e]; simpl; eauto.
      * intros c' e Hc Hi. injection Hc as <-. now rewrite Hi.
      * intros c' d Hc Hi Hv. injection Hc as <-. rewrite Hi. simpl.
        destruct (get d "version" (PDict [])); try discriminate. reflexivity.
    + split; [eauto|]. split; [reflexivity|]. split; discriminate.
Qed.

Lemma connect_returns_boolean_witness :
  MySQL.connect (fun _ => Raise refused) (MySQL.new []) = (Ok false, MySQL.new []) /\
  MySQL.connect (fun _ => Ok 3%nat) (MySQL.new [])
  = (Ok true, MySQL.mkMySQLDAO [] None (Some 3%nat)) /\
  ES.connect (fun _ => Raise refused) info_refused (ES.new []) = (Ok false, ES.new []) /\
  ES.connect make_client_ok info_refused (ES.new [])
  = (Ok false, ES.mkElasticsearchDAO [] None (Some 7%nat)) /\
  ES.connect make_client_ok
    (fun _ => Ok (PDict [("version", PDict [("number", PStr "8.11.0")])]))
    (ES.new [])
  = (Ok true, ES.mkElasticsearchDAO [] None (Some 7%nat)).
Proof.
  split; [|split; [|split; [|split]]].
  - exact (proj2 (proj2 (proj1 connect_returns_boolean
             (fun _ => Raise refused) (MySQL.new []))) refused eq_refl).
  - exact (proj1 (proj2 (proj1 connect_returns_boolean
             (fun _ => Ok 3%nat) (MySQL.new []))) 3%nat eq_refl).
  - exact (proj1 (proj2 (proj2 connect_returns_boolean
             (fun _ => Raise refused) info_refused (ES.new []))) refused eq_refl).
  - exact (proj1 (proj2 (proj2 (proj2 connect_returns_boolean
             make_client_ok info_refused (ES.new [])))) 7%nat refused eq_refl eq_refl).
  - exact (proj2 (proj2 (proj2 (proj2 connect_returns_boolean
             make_client_ok
             (fun _ => Ok (PDict [("version", PDict [("number", PStr "8.11.0")])]))
             (ES.new []))))
             7%nat [("version", PDict [("number", PStr "8.11.0")])]
             eq_refl eq_refl eq_refl).
Defined.

End Connecting.

(* ================================================================== *)
(** ** The scroll walk *)
(* ================================================================== *)

Section ScrollWalk.
Import Py Base Spec Scenario.

Lemma scroll_loop_O (S : Type) (respond : S -> ES.request -> result pyval * S)
    (t : string) (sid hs : pyval) (acc : list pyval) (w : ES.world S) :
  ES.scroll_loop S respond 0 t sid hs acc w
  = if truthy hs then None else Some (Ok (sid, acc), w).
Proof. reflexivity. Qed.

Lemma scroll_loop_S (S : Type) (respond : S -> ES.request -> result pyval * S)
    (fuel : nat) (t : string) (sid hs : pyval) (acc : list pyval)
    (w : ES.world S) :
  ES.scroll_loop S respond (Datatypes.S fuel) t sid hs acc w
  = if truthy hs then
      match ES.send S respond (ES.ReqScroll sid t) w with
      | (Raise e, w1) => Some (Raise e, w1)
      | (Ok response, w1) =>
          match ES.read_page response with
          | Raise e => Some (Raise e, w1)
          | Ok (sid', hs', items) =>
              if truthy hs'
              then ES.scroll_loop S respond fuel t sid' hs' (acc ++ items)%list w1
              else Some (Ok (sid', (acc ++ items)%list), w1)
          end
      end
    else Some (Ok (sid, acc), w).
Proof. reflexivity. Qed.

Lemma send_trace (S : Type) (respond : S -> ES.request -> result pyval * S)
    (req : ES.request) (w : ES.world S) :
  snd (snd (ES.send S respond req w)) = (snd w ++ [req])%list.
Proof. unfold ES.send. now destruct (respond (fst w) req). Qed.

(** The loop sends scroll requests only. *)
Lemma scroll_loop_no_release (S : Type)
    (respond : S -> ES.request -> result pyval * S) (t : string) :
  forall fuel sid hs acc w r w',
    ES.scroll_loop S respond fuel t sid hs acc w = Some (r, w') ->
    exists reqs, snd w' = (snd w ++ reqs)%list /\ releases reqs = [].
Proof.
  induction fuel as [|fuel IH]; intros sid hs acc w r w' H.
  - rewrite scroll_loop_O in H. destruct (truthy hs); [discriminate|].
    injection H as _ <-. exists []. now rewrite app_nil_r.
  - rewrite scroll_loop_S in H. destruct (truthy hs).
    2:{ injection H as _ <-. exists []. now rewrite app_nil_r. }
    pose proof (send_trace S respond (ES.ReqScroll sid t) w) as Ht.
    destruct (ES.send S respond (ES.ReqScroll sid t) w) as [[resp|e] w1].
    + simpl in Ht. destruct (ES.read_page resp) as [[[sid' hs'] items]|e].
      * destruct (truthy hs').
        -- apply IH in H as (reqs & E & R).
           exists (ES.ReqScroll sid t :: reqs). split; [|exact R].
           rewrite E, Ht. now rewrite <- app_assoc.
        -- injection H as _ <-. exists [ES.ReqScroll sid t]. now split.
      * injection H as _ <-. exists [ES.ReqScroll sid t]. now split.
    + simpl in Ht. injection H as _ <-. exists [ES.ReqScroll sid t]. now split.
Qed.

(** So does the whole walk up to the release. *)
Lemma fetch_all_no_release (S : Type)
    (respond : S -> ES.request -> result pyval * S)
    (fuel : nat) (index : string) (q : pyval) (size : Z) (t : string)
    (w : ES.world S) (r : result (pyval * list pyval)) (w' : ES.world S) :
  ES.fetch_all S respond fuel index q size t w = Some (r, w') ->
  exists reqs, snd w' = (snd w ++ reqs)%list /\ releases reqs = [].
Proof.
  unfold ES.fetch_all. intros H.
  pose proof (send_trace S respond (ES.ReqSearch index q (Some t) (Some size)) w) as Ht.
  destruct (ES.send S respond (ES.ReqSearch index q (Some t) (Some size)) w)
    as [[resp|e] w1]; simpl in Ht.
  - destruct (ES.read_page resp) as [[[sid hs] items]|e].
    + apply scroll_loop_no_release in H as (reqs & E & R).
      exists (ES.ReqSearch index q (Some t) (Some size) :: reqs). split; [|exact R].
      rewrite E, Ht. now rewrite <- app_assoc.
    + injection H as _ <-. eexists. split; [exact Ht | reflexivity].
  - injection H as _ <-. eexists. split; [exact Ht | reflexivity].
Qed.

Lemma log_and_reraise_eq (A : Type) (e : exn) : @ES.log_and_reraise e A = Raise e.
Proof. reflexivity. Qed.

(** The release comes after the walk, and only when the walk returned. *)
Lemma release_after_walk (S : Type)
    (respond : S -> ES.request -> result pyval * S)
    (fuel : nat) (self : ES.ElasticsearchDAO) (index : string) (q : pyval)
    (size : Z) (t : string) (w : ES.world S) :
  ES.client self <> None ->
  match ES.fetch_all S respond fuel index q size t w with
  | None => ES.scroll_search S respond fuel self index q size t w = None
  | Some (Raise e, w1) =>
      ES.scroll_search S respond fuel self index q size t w = Some (Raise e, w1) /\
      exists reqs, snd w1 = (snd w ++ reqs)%list /\ releases reqs = []
  | Some (Ok (sid, all_hits), w1) =>
      exists reqs r w2,
        snd w1 = (snd w ++ reqs)%list /\ releases reqs = [] /\
        ES.scroll_search S respond fuel self index q size t w = Some (r, w2) /\
        snd w2 = (snd w1 ++ (if truthy sid then [ES.ReqClearScroll sid] else []))%list
  end.
Proof.
  intros Hc. unfold ES.scroll_search.
  destruct (ES.client self) as [c|]; [|congruence].
  destruct (ES.fetch_all S respond fuel index q size t w) as [[[[sid all_hits]|e] w1]|] eqn:Hf;
    [| |reflexivity].
  - destruct (fetch_all_no_release _ _ _ _ _ _ _ _ _ _ Hf) as (reqs & E & R).
    exists reqs. destruct (truthy sid).
    + pose proof (send_trace S respond (ES.ReqClearScroll sid) w1) as Ht.
      destruct (ES.send S respond (ES.ReqClearScroll sid) w1) as [[a|e] w2];
        simpl in Ht.
      * destruct (ES.sources all_hits); eauto 10.
      * eauto 10.
    + rewrite app_nil_r. destruct (ES.sources all_hits); eauto 10.
  - rewrite log_and_reraise_eq. split; [reflexivity|].
    exact (fetch_all_no_release _ _ _ _ _ _ _ _ _ _ Hf).
Qed.

Lemma pages_O (n : nat) : (0 < n)%nat -> pages n 0 = 0%nat.
Proof. intros Hn. unfold pages. apply Nat.div_small. lia. Qed.

Lemma pages_step (n len : nat) :
  (0 < n)%nat -> (0 < len)%nat -> pages n len = Datatypes.S (pages n (len - n)).
Proof.
  intros Hn Hl. unfold pages.
  destruct (Nat.le_gt_cases n len) as [Hle | Hgt].
  - replace (len + n - 1)%nat with ((len - n + n - 1) + 1 * n)%nat by lia.
    rewrite Nat.div_add by lia. lia.
  - replace (len - n)%nat with 0%nat by lia.
    replace (len + n - 1)%nat with ((len - 1) + 1 * n)%nat by lia.
    rewrite Nat.div_add by lia.
    rewrite (Nat.div_small (len - 1) n) by lia.
    rewrite (Nat.div_small (0 + n - 1) n) by lia. reflexivity.
Qed.

Lemma read_page_page (hs : list pyval) :
  ES.read_page (ES.page hs) = Ok (ES.cursor, PList hs, hs).
Proof. reflexivity. Qed.

Lemma firstn_nonempty {A : Type} (n : nat) (l : list A) :
  (0 < n)%nat -> l <> [] -> firstn n l <> [].
Proof. destruct n; [lia|]. destruct l; [congruence | discriminate]. Qed.

Lemma truthy_list (l : list pyval) : truthy (PList l) = true <-> l <> [].
Proof. destruct l; simpl; split; congruence. Qed.

Lemma send_paged_scroll (sid : pyval) (t : string) (rem : list pyval) (n : nat)
    (tr : list ES.request) :
  ES.send ES.paged ES.paged_respond (ES.ReqScroll sid t)
    (ES.mkPaged rem n None, tr)
  = (Ok (ES.page (firstn n rem)),
     (ES.mkPaged (skipn n rem) n None, (tr ++ [ES.ReqScroll sid t])%list)).
Proof. reflexivity. Qed.

Lemma send_paged_search (index : string) (q : pyval) (t : string)
    (docs : list pyval) (n m : nat) (tr : list ES.request) :
  ES.send ES.paged ES.paged_respond
    (ES.ReqSearch index q (Some t) (Some (Z.of_nat n)))
    (ES.mkPaged docs m None, tr)
  = (Ok (ES.page (firstn n docs)),
     (ES.mkPaged (skipn n docs) n None,
      (tr ++ [ES.ReqSearch index q (Some t) (Some (Z.of_nat n))])%list)).
Proof.
  unfold ES.send, ES.paged_respond, ES.serve. simpl. now rewrite Nat2Z.id.
Qed.

(** The loop over a healthy paged index: it scrolls until the empty page
    and has then seen every remaining hit. *)
Lemma paged_loop (n : nat) (t : string) :
  (0 < n)%nat ->
  forall fuel rem acc tr pg,
    pg <> [] -> (List.length rem < fuel)%nat ->
    ES.scroll_loop ES.paged ES.paged_respond fuel t ES.cursor (PList pg) acc
      (ES.mkPaged rem n None, tr)
    = Some (Ok (ES.cursor, (acc ++ rem)%list),
            (ES.mkPaged [] n None,
             (tr ++ repeat (ES.ReqScroll ES.cursor t)
                      (Datatypes.S (pages n (List.length rem))))%list)).
Proof.
  intros Hn. induction fuel as [|fuel IH]; intros rem acc tr pg Hpg Hlen; [lia|].
  rewrite scroll_loop_S.
  rewrite (proj2 (truthy_list pg) Hpg).
  rewrite send_paged_scroll, read_page_page.
  destruct rem as [|d rem'].
  - rewrite firstn_nil, skipn_nil. simpl. rewrite (pages_O n Hn). reflexivity.
  - set (rem := d :: rem') in *.
    assert (Hpos : (0 < List.length rem)%nat) by (simpl; lia).
    assert (Hne : firstn n rem <> []) by (apply firstn_nonempty; [lia | discriminate]).
    rewrite (proj2 (truthy_list _) Hne).
    rewrite (IH (skipn n rem) (acc ++ firstn n rem)%list _ (firstn n rem) Hne).
    2:{ rewrite length_skipn. lia. }
    rewrite <- app_assoc, firstn_skipn. rewrite length_skipn.
    rewrite (pages_step n (List.length rem) Hn Hpos).
    rewrite <- app_assoc. reflexivity.
Qed.

Lemma paged_fetch_all (n m : nat) (docs : list pyval) (fuel : nat)
    (index : string) (q : pyval) (t : string) (tr : list ES.request) :
  (0 < n)%nat -> (List.length docs <= fuel)%nat ->
  ES.fetch_all ES.paged ES.paged_respond fuel index q (Z.of_nat n) t
    (ES.mkPaged docs m None, tr)
  = Some (Ok (ES.cursor, docs),
          (ES.mkPaged [] n None,
           (tr ++ ES.ReqSearch index q (Some t) (Some (Z.of_nat n))
               :: repeat (ES.ReqScroll ES.cursor t) (pages n (List.length docs)))%list)).
Proof.
  intros Hn Hlen. unfold ES.fetch_all.
  rewrite send_paged_search, read_page_page.
  destruct docs as [|d docs'].
  - rewrite firstn_nil, skipn_nil.
    change (List.length (@nil pyval)) with 0%nat. rewrite (pages_O n Hn).
    destruct fuel; reflexivity.
  - set (docs := d :: docs') in *.
    assert (Hpos : (0 < List.length docs)%nat) by (simpl; lia).
    assert (Hne : firstn n docs <> []) by (apply firstn_nonempty; [lia | discriminate]).
    rewrite (paged_loop n t Hn fuel (skipn n docs) (firstn n docs) _ (firstn n docs) Hne).
    2:{ rewrite length_skipn. lia. }
    rewrite firstn_skipn, length_skipn.
    rewrite (pages_step n (List.length docs) Hn Hpos).
    rewrite <- app_assoc. reflexivity.
Qed.

Lemma sources_of_dicts (docs : list pyval) :
  forallb is_dict docs = true -> ES.sources docs = Ok (map source_of docs).
Proof.
  induction docs as [|d docs IH]; simpl; [reflexivity|].
  intros H. apply andb_true_iff in H as [Hd Hr].
  destruct d; try discriminate. simpl. now rewrite (IH Hr).
Qed.

(** C6, counterexample.  Over five documents in pages of two, with a node
    that fails on the third fetch, the walk ends with that error: the
    token handed out by the first answer is never released. *)
Lemma failed_walk_keeps_cursor :
  ES.scroll_search ES.paged ES.paged_respond 10 es_ready "docs" match_all 2 "2m"
    (ES.mkPaged five_docs 0 (Some 2%nat), [])
  = Some (Raise ES.node_down,
          (ES.mkPaged [ES.hit "5" (PDict [("n", PInt 5)])] 2 (Some 0%nat),
           [ ES.ReqSearch "docs" match_all (Some "2m") (Some 2);
             ES.ReqScroll ES.cursor "2m";
             ES.ReqScroll ES.cursor "2m" ])) /\
  releases
    [ ES.ReqSearch "docs" match_all (Some "2m") (Some 2);
      ES.ReqScroll ES.cursor "2m";
      ES.ReqScroll ES.cursor "2m" ] = [].
Proof. split; vm_compute; reflexivity. Qed.

(** C6, amended.  The walk sends the initial search and then scroll
    requests with the continuation token until a page has no hits, and
    accumulates the hits of every page.  The token is released by one
    [clear_scroll] request after the loop has ended normally, when the
    token is truthy; when a fetch raises, the walk ends with that error
    and no release is sent.  Over a paged index of [len] hits in pages of
    [n], the walk sends the search, then as many scrolls as there are
    pages (the last one returns the empty page), then the release, and
    returns the source of every hit: for five documents in pages of two,
    one search and three scrolls, returning 2, 2, 1 and 0 hits. *)
Theorem scroll_walk :
  (forall (S : Type) (respond : S -> ES.request -> result pyval * S)
          fuel self index q size t w,
     ES.client self <> None ->
     match ES.fetch_all S respond fuel index q size t w with
     | None => ES.scroll_search S respond fuel self index q size t w = None
     | Some (Raise e, w1) =>
         ES.scroll_search S respond fuel self index q size t w = Some (Raise e, w1) /\
         exists reqs, snd w1 = (snd w ++ reqs)%list /\ releases reqs = []
     | Some (Ok (sid, all_hits), w1) =>
         exists reqs r w2,
           snd w1 = (snd w ++ reqs)%list /\ releases reqs = [] /\
           ES.scroll_search S respond fuel self index q size t w = Some (r, w2) /\
           snd w2 = (snd w1 ++ (if truthy sid then [ES.ReqClearScroll sid] else []))%list
     end) /\
  (forall n m docs fuel self index q t tr,
     ES.client self <> None ->
     (0 < n)%nat -> (List.length docs <= fuel)%nat ->
     forallb is_dict docs = true ->
     ES.scroll_search ES.paged ES.paged_respond fuel self index q (Z.of_nat n) t
       (ES.mkPaged docs m None, tr)
     = Some (Ok (map source_of docs),
             (ES.mkPaged [] n None,
              (tr ++ ES.ReqSearch index q (Some t) (Some (Z.of_nat n))
                  :: repeat (ES.ReqScroll ES.cursor t) (pages n (List.length docs))
                  ++ [ES.ReqClearScroll ES.cursor])%list))).
Proof.
  split; [exact release_after_walk|].
  intros n m docs fuel self index q t tr Hc Hn Hlen Hd.
  unfold ES.scroll_search. destruct (ES.client self) as [c|]; [|congruence].
  rewrite (paged_fetch_all n m docs fuel index q t tr Hn Hlen).
  simpl. rewrite (sources_of_dicts docs Hd).
  rewrite <- app_assoc. reflexivity.
Qed.

Lemma scroll_walk_witness :
  ES.scroll_search ES.paged ES.paged_respond 5 es_ready "docs" match_all 2 "2m"
    (ES.mkPaged five_docs 0 None, [])
  = Some (Ok five_sources,
          (ES.mkPaged [] 2 None,
           [ ES.ReqSearch "docs" match_all (Some "2m") (Some 2);
             ES.ReqScroll ES.cursor "2m";
             ES.ReqScroll ES.cursor "2m";
             ES.ReqScroll ES.cursor "2m";
             ES.ReqClearScroll ES.cursor ])).
Proof.
  exact (proj2 scroll_walk 2%nat 0%nat five_docs 5%nat es_ready "docs" match_all
           "2m" [] ltac:(discriminate) ltac:(lia) ltac:(simpl; lia) eq_refl).
Defined.

(** The same index with a node that fails on the third fetch. *)
Lemma failed_walk_sends_no_release :
  ES.scroll_search ES.paged ES.paged_respond 10 es_ready "docs" match_all 2 "2m"
    (ES.mkPaged five_docs 0 (Some 2%nat), [])
  = Some (Raise ES.node_down,
          (ES.mkPaged [ES.hit "5" (PDict [("n", PInt 5)])] 2 (Some 0%nat),
           [ ES.ReqSearch "docs" match_all (Some "2m") (Some 2);
             ES.ReqScroll ES.cursor "2m";
             ES.ReqScroll ES.cursor "2m" ])) /\
  exists reqs,
    [ ES.ReqSearch "docs" match_all (Some "2m") (Some 2);
      ES.ReqScroll ES.cursor "2m";
      ES.ReqScroll ES.cursor "2m" ] = ([] ++ reqs)%list /\
    releases reqs = [].
Proof.
  exact (release_after_walk ES.paged ES.paged_respond 10 es_ready "docs"
           match_all 2 "2m" (ES.mkPaged five_docs 0 (Some 2%nat), [])
           ltac:(discriminate)).
Qed.

End ScrollWalk.

(* ================================================================== *)
(** ** Input validation and sanitising *)
(* ================================================================== *)

Section ValidationFacts.
Import Py Base Spec PyText Validation Notions.

Lemma prefix_refl_app (p b : string) : String.prefix p (p ++ b) = true.
Proof.
  induction p as [|c p IH]; simpl; [now destruct b|].
  destruct (Ascii.ascii_dec c c); [exact IH | congruence].
Qed.

Lemma has_sub_app (a p b : string) : has_sub p (a ++ p ++ b) = true.
Proof.
  induction a as [|c a IH].
  - change (EmptyString ++ p ++ b) with (p ++ b).
    pose proof (prefix_refl_app p b) as H.
    destruct (p ++ b) as [|x r]; [exact H|].
    change (has_sub p (String x r))
      with (String.prefix p (String x r) || has_sub p r)%bool.
    now rewrite H.
  - change (has_sub p (String c a ++ p ++ b))
      with (String.prefix p (String c (a ++ p ++ b)) || has_sub p (a ++ p ++ b))%bool.
    rewrite IH. apply orb_true_r.
Qed.

Lemma prefix_cons (a b : ascii) (p s : string) :
  String.prefix (String a p) (String b s)
  = if Ascii.ascii_dec a b then String.prefix p s else false.
Proof. reflexivity. Qed.

Lemma prefix_empty (s : string) : String.prefix EmptyString s = true.
Proof. now destruct s. Qed.

Lemma eqb_dash (x : ascii) :
  char_eqb x "-" = if Ascii.ascii_dec "-" x then true else false.
Proof.
  unfold char_eqb. destruct (Ascii.ascii_dec "-" x) as [<-|Hx]; [reflexivity|].
  apply Ascii.eqb_neq. congruence.
Qed.

Lemma prefix_dashes_cons (c : ascii) (t : string) :
  String.prefix "--" (String c t) = (char_eqb c "-" && starts_with_dash t)%bool.
Proof.
  rewrite prefix_cons, eqb_dash.
  destruct (Ascii.ascii_dec "-" c); [|reflexivity].
  destruct t as [|d t]; [reflexivity|].
  unfold starts_with_dash. rewrite prefix_cons, eqb_dash, prefix_empty.
  reflexivity.
Qed.

Lemma drop_dashes_step (c : ascii) (r : string) :
  replace_from "--" EmptyString 0 (String c r)
  = if (char_eqb c "-" && starts_with_dash r)%bool
    then replace_from "--" EmptyString 1 r
    else String c (replace_from "--" EmptyString 0 r).
Proof.
  change (replace_from "--" EmptyString 0 (String c r))
    with (if String.prefix "--" (String c r)
          then EmptyString ++ replace_from "--" EmptyString 1 r
          else String c (replace_from "--" EmptyString 0 r)).
  now rewrite prefix_dashes_cons.
Qed.

Lemma drop_dashes_no_lead (s : string) :
  starts_with_dash s = false ->
  starts_with_dash (replace_from "--" EmptyString 0 s) = false.
Proof.
  destruct s as [|c r]; [reflexivity|]. intros H. simpl in H.
  rewrite drop_dashes_step, H. simpl. exact H.
Qed.

Lemma drop_dashes_clean :
  forall n s, (String.length s <= n)%nat ->
    has_sub "--" (replace_from "--" EmptyString 0 s) = false.
Proof.
  induction n as [|n IH]; intros s Hn.
  - destruct s; [reflexivity | simpl in Hn; lia].
  - destruct s as [|c r]; [reflexivity|].
    rewrite drop_dashes_step.
    destruct (char_eqb c "-" && starts_with_dash r)%bool eqn:Hp.
    + apply andb_true_iff in Hp as [_ Hr].
      destruct r as [|d r']; [discriminate|].
      change (replace_from "--" EmptyString 1 (String d r'))
        with (replace_from "--" EmptyString 0 r').
      apply IH. simpl in Hn. lia.
    + change (has_sub "--" (String c (replace_from "--" EmptyString 0 r)))
        with (String.prefix "--" (String c (replace_from "--" EmptyString 0 r))
              || has_sub "--" (replace_from "--" EmptyString 0 r))%bool.
      rewrite (IH r) by (simpl in Hn; lia).
      rewrite prefix_dashes_cons, orb_false_r.
      apply andb_false_iff in Hp as [Hc | Hr].
      * now rewrite Hc.
      * rewrite (drop_dashes_no_lead r Hr). apply andb_false_r.
Qed.

Lemma drop_char_clean (s : string) :
  contains_char ";" (replace_from ";" EmptyString 0 s) = false.
Proof.
  induction s as [|c r IH]; [reflexivity|].
  change (replace_from ";" EmptyString 0 (String c r))
    with (if String.prefix ";" (String c r)
          then EmptyString ++ replace_from ";" EmptyString 0 r
          else String c (replace_from ";" EmptyString 0 r)).
  rewrite prefix_cons, prefix_empty.
  destruct (Ascii.ascii_dec ";" c) as [<-|Hc].
  - exact IH.
  - simpl. rewrite IH.
    assert (char_eqb c ";" = false) as ->
      by (apply Ascii.eqb_neq; congruence).
    reflexivity.
Qed.

Lemma replace_from_O (old new : string) (c : ascii) (r : string) :
  replace_from old new 0 (String c r)
  = if String.prefix old (String c r)
    then new ++ replace_from old new (String.length old - 1) r
    else String c (replace_from old new 0 r).
Proof. reflexivity. Qed.

Lemma deletion_adds_no_char (c : ascii) (old : string) :
  forall s k,
    contains_char c s = false ->
    contains_char c (replace_from old EmptyString k s) = false.
Proof.
  induction s as [|a r IH]; intros k H; [reflexivity|].
  simpl in H. apply orb_false_iff in H as [Ha Hr].
  destruct k as [|k].
  - rewrite replace_from_O.
    destruct (String.prefix old (String a r)); simpl.
    + now apply IH.
    + rewrite Ha. now apply IH.
  - simpl. now apply IH.
Qed.

(** X1.  [sanitize_input] leaves every value that is not a string as it
    is; the string it returns has no semicolon and no two dashes in a
    row, also where deleting the semicolons brought two dashes together. *)
Theorem sanitize_input_output :
  (forall v, isinstance_str v = false -> sanitize_input v = v) /\
  (forall s, exists t,
     sanitize_input (PStr s) = PStr t /\
     contains_char ";" t = false /\
     (forall a b, t <> a ++ "--" ++ b)).
Proof.
  split.
  - intros v Hv. destruct v; try reflexivity. discriminate.
  - intros s. eexists. split; [reflexivity|].
    set (s2 := replace ";" EmptyString (replace quote (quote ++ quote) s)).
    change (replace "--" EmptyString s2) with (replace_from "--" EmptyString 0 s2).
    split.
    + apply deletion_adds_no_char. apply drop_char_clean.
    + intros a b E.
      pose proof (drop_dashes_clean (String.length s2) s2 (Nat.le_refl _)) as H.
      rewrite E, has_sub_app in H. discriminate.
Qed.

Lemma sanitize_input_output_witness :
  sanitize_input (PInt 7) = PInt 7 /\
  exists t, sanitize_input (PStr "a-;-b; DROP") = PStr t /\
            contains_char ";" t = false /\
            (forall a b, t <> a ++ "--" ++ b).
Proof.
  split.
  - exact (proj1 sanitize_input_output (PInt 7) eq_refl).
  - exact (proj2 sanitize_input_output "a-;-b; DROP").
Defined.

Lemma validate_loop_forallb (fs : list QueryFilter) :
  validate_loop fs
  = forallb (fun f => str_truthy (field f) && str_truthy (operator f))%bool fs.
Proof.
  induction fs as [|f fs IH]; simpl; [reflexivity|].
  rewrite <- IH.
  destruct (str_truthy (field f)), (str_truthy (operator f)); reflexivity.
Qed.

(** X2.  [validate_search_filters] accepts a list exactly when every
    filter has a non-empty field and a non-empty operator; it does not
    look at the operator vocabulary, so a list it accepts can still make
    the relational builder raise. *)
Theorem validation_ignores_vocabulary :
  (forall fs,
     validate_search_filters fs
     = forallb (fun f => str_truthy (field f) && str_truthy (operator f))%bool fs) /\
  (forall f qb,
     str_truthy (field f) = true -> str_truthy (operator f) = true ->
     in_vocabulary (operator f) = false ->
     validate_search_filters [f] = true /\
     fst (_build_filter_clause qb f) = Raise (unsupported_operator (operator f))).
Proof.
  split.
  - intros fs. unfold validate_search_filters.
    destruct fs as [|f fs]; [reflexivity|]. apply validate_loop_forallb.
  - intros f qb Hf Ho Hv. split.
    + simpl. now rewrite Hf, Ho.
    + now rewrite (unsupported_filter_raises qb f Hv).
Qed.

Lemma validation_ignores_vocabulary_witness :
  validate_search_filters [Scenario.regex_filter] = true /\
  fst (_build_filter_clause reset Scenario.regex_filter)
  = Raise (unsupported_operator "regex").
Proof.
  exact (proj2 validation_ignores_vocabulary Scenario.regex_filter reset
           eq_refl eq_refl eq_refl).
Defined.

End ValidationFacts.

(* ================================================================== *)
(** ** More on the relational compiler and [MySQLDAO.search] *)
(* ================================================================== *)

Section RelationalFacts.
Import Py Base Spec Notions.

Lemma set_params_twice (qb : QueryBuilder) (ps qs : list pyval) :
  set_params (set_params qb ps) qs = set_params qb qs.
Proof. reflexivity. Qed.

Lemma compiles_contributes (qb : QueryBuilder) (f : QueryFilter) :
  compiles f = true ->
  exists clause,
    _build_filter_clause qb f
    = (Ok clause, set_params qb (params qb ++ contributed f)%list).
Proof.
  destruct f as [fld op v].
  unfold compiles, contributed, _build_filter_clause, in_vocabulary, vocabulary.
  simpl.
  destruct (String.eqb_spec op "eq") as [->|H1]; [simpl; eauto|].
  destruct (String.eqb_spec op "ne") as [->|H2]; [simpl; eauto|].
  destruct (String.eqb_spec op "gt") as [->|H3]; [simpl; eauto|].
  destruct (String.eqb_spec op "lt") as [->|H4]; [simpl; eauto|].
  destruct (String.eqb_spec op "gte") as [->|H5]; [simpl; eauto|].
  destruct (String.eqb_spec op "lte") as [->|H6]; [simpl; eauto|].
  destruct (String.eqb_spec op "like") as [->|H7]; [simpl; eauto|].
  destruct (String.eqb_spec op "in") as [->|H8].
  { simpl. destruct (py_iter v) as [items|e]; [|discriminate].
    rewrite expand_list_spec. eauto. }
  destruct (String.eqb_spec op "not_in") as [->|H9].
  { simpl. destruct (py_iter v) as [items|e]; [|discriminate].
    rewrite expand_list_spec. eauto. }
  discriminate.
Qed.

Lemma build_clauses_compiles (fs : list QueryFilter) :
  forallb compiles fs = true ->
  forall qb, exists clauses,
    build_clauses qb fs
    = (Ok clauses, set_params qb (params qb ++ flat_map contributed fs)%list) /\
    List.length clauses = List.length fs.
Proof.
  induction fs as [|f fs IH]; intros H qb; simpl.
  - exists []. rewrite app_nil_r. split; [now destruct qb | reflexivity].
  - simpl in H. apply andb_true_iff in H as [Hf Hfs].
    destruct (compiles_contributes qb f Hf) as [c ->].
    destruct (IH Hfs (set_params qb (params qb ++ contributed f)%list))
      as (cs & -> & Hlen).
    exists (c :: cs). simpl. rewrite set_params_twice, <- app_assoc, Hlen.
    split; reflexivity.
Qed.

Lemma build_where_clause_compiles (qb : QueryBuilder) :
  forallb compiles (filters qb) = true ->
  exists where_clause,
    build_where_clause qb
    = (Ok where_clause,
       set_params qb (params qb ++ flat_map contributed (filters qb))%list).
Proof.
  intros H. unfold build_where_clause.
  destruct (filters qb) as [|f fs] eqn:E.
  - exists EmptyString. simpl. rewrite app_nil_r. now destruct qb.
  - destruct (build_clauses_compiles (f :: fs) H qb) as (cs & -> & _). eauto.
Qed.

Lemma add_sorts_sorts (ss : list SortOption) (b : QueryBuilder) :
  sorts (MySQL.add_sorts b ss) = (sorts b ++ ss)%list.
Proof.
  unfold MySQL.add_sorts. revert b.
  induction ss as [|[f d] ss IH]; intros b; simpl.
  - now rewrite app_nil_r.
  - rewrite IH. simpl. now rewrite <- app_assoc.
Qed.

Lemma search_builder_sorts (fs : list QueryFilter) (ss : list SortOption)
    (pag : option PaginationOptions) :
  sorts (MySQL.search_builder fs (Some ss) pag) = ss.
Proof.
  assert (H : sorts (MySQL.add_sorts (MySQL.add_filters reset fs) ss) = ss).
  { rewrite add_sorts_sorts, add_filters_spec. reflexivity. }
  unfold MySQL.search_builder. destruct pag; simpl; exact H.
Qed.

Lemma combine_map_snd {A : Type} (g : A -> string) (h : A -> string -> string)
    (l : list A) :
  map (fun sk => h (fst sk) (snd sk)) (combine l (map g l))
  = map (fun a => h a (g a)) l.
Proof. induction l as [|a l IH]; simpl; [reflexivity | now rewrite IH]. Qed.

(** X3.  Both compilers keep every sort option, in the order given.  In
    the ORDER BY clause of the relational adapter the keyword of an option
    is [ASC] when its direction is [asc] in some casing and [DESC] for
    every other text; the sort entry of the search-engine document carries
    the lowered direction itself.  The two ask for the same order exactly
    for the directions that are [asc] or [desc] in some casing. *)
Theorem sort_direction (fs : list QueryFilter) (ss : list SortOption)
    (pag : option PaginationOptions) (q : pyval) :
  ss <> [] ->
  ES._build_bool_query fs = Ok q ->
  exists keywords,
    Forall2 (fun s k =>
               (lower (direction s) = "asc" -> k = "ASC") /\
               (lower (direction s) <> "asc" -> k = "DESC") /\
               (lower k = lower (direction s) <-> is_word (direction s) = true))
      ss keywords /\
    build_order_clause (MySQL.search_builder fs (Some ss) pag)
    = "ORDER BY "
      ++ join ", " (map (fun sk => sort_field (fst sk) ++ " " ++ snd sk)
                      (combine ss keywords)) /\
    ES._build_search_query fs (Some ss) pag
    = Ok (PDict
            [("query", q);
             ("size", PInt (match pag with Some p => limit p | None => 100 end));
             ("from", PInt (match pag with Some p => offset p | None => 0 end));
             ("sort",
              PList (map (fun s =>
                            ES.dict1 (sort_field s)
                              (ES.dict1 "order" (PStr (lower (direction s)))))
                       ss))]).
Proof.
  intros Hne Hq.
  exists (map (fun s => if String.eqb (lower (direction s)) "asc"
                        then "ASC" else "DESC") ss).
  split; [|split].
  - clear Hne. induction ss as [|s ss IH]; simpl; constructor; [|exact IH].
    unfold is_word.
    destruct (String.eqb_spec (lower (direction s)) "asc") as [E|E].
    + split; [reflexivity|]. split; [congruence|]. rewrite E. simpl. tauto.
    + split; [congruence|]. split; [reflexivity|]. simpl. split.
      * intros H. apply String.eqb_eq. now symmetry.
      * intros H. apply String.eqb_eq in H. now symmetry.
  - unfold build_order_clause. rewrite search_builder_sorts.
    rewrite (combine_map_snd
               (fun s => if String.eqb (lower (direction s)) "asc"
                         then "ASC" else "DESC")
               (fun s k => sort_field s ++ " " ++ k)).
    destruct ss; [congruence | reflexivity].
  - unfold ES._build_search_query. rewrite Hq.
    destruct ss; [congruence | reflexivity].
Qed.

Lemma sort_direction_witness :
  build_order_clause
    (MySQL.search_builder []
       (Some [mkSortOption "age" "Asc"; mkSortOption "name" "descending"]) None)
  = "ORDER BY age ASC, name DESC" /\
  ES._build_search_query []
    (Some [mkSortOption "age" "Asc"; mkSortOption "name" "descending"]) None
  = Ok (PDict
          [("query", Scenario.match_all); ("size", PInt 100); ("from", PInt 0);
           ("sort",
            PList [ES.dict1 "age" (ES.dict1 "order" (PStr "asc"));
                   ES.dict1 "name" (ES.dict1 "order" (PStr "descending"))])]).
Proof.
  destruct (sort_direction []
              [mkSortOption "age" "Asc"; mkSortOption "name" "descending"]
              None Scenario.match_all ltac:(discriminate) eq_refl)
    as (keywords & Hk & Hsql & Hes).
  split; [|exact Hes].
  inversion Hk as [|s k ss ks (H1 & _ & _) Hk' E1 E2]; subst.
  inversion Hk' as [|s' k' ss' ks' (_ & H2 & _) Hk'' E1 E2]; subst.
  inversion Hk''; subst.
  rewrite (H1 eq_refl), (H2 ltac:(discriminate)) in Hsql. exact Hsql.
Defined.

(** X4.  When every filter compiles, the clause builder returns one
    clause per filter and appends to the parameter list what each filter
    contributes, in the order of the filters; it never clears the list, so
    building the WHERE clause a second time on the same builder appends
    the same parameters once more. *)
Theorem where_clause_parameters (qb : QueryBuilder) :
  forallb compiles (filters qb) = true ->
  let added := flat_map contributed (filters qb) in
  (exists clauses,
     build_clauses qb (filters qb)
     = (Ok clauses, set_params qb (params qb ++ added)%list) /\
     List.length clauses = List.length (filters qb)) /\
  params (snd (build_where_clause qb)) = (params qb ++ added)%list /\
  params (snd (build_where_clause (snd (build_where_clause qb))))
  = (params qb ++ added ++ added)%list.
Proof.
  intros H added. split; [now apply build_clauses_compiles|].
  destruct (build_where_clause_compiles qb H) as [w E]. rewrite E. simpl.
  split; [reflexivity|].
  destruct (build_where_clause_compiles
              (set_params qb (params qb ++ flat_map contributed (filters qb))%list) H)
    as [w' E'].
  rewrite E'. simpl. now rewrite <- app_assoc.
Qed.

Lemma where_clause_parameters_witness :
  (exists clauses,
     build_clauses
       (MySQL.search_builder
          [mkQueryFilter "age" "gt" (PInt 30);
           mkQueryFilter "city" "in" (PList [PStr "a"; PStr "b"])] None None)
       [mkQueryFilter "age" "gt" (PInt 30);
        mkQueryFilter "city" "in" (PList [PStr "a"; PStr "b"])]
     = (Ok clauses,
        set_params
          (MySQL.search_builder
             [mkQueryFilter "age" "gt" (PInt 30);
              mkQueryFilter "city" "in" (PList [PStr "a"; PStr "b"])] None None)
          [PInt 30; PStr "a"; PStr "b"]) /\
     List.length clauses = 2%nat) /\
  params (snd (build_where_clause
                 (MySQL.search_builder
                    [mkQueryFilter "age" "gt" (PInt 30);
                     mkQueryFilter "city" "in" (PList [PStr "a"; PStr "b"])]
                    None None)))
  = [PInt 30; PStr "a"; PStr "b"] /\
  params (snd (build_where_clause (snd (build_where_clause
                 (MySQL.search_builder
                    [mkQueryFilter "age" "gt" (PInt 30);
                     mkQueryFilter "city" "in" (PList [PStr "a"; PStr "b"])]
                    None None)))))
  = [PInt 30; PStr "a"; PStr "b"; PInt 30; PStr "a"; PStr "b"].
Proof.
  exact (where_clause_parameters
           (MySQL.search_builder
              [mkQueryFilter "age" "gt" (PInt 30);
               mkQueryFilter "city" "in" (PList [PStr "a"; PStr "b"])] None None)
           eq_refl).
Defined.

Lemma chars_length (s : string) : List.length (chars s) = String.length s.
Proof. induction s as [|c r IH]; simpl; [reflexivity | now rewrite IH]. Qed.

(** X5.  An [in] or [not_in] filter whose value is a text is expanded
    character by character, one placeholder and one parameter for each;
    when the value is [None], a bool or a number the builder raises
    [TypeError] and leaves the parameter list untouched. *)
Theorem in_over_text_and_scalars (qb : QueryBuilder) (fld op : string) :
  op = "in" \/ op = "not_in" ->
  (forall s,
     _build_filter_clause qb (mkQueryFilter fld op (PStr s))
     = (Ok (fld ++ (if String.eqb op "in" then " IN (" else " NOT IN (")
                ++ join ", "
                     (map placeholder
                        (seq (S (List.length (params qb))) (String.length s)))
                ++ ")"),
        set_params qb (params qb ++ chars s)%list)) /\
  (forall v, is_scalar v = true ->
     _build_filter_clause qb (mkQueryFilter fld op v) = (Raise TypeError, qb)).
Proof.
  intros Hop. split.
  - intros s. unfold _build_filter_clause. simpl.
    destruct Hop as [-> | ->]; simpl;
      now rewrite expand_list_spec, chars_length.
  - intros v Hv. unfold _build_filter_clause. simpl.
    destruct Hop as [-> | ->]; destruct v; try discriminate; reflexivity.
Qed.

Lemma in_over_text_and_scalars_witness :
  _build_filter_clause reset (mkQueryFilter "code" "in" (PStr "ab"))
  = (Ok "code IN ($1, $2)", set_params reset [PStr "a"; PStr "b"]) /\
  _build_filter_clause reset (mkQueryFilter "code" "in" (PInt 7))
  = (Raise TypeError, reset).
Proof.
  split.
  - exact (proj1 (in_over_text_and_scalars reset "code" "in" (or_introl eq_refl)) "ab").
  - exact (proj2 (in_over_text_and_scalars reset "code" "in" (or_introl eq_refl))
             (PInt 7) eq_refl).
Defined.

Lemma order_clause_set_params (qb : QueryBuilder) (ps : list pyval) :
  build_order_clause (set_params qb ps) = build_order_clause qb /\
  build_pagination_clause (set_params qb ps) = build_pagination_clause qb.
Proof. split; reflexivity. Qed.

(** X6.  When the filters compile, [MySQLDAO.search] sends exactly two
    statements, the SELECT and then the COUNT, both under the same WHERE
    clause and with the same parameters (what the filters contribute, in
    order); the hits are the rows of the first answer and the total is the
    [total] column of the first row of the second, or 0 when that answer
    is empty.  Without a pool the same call raises the not-initialized
    error and sends nothing. *)
Theorem mysql_search_round_trips (srv : MySQL.server) (self : MySQL.MySQLDAO)
    (table : string) (fs : list QueryFilter) (sorts : option (list SortOption))
    (pag : option PaginationOptions) (tr : MySQL.trace) :
  forallb compiles fs = true ->
  let builder := MySQL.search_builder fs sorts pag in
  let ps := flat_map contributed fs in
  exists where_clause,
    fst (build_where_clause builder) = Ok where_clause /\
    let q1 := MySQL.select_query table where_clause
                (build_order_clause builder) (build_pagination_clause builder) in
    let q2 := MySQL.count_query table where_clause in
    (MySQL.pool self = None ->
     MySQL.search srv self table fs sorts pag tr
     = (Raise (RuntimeError "MySQL connection pool not initialized"), tr)) /\
    (MySQL.pool self <> None ->
     forall rows, srv q1 ps = Ok rows ->
       (srv q2 ps = Ok [] ->
        MySQL.search srv self table fs sorts pag tr
        = (Ok (mkSearchResponse (map PDict rows) (PInt 0) []),
           (tr ++ [(q1, ps); (q2, ps)])%list)) /\
       (forall first rest t,
          srv q2 ps = Ok (first :: rest) -> lookup "total" first = Some t ->
          MySQL.search srv self table fs sorts pag tr
          = (Ok (mkSearchResponse (map PDict rows) t []),
             (tr ++ [(q1, ps); (q2, ps)])%list))).
Proof.
  intros H builder ps.
  destruct (search_builder_filters fs sorts pag) as [Hf Hp].
  assert (Hc : forallb compiles (filters builder) = true)
    by (unfold builder; now rewrite Hf).
  destruct (build_where_clause_compiles builder Hc) as [w E].
  fold builder in Hf, Hp. rewrite Hf, Hp in E. simpl in E. fold ps in E.
  exists w. split; [now rewrite E|].
  unfold MySQL.search. fold builder. rewrite E.
  destruct (order_clause_set_params builder ps) as [-> ->].
  unfold MySQL.execute_query. simpl params. split.
  - intros ->. reflexivity.
  - intros Hpool rows Hrows. destruct (MySQL.pool self) as [p|]; [|congruence].
    rewrite Hrows. simpl. split.
    + intros ->. now rewrite <- app_assoc.
    + intros first rest t -> Ht. unfold MySQL.getitem. rewrite Ht.
      now rewrite <- app_assoc.
Qed.

Lemma mysql_search_round_trips_witness :
  MySQL.search Examples.counting_server Scenario.mysql_ready "people"
    [Scenario.id_card_filter] None None []
  = (Ok (mkSearchResponse
           [PDict [("id_card", PStr "110101199001011234"); ("name", PStr "li")];
            PDict [("id_card", PStr "110101199001011234"); ("name", PStr "wang")]]
           (PInt 2) []),
     [(MySQL.select_query "people" "WHERE id_card = $1" EmptyString EmptyString,
       [PStr "110101199001011234"]);
      (MySQL.count_query "people" "WHERE id_card = $1",
       [PStr "110101199001011234"])]).
Proof.
  destruct (mysql_search_round_trips Examples.counting_server Scenario.mysql_ready
              "people" [Scenario.id_card_filter] None None [] eq_refl)
    as (where_clause & Hw & _ & Hsome).
  vm_compute in Hw. injection Hw as <-.
  exact (proj2 (Hsome ltac:(discriminate) _ eq_refl)
           [("total", PInt 2)] [] (PInt 2) eq_refl eq_refl).
Defined.

End RelationalFacts.

(* ================================================================== *)
(** ** Mutations, transactions and schema queries of [MySQLDAO] *)
(* ================================================================== *)

Section MySQLOperations.
Import Py Base Spec Notions MySQLOps.

(** X7.  On an adapter without a pool, the query, update, delete,
    transaction, backup and schema operations raise the not-initialized
    error and send nothing; [insert_one] and [insert_many], which have no
    guard, raise [AttributeError] instead; calls with empty data return
    before they look at the pool, and [disconnect] returns [True]. *)
Theorem mysql_unconnected (drv : driver) (srv : MySQL.server)
    (self : MySQL.MySQLDAO) :
  MySQL.pool self = None ->
  (forall q ps tr,
     MySQL.execute_query srv self q ps tr = (Raise not_initialized, tr)) /\
  (forall q ps tr,
     execute_update drv self q ps tr = (Raise not_initialized, tr)) /\
  (forall table id tr,
     delete_one drv self table id tr = (Raise not_initialized, tr)) /\
  (forall table id kv data tr,
     update_one drv self table id (kv :: data) tr = (Raise not_initialized, tr)) /\
  (forall ops tr,
     execute_transaction drv self ops tr = (Raise not_initialized, tr)) /\
  (forall name suffix tr,
     backup_table drv self name suffix tr = (Raise not_initialized, tr)) /\
  (forall name tr tr',
     get_table_list srv self tr = (Raise not_initialized, tr) /\
     get_table_schema srv self name tr' = (Raise not_initialized, tr')) /\
  (forall table kv data tr,
     insert_one drv self table (kv :: data) tr = (Raise AttributeError, tr)) /\
  (forall table r data tr,
     insert_many drv self table (r :: data) tr = (Raise AttributeError, tr)) /\
  (forall table id tr,
     insert_one drv self table [] tr = (Ok None, tr) /\
     insert_many drv self table [] tr = (Ok [], tr) /\
     update_one drv self table id [] tr = (Ok false, tr)) /\
  (forall tr, disconnect drv self tr = (Ok true, self, tr)).
Proof.
  intros H.
  unfold MySQL.execute_query, execute_update, delete_one, update_one,
    execute_transaction, backup_table, get_table_list, get_table_schema,
    insert_one, insert_many, disconnect, MySQL.execute_query, execute_update.
  rewrite H. repeat split; reflexivity.
Qed.

Lemma mysql_unconnected_witness :
  delete_one Examples.healthy_driver (MySQL.new []) "people" (PInt 1) []
  = (Raise not_initialized, []) /\
  insert_one Examples.healthy_driver (MySQL.new []) "people" [("name", PStr "li")] []
  = (Raise AttributeError, []).
Proof.
  split.
  - exact (proj1 (proj2 (proj2 (mysql_unconnected Examples.healthy_driver
             Scenario.empty_server (MySQL.new []) eq_refl))) "people" (PInt 1) []).
  - exact (proj1 (proj2 (proj2 (proj2 (proj2 (proj2 (proj2 (proj2
             (mysql_unconnected Examples.healthy_driver Scenario.empty_server
                (MySQL.new []) eq_refl))))))))
             "people" ("name", PStr "li") [] []).
Defined.

(** X8.  [disconnect] of the relational adapter never raises and never
    clears the pool attribute: it returns [False] exactly when closing the
    pool fails, and an adapter that had a pool still passes the guard of
    [execute_query] afterwards. *)
Theorem mysql_disconnect_keeps_pool (drv : driver) (self : MySQL.MySQLDAO)
    (tr : trace) :
  exists b tr',
    disconnect drv self tr = (Ok b, self, tr') /\
    (b = false <-> MySQL.pool self <> None /\ is_ok (pool_close drv) = false) /\
    (forall p srv q ps t,
       MySQL.pool self = Some p ->
       MySQL.execute_query srv (snd (fst (disconnect drv self tr))) q ps t
       = (srv q ps, (t ++ [(q, ps)])%list)).
Proof.
  unfold disconnect. destruct (MySQL.pool self) as [p|] eqn:Hp.
  - destruct (pool_close drv) as [u|e]; simpl;
      eexists; eexists; (split; [reflexivity|]); split.
    + split; [discriminate | intros [_ H]; discriminate].
    + intros p' srv q ps t _. unfold MySQL.execute_query. now rewrite Hp.
    + split; [intros _; split; [discriminate | reflexivity] | reflexivity].
    + intros p' srv q ps t _. unfold MySQL.execute_query. now rewrite Hp.
  - eexists; eexists; (split; [reflexivity|]); split.
    + split; [discriminate | intros [H _]; congruence].
    + intros p' srv q ps t H. discriminate.
Qed.

(** X9.  [insert_many] sends one batch whose rows all have the width of
    the first record (a key that a later record lacks is sent as [None],
    a key only it has is dropped) and returns as many identifiers as there
    are records: the last row id the cursor reports, then the integers
    that follow it. *)
Theorem mysql_insert_many_ids (drv : driver) (self : MySQL.MySQLDAO)
    (table : string) (first : list (string * pyval))
    (rest : list (list (string * pyval))) (tr : trace)
    (c : cursor_state) (id : Z) :
  let data := first :: rest in
  let columns := map fst first in
  let rows := map (project columns) data in
  let q := insert_query table columns (repeat "%s" (List.length columns)) in
  MySQL.pool self <> None ->
  acquire drv = Ok tt ->
  executemany drv q rows = Ok c ->
  lastrowid c = Some id ->
  insert_many drv self table data tr
  = (Ok (consecutive_ids id (List.length data)), (tr ++ [ExecuteMany q rows])%list) /\
  List.length (consecutive_ids id (List.length data)) = List.length data /\
  Forall (fun r => List.length r = List.length first) rows /\
  nth 0 (consecutive_ids id (List.length data)) EmptyString = str_of_Z id.
Proof.
  intros data columns rows q Hp Ha He Hl. split; [|split; [|split]].
  - subst data columns rows q. unfold insert_many. cbv zeta.
    destruct (MySQL.pool self); [|congruence].
    now rewrite Ha, He, Hl.
  - unfold consecutive_ids. now rewrite length_map, length_seq.
  - apply Forall_forall. intros r Hr. unfold rows in Hr.
    apply in_map_iff in Hr as (x & <- & _).
    unfold project, columns. now rewrite !length_map.
  - simpl. now rewrite Z.add_0_r.
Qed.

Lemma mysql_insert_many_ids_witness :
  insert_many Examples.healthy_driver Scenario.mysql_ready "people"
    [[("name", PStr "li"); ("age", PInt 3)]; [("age", PInt 4); ("city", PStr "x")]] []
  = (Ok ["41"; "42"],
     [ExecuteMany
        (insert_query "people" ["name"; "age"] ["%s"; "%s"])
        [[PStr "li"; PInt 3]; [PNone; PInt 4]]]).
Proof.
  exact (proj1 (mysql_insert_many_ids Examples.healthy_driver
           Scenario.mysql_ready "people"
           [("name", PStr "li"); ("age", PInt 3)] [[("age", PInt 4); ("city", PStr "x")]]
           [] (mkCursor 2 (Some 41)) 41
           ltac:(discriminate) eq_refl eq_refl eq_refl)).
Defined.

Lemma run_operations_all (drv : driver) (ops : list operation) :
  forallb (succeeds drv) ops = true ->
  forall tr, run_operations drv ops tr = (Ok tt, (tr ++ sent ops)%list).
Proof.
  induction ops as [|op ops IH]; intros H tr; simpl.
  - now rewrite app_nil_r.
  - simpl in H. apply andb_true_iff in H as [Hop Hops].
    unfold succeeds in Hop. unfold sent, statement_of. simpl.
    destruct (op_query op) as [q|]; [|discriminate].
    destruct (execute drv q (params_or_empty (op_params op))); [|discriminate].
    rewrite (IH Hops). unfold sent, statement_of. simpl.
    now rewrite <- app_assoc.
Qed.

Lemma run_operations_stops (drv : driver) (pre post : list operation)
    (bad : operation) :
  forallb (succeeds drv) pre = true ->
  succeeds drv bad = false ->
  forall tr, exists e,
    run_operations drv (pre ++ bad :: post) tr
    = (Raise e, (tr ++ sent (pre ++ [bad]))%list).
Proof.
  induction pre as [|op pre IH]; intros H Hbad tr; simpl.
  - unfold succeeds in Hbad. unfold sent, statement_of. simpl.
    destruct (op_query bad) as [q|].
    + destruct (execute drv q (params_or_empty (op_params bad))) as [c|e];
        [discriminate|]. simpl. eauto.
    + simpl. rewrite app_nil_r. eauto.
  - simpl in H. apply andb_true_iff in H as [Hop Hpre].
    unfold succeeds in Hop.
    destruct (op_query op) as [q|] eqn:Hq; [|discriminate].
    destruct (execute drv q (params_or_empty (op_params op))); [|discriminate].
    destruct (IH Hpre Hbad (tr ++ [Execute q (params_or_empty (op_params op))])%list)
      as [e ->].
    exists e. f_equal. unfold sent at 2. simpl. unfold statement_of at 1.
    rewrite Hq. simpl. now rewrite <- app_assoc.
Qed.

(** X10.  A transaction is committed only when every entry has been
    executed: then the calls are BEGIN, the statements in order, COMMIT,
    and the result is [True].  When an entry has no query or its statement
    fails, the statements after it are never sent, ROLLBACK is the last
    call, no COMMIT is sent, and the call raises. *)
Theorem transaction_commit_or_rollback (drv : driver) (self : MySQL.MySQLDAO)
    (tr : trace) :
  MySQL.pool self <> None ->
  acquire drv = Ok tt ->
  conn_begin drv = Ok tt ->
  (forall ops,
     forallb (succeeds drv) ops = true ->
     conn_commit drv = Ok tt ->
     execute_transaction drv self ops tr
     = (Ok true, (tr ++ Begin :: sent ops ++ [Commit])%list)) /\
  (forall pre bad post,
     forallb (succeeds drv) pre = true ->
     succeeds drv bad = false ->
     exists e,
       execute_transaction drv self (pre ++ bad :: post) tr
       = (Raise e, (tr ++ Begin :: sent (pre ++ [bad]) ++ [Rollback])%list)).
Proof.
  intros Hp Ha Hb. unfold execute_transaction.
  destruct (MySQL.pool self); [|congruence]. rewrite Ha, Hb. split.
  - intros ops Hops Hc. rewrite (run_operations_all drv ops Hops), Hc.
    now rewrite <- !app_assoc.
  - intros pre bad post Hpre Hbad.
    destruct (run_operations_stops drv pre post bad Hpre Hbad (tr ++ [Begin])%list)
      as [e ->].
    destruct (conn_rollback drv) as [u|e']; eexists;
      now rewrite <- !app_assoc.
Qed.

Lemma transaction_commit_or_rollback_witness :
  execute_transaction
    Examples.picky_driver
    Scenario.mysql_ready
    [mkOperation (Some "a") None; mkOperation (Some "b") (Some [PInt 1])] []
  = (Ok true, [Begin; Execute "a" []; Execute "b" [PInt 1]; Commit]) /\
  exists e,
    execute_transaction
      Examples.picky_driver
      Scenario.mysql_ready
      [mkOperation (Some "a") None; mkOperation (Some "bad") None;
       mkOperation (Some "c") None] []
    = (Raise e, [Begin; Execute "a" []; Execute "bad" []; Rollback]).
Proof.
  split.
  - exact (proj1 (transaction_commit_or_rollback Examples.picky_driver Scenario.mysql_ready []
             ltac:(discriminate) eq_refl eq_refl)
             [mkOperation (Some "a") None; mkOperation (Some "b") (Some [PInt 1])]
             eq_refl eq_refl).
  - exact (proj2 (transaction_commit_or_rollback Examples.picky_driver Scenario.mysql_ready []
             ltac:(discriminate) eq_refl eq_refl)
             [mkOperation (Some "a") None] (mkOperation (Some "bad") None)
             [mkOperation (Some "c") None] eq_refl eq_refl).
Defined.

(** X11.  [backup_table] first drops the previous backup and then creates
    the new one.  When the drop fails nothing else is sent; when the drop
    succeeds and the creation fails, the call raises after the previous
    backup has already been dropped. *)
Theorem backup_is_not_atomic (drv : driver) (self : MySQL.MySQLDAO)
    (name suffix : string) (tr : trace) :
  let drop := "DROP TABLE IF EXISTS " ++ name ++ suffix in
  let create :=
    "CREATE TABLE " ++ (name ++ suffix) ++ " AS SELECT * FROM " ++ name in
  MySQL.pool self <> None ->
  acquire drv = Ok tt ->
  (forall e, execute drv drop [] = Raise e ->
     backup_table drv self name suffix tr = (Raise e, (tr ++ [Execute drop []])%list)) /\
  (forall c e, execute drv drop [] = Ok c -> execute drv create [] = Raise e ->
     backup_table drv self name suffix tr
     = (Raise e, (tr ++ [Execute drop []; Execute create []])%list)) /\
  (forall c c', execute drv drop [] = Ok c -> execute drv create [] = Ok c' ->
     backup_table drv self name suffix tr
     = (Ok true, (tr ++ [Execute drop []; Execute create []])%list)).
Proof.
  intros drop create Hp Ha. subst drop create.
  unfold backup_table, execute_update, params_or_empty. cbv zeta.
  destruct (MySQL.pool self); [|congruence]. rewrite Ha.
  repeat split.
  - intros e ->. reflexivity.
  - intros c e -> ->. now rewrite <- app_assoc.
  - intros c c' -> ->. now rewrite <- app_assoc.
Qed.

Lemma backup_is_not_atomic_witness :
  backup_table
    Examples.drop_only_driver
    Scenario.mysql_ready "people" "_backup" []
  = (Raise (DriverError "disk full"),
     [Execute "DROP TABLE IF EXISTS people_backup" [];
      Execute "CREATE TABLE people_backup AS SELECT * FROM people" []]).
Proof.
  exact (proj1 (proj2 (backup_is_not_atomic Examples.drop_only_driver Scenario.mysql_ready "people" "_backup" []
           ltac:(discriminate) eq_refl))
           (mkCursor 0 None) (DriverError "disk full") eq_refl eq_refl).
Defined.

(** X12.  The schema queries pass the configured [dbname] as it is, with
    no default: for a configuration that does not name a database,
    [connect] opens the pool on ["uec"] while [get_table_list] and
    [get_table_schema] ask for the tables of database [None]. *)
Theorem schema_queries_database_name (srv : MySQL.server) (self : MySQL.MySQLDAO)
    (name : string) (tr : MySQL.trace) :
  MySQL.pool self <> None ->
  lookup "dbname" (MySQL.config self) = None ->
  lookup "db" (MySQL.pool_arguments self) = Some (PStr "uec") /\
  snd (get_table_list srv self tr) = (tr ++ [(table_list_query, [PNone])])%list /\
  snd (get_table_schema srv self name tr)
  = (tr ++ [(table_schema_query, [PNone; PStr name])])%list.
Proof.
  intros Hp Hd.
  unfold get_table_list, get_table_schema, MySQL.execute_query, MySQL.pool_arguments.
  destruct (MySQL.pool self); [|congruence].
  unfold get. rewrite Hd. simpl. repeat split; reflexivity.
Qed.

Lemma schema_queries_database_name_witness :
  lookup "db" (MySQL.pool_arguments Scenario.mysql_ready) = Some (PStr "uec") /\
  snd (get_table_list Scenario.empty_server Scenario.mysql_ready [])
  = [(table_list_query, [PNone])] /\
  snd (get_table_schema Scenario.empty_server Scenario.mysql_ready "people" [])
  = [(table_schema_query, [PNone; PStr "people"])].
Proof.
  exact (schema_queries_database_name Scenario.empty_server Scenario.mysql_ready
           "people" [] ltac:(discriminate) eq_refl).
Defined.

End MySQLOperations.

(* ================================================================== *)
(** ** More on the search-engine adapter *)
(* ================================================================== *)

Section SearchEngineFacts.
Import Py Base Spec Notions ESOps.

(** X13.  On an adapter without a client, every operation that has the
    guard raises the not-initialized error before anything else happens:
    no request is sent and the filters are not even compiled, so the error
    is the same for filters with an unknown operator.  [execute_update]
    has no guard and raises [NotImplementedError], as it does on every
    adapter; [disconnect] returns [True]. *)
Theorem es_unconnected (S : Type) (respond : S -> ES.request -> result pyval * S)
    (lib : library) (json_loads : string -> result pyval)
    (self : ES.ElasticsearchDAO) :
  ES.client self = None ->
  (forall index fs sorts pag w,
     ES.search S respond self index fs sorts pag w = (Raise ES.not_initialized, w)) /\
  (forall index fs agg_field w,
     ES.aggregate S respond self index fs agg_field w
     = (Raise ES.not_initialized, w)) /\
  (forall fuel index q size t w,
     ES.scroll_search S respond fuel self index q size t w
     = Some (Raise ES.not_initialized, w)) /\
  (forall index id data tr,
     insert_one lib self index data tr = (Raise ES.not_initialized, tr) /\
     update_one lib self index id data tr = (Raise ES.not_initialized, tr) /\
     delete_one lib self index id tr = (Raise ES.not_initialized, tr)) /\
  (forall index mapping tr,
     index_exists lib self index tr = (Raise ES.not_initialized, tr) /\
     create_index lib self index mapping tr = (Raise ES.not_initialized, tr) /\
     delete_index lib self index tr = (Raise ES.not_initialized, tr) /\
     get_mapping lib self index tr = (Raise ES.not_initialized, tr)) /\
  (forall index data q tr,
     insert_many lib self index data tr = (Throw (Std ES.not_initialized), tr) /\
     execute_query json_loads self q = Throw (Std ES.not_initialized) /\
     execute_update self q
     = Throw (NotImplementedError "ES update operations not yet implemented")) /\
  (forall tr, disconnect lib self tr = (Ok true, self, tr)).
Proof.
  intros H.
  unfold ES.search, ES.aggregate, ES.scroll_search, insert_one, update_one,
    delete_one, index_exists, create_index, delete_index, get_mapping,
    insert_many, execute_query, execute_update, disconnect, guarded_call.
  rewrite H. repeat split; reflexivity.
Qed.

Lemma es_unconnected_witness :
  ES.search unit (Scenario.constant_cluster (PDict [])) (ES.new [])
    "people" [Scenario.regex_filter] None None (tt, [])
  = (Raise ES.not_initialized, (tt, [])).
Proof.
  exact (proj1 (es_unconnected unit (Scenario.constant_cluster (PDict []))
           Examples.healthy_library (fun _ => Ok PNone) (ES.new []) eq_refl)
           "people" [Scenario.regex_filter] None None (tt, [])).
Defined.

(** X14.  With a client, a failure of the library is passed on by the
    document operations and swallowed by the index operations: for the
    same error, [insert_one], [update_one] and [delete_one] raise it,
    while [create_index] and [delete_index] return [False],
    [index_exists] returns [False] and [get_mapping] returns an empty
    dict. *)
Theorem es_index_errors_swallowed (lib : library) (self : ES.ElasticsearchDAO)
    (e : exn) :
  ES.client self <> None ->
  (forall c, answer lib c = Raise e) ->
  (forall index id data tr,
     fst (insert_one lib self index data tr) = Raise e /\
     fst (update_one lib self index id data tr) = Raise e /\
     fst (delete_one lib self index id tr) = Raise e) /\
  (forall index mapping tr,
     fst (create_index lib self index mapping tr) = Ok false /\
     fst (delete_index lib self index tr) = Ok false /\
     fst (index_exists lib self index tr) = Ok (PBool false) /\
     fst (get_mapping lib self index tr) = Ok (PDict [])).
Proof.
  intros Hc Ha.
  unfold insert_one, update_one, delete_one, create_index, delete_index,
    index_exists, get_mapping, guarded_call.
  destruct (ES.client self); [|congruence].
  split; intros; rewrite !Ha; repeat split; reflexivity.
Qed.

Lemma es_index_errors_swallowed_witness :
  fst (delete_one Examples.failing_library Scenario.es_ready "people" "7" [])
  = Raise Scenario.refused /\
  fst (delete_index Examples.failing_library Scenario.es_ready "people" [])
  = Ok false.
Proof.
  split.
  - exact (proj2 (proj2 (proj1 (es_index_errors_swallowed Examples.failing_library
             Scenario.es_ready Scenario.refused ltac:(discriminate)
             (fun _ => eq_refl)) "people" "7" [] []))).
  - exact (proj1 (proj2 (proj2 (es_index_errors_swallowed Examples.failing_library
             Scenario.es_ready Scenario.refused ltac:(discriminate)
             (fun _ => eq_refl)) "people" None []))).
Defined.

(** X15.  [insert_many] sends one bulk request with one action per
    document, also when there is none.  When the helper reports no error
    it returns the identifiers [doc_0], [doc_1], ..., one per document,
    whatever identifiers the cluster assigned; when the helper reports
    errors it raises and returns no identifier. *)
Theorem es_insert_many_ids (lib : library) (self : ES.ElasticsearchDAO)
    (index : string) (data : list (list (string * pyval))) (tr : trace) :
  ES.client self <> None ->
  let actions := map (bulk_action index) data in
  (forall n, bulk lib actions = Ok (n, []) ->
     insert_many lib self index data tr
     = (Done (doc_ids (List.length data)), (tr ++ [CallBulk actions])%list)) /\
  (forall n err errs, bulk lib actions = Ok (n, err :: errs) ->
     exists msg,
       insert_many lib self index data tr
       = (Throw (PlainException msg), (tr ++ [CallBulk actions])%list)) /\
  List.length (doc_ids (List.length data)) = List.length data /\
  List.length actions = List.length data.
Proof.
  intros Hc actions. subst actions. unfold insert_many.
  destruct (ES.client self); [|congruence].
  split; [|split; [|split]].
  - intros k ->. reflexivity.
  - intros k err errs ->. eexists. reflexivity.
  - unfold doc_ids. now rewrite length_map, length_seq.
  - now rewrite length_map.
Qed.

Lemma es_insert_many_ids_witness :
  insert_many Examples.healthy_library Scenario.es_ready "people"
    [[("name", PStr "li")]; [("name", PStr "wu")]] []
  = (Done ["doc_0"; "doc_1"],
     [CallBulk [bulk_action "people" [("name", PStr "li")];
                bulk_action "people" [("name", PStr "wu")]]]).
Proof.
  exact (proj1 (es_insert_many_ids Examples.healthy_library Scenario.es_ready
           "people" [[("name", PStr "li")]; [("name", PStr "wu")]] []
           ltac:(discriminate)) 2 eq_refl).
Defined.

(** X16.  The raw query and raw update operations of the search-engine
    adapter never return a result: whatever the adapter, the text and the
    JSON parser do, [execute_query] and [execute_update] raise. *)
Theorem es_raw_operations_never_return (json_loads : string -> result pyval)
    (self : ES.ElasticsearchDAO) (query : string) :
  (forall rows, execute_query json_loads self query <> Done rows) /\
  (forall n, execute_update self query <> Done n) /\
  (ES.client self <> None ->
   is_ok (json_loads query) = true ->
   execute_query json_loads self query
   = Throw (NotImplementedError "ES query execution requires index specification")).
Proof.
  unfold execute_query, execute_update. repeat split.
  - intros rows. destruct (ES.client self); [|discriminate].
    destruct (json_loads query); discriminate.
  - discriminate.
  - intros Hc Hj. destruct (ES.client self); [|congruence].
    destruct (json_loads query); [reflexivity | discriminate].
Qed.

Lemma es_raw_operations_never_return_witness :
  execute_query (fun _ => Ok (PDict [])) Scenario.es_ready "{}"
  = Throw (NotImplementedError "ES query execution requires index specification").
Proof.
  exact (proj2 (proj2 (es_raw_operations_never_return (fun _ => Ok (PDict []))
           Scenario.es_ready "{}")) ltac:(discriminate) eq_refl).
Defined.

(** X17.  [disconnect] of the search-engine adapter never raises and
    never clears the client attribute: after it, an adapter that had a
    client still passes the guard and [search] sends its request. *)
Theorem es_disconnect_keeps_client (lib : library) (self : ES.ElasticsearchDAO)
    (tr : trace) :
  exists b tr',
    disconnect lib self tr = (Ok b, self, tr') /\
    (b = false <-> ES.client self <> None /\ is_ok (answer lib CallClose) = false) /\
    (forall (S : Type) (respond : S -> ES.request -> result pyval * S) index w q,
       ES.client self <> None ->
       ES._build_search_query [] None None = Ok q ->
       snd (snd (ES.search S respond (snd (fst (disconnect lib self tr)))
                   index [] None None w))
       = (snd w ++ [ES.ReqSearch index q None None])%list).
Proof.
  unfold disconnect. change ES.log_and_return_false with (@Ok bool false).
  change (ES.log "LOG_INFO") with (Ok tt).
  destruct (ES.client self) as [c|] eqn:Hc.
  - assert (Hs : forall (S : Type) (respond : S -> ES.request -> result pyval * S)
                   index w q,
               ES.client self <> None ->
               ES._build_search_query [] None None = Ok q ->
               snd (snd (ES.search S respond self index [] None None w))
               = (snd w ++ [ES.ReqSearch index q None None])%list).
    { intros S respond index w q _ Hq. unfold ES.search. rewrite Hc, Hq.
      pose proof (send_trace S respond (ES.ReqSearch index q None None) w) as Ht.
      destruct (ES.send S respond (ES.ReqSearch index q None None) w) as [[r|e] w'];
        simpl in Ht; [|exact Ht].
      destruct (bind (ES.response_hits r) _); exact Ht. }
    destruct (answer lib CallClose) as [u|e]; simpl;
      eexists; eexists; (split; [reflexivity|]);
      (split;
       [| intros S respond index w q _ Hq; apply Hs;
          [rewrite Hc; discriminate | exact Hq]]).
    + split; [discriminate | intros [_ H]; discriminate].
    + split; [intros _; split; [discriminate | reflexivity] | reflexivity].
  - eexists; eexists; (split; [reflexivity|]); split.
    + split; [discriminate | intros [H _]; congruence].
    + intros S respond index w q H. congruence.
Qed.

Lemma es_clause_in_vocabulary (f : QueryFilter) :
  in_vocabulary (operator f) = true ->
  exists c, ES._build_filter_clause f = Ok (Some c) /\ truthy c = true.
Proof.
  unfold ES._build_filter_clause.
  destruct (clause_value_total f) as [v ->]. simpl.
  destruct f as [fld op x]. unfold in_vocabulary, vocabulary. simpl.
  destruct (String.eqb op "eq").
  { intros _. destruct (isinstance_int_float v); eexists; split; reflexivity. }
  destruct (String.eqb op "ne"); [intros _; eexists; split; reflexivity|].
  destruct (String.eqb op "gt"); [intros _; eexists; split; reflexivity|].
  destruct (String.eqb op "lt"); [intros _; eexists; split; reflexivity|].
  destruct (String.eqb op "gte"); [intros _; eexists; split; reflexivity|].
  destruct (String.eqb op "lte"); [intros _; eexists; split; reflexivity|].
  destruct (String.eqb op "like"); [intros _; eexists; split; reflexivity|].
  destruct (String.eqb op "in"); [intros _; eexists; split; reflexivity|].
  destruct (String.eqb op "not_in"); [intros _; eexists; split; reflexivity|].
  discriminate.
Qed.

Lemma must_clauses_in_vocabulary (fs : list QueryFilter) :
  forallb (fun f => in_vocabulary (operator f)) fs = true ->
  exists cs,
    ES.must_clauses fs = Ok cs /\
    Forall2 (fun f c => ES._build_filter_clause f = Ok (Some c)) fs cs.
Proof.
  induction fs as [|f fs IH]; intros H; simpl.
  - exists []. split; [reflexivity | constructor].
  - simpl in H. apply andb_true_iff in H as [Hf Hfs].
    destruct (es_clause_in_vocabulary f Hf) as (c & Ec & Tc).
    destruct (IH Hfs) as (cs & Ecs & F).
    exists (c :: cs). rewrite Ec, Ecs. simpl. rewrite Tc.
    split; [reflexivity | now constructor].
Qed.

(** X18.  With no filter the query is [match_all].  When every operator
    is in the vocabulary, the [must] list of the bool query holds exactly
    one clause per filter, in the order of the filters: no clause is
    dropped or moved. *)
Theorem bool_query_keeps_order (fs : list QueryFilter) :
  forallb (fun f => in_vocabulary (operator f)) fs = true ->
  ES._build_bool_query [] = Ok Scenario.match_all /\
  exists cs,
    Forall2 (fun f c => ES._build_filter_clause f = Ok (Some c)) fs cs /\
    List.length cs = List.length fs /\
    (fs <> [] ->
     ES._build_bool_query fs = Ok (ES.dict1 "bool" (ES.dict1 "must" (PList cs)))).
Proof.
  intros H. split; [reflexivity|].
  destruct (must_clauses_in_vocabulary fs H) as (cs & E & F).
  exists cs. split; [exact F|]. split.
  - symmetry. exact (Forall2_length F).
  - intros Hne. unfold ES._build_bool_query.
    destruct fs as [|f fs]; [congruence|]. now rewrite E.
Qed.

Lemma bool_query_keeps_order_witness :
  ES._build_bool_query [] = Ok Scenario.match_all /\
  exists cs,
    Forall2 (fun f c => ES._build_filter_clause f = Ok (Some c))
      [mkQueryFilter "age" "gte" (PInt 18); Scenario.id_card_filter] cs /\
    List.length cs = 2%nat /\
    ([mkQueryFilter "age" "gte" (PInt 18); Scenario.id_card_filter] <> [] ->
     ES._build_bool_query [mkQueryFilter "age" "gte" (PInt 18); Scenario.id_card_filter]
     = Ok (ES.dict1 "bool" (ES.dict1 "must" (PList cs)))).
Proof.
  exact (bool_query_keeps_order
           [mkQueryFilter "age" "gte" (PInt 18); Scenario.id_card_filter] eq_refl).
Defined.

Lemma lookup_set_item_same (d : list (string * pyval)) (k : string) (v : pyval) :
  lookup k (set_item d k v) = Some v.
Proof.
  induction d as [|[k' v'] d IH]; simpl.
  - now rewrite String.eqb_refl.
  - destruct (String.eqb k' k) eqn:E; simpl.
    + now rewrite String.eqb_refl.
    + now rewrite E.
Qed.

Lemma lookup_set_item_other (d : list (string * pyval)) (k k' : string) (v : pyval) :
  k <> k' -> lookup k (set_item d k' v) = lookup k d.
Proof.
  intros Hne. induction d as [|[j x] d IH]; simpl.
  - destruct (String.eqb_spec k' k); [congruence | reflexivity].
  - destruct (String.eqb_spec j k') as [->|Hj]; simpl.
    + destruct (String.eqb_spec k' k); [congruence|].
      destruct (String.eqb_spec k' k); [congruence | reflexivity].
    + destruct (String.eqb_spec j k); [reflexivity | exact IH].
Qed.

Lemma flatten_plain_hits (hs : list pyval) :
  forallb plain_hit hs = true ->
  exists flat, ES.flatten_hits hs = Ok flat /\ List.length flat = List.length hs.
Proof.
  induction hs as [|h hs IH]; intros H; simpl.
  - exists []. now split.
  - simpl in H. apply andb_true_iff in H as [Hh Hhs].
    destruct (IH Hhs) as (flat & E & L).
    destruct h as [| | | | |l|d]; try discriminate. simpl in Hh.
    unfold ES.flatten_hit. simpl.
    destruct (get d "_source" (PDict [])) as [| | | | |l|src]; try discriminate.
    simpl. rewrite E. simpl. eexists. split; [reflexivity|]. simpl. now rewrite L.
Qed.

(** X19.  A hit of [search] is its source document with the document
    identifier and the score stored under [_id] and [_score]: a field of
    the source with one of these names is overwritten, and every other
    field is returned as it was.  When every hit has such a source and
    [hits.total] is an object, [search] returns as many hits as the answer
    holds and the [value] of the total, or 0 when it has none. *)
Theorem search_hit_reserved_keys :
  (forall h src,
     get h "_source" (PDict []) = PDict src ->
     exists flat,
       ES.flatten_hit (PDict h) = Ok (PDict flat) /\
       lookup "_id" flat = Some (get h "_id" PNone) /\
       lookup "_score" flat = Some (get h "_score" PNone) /\
       (forall k, k <> "_id" -> k <> "_score" -> lookup k flat = lookup k src)) /\
  (forall (S : Type) (respond : S -> ES.request -> result pyval * S)
          self index fs sorts pag w q r st hit_part hs t,
     ES.client self <> None ->
     ES._build_search_query fs sorts pag = Ok q ->
     respond (fst w) (ES.ReqSearch index q None None) = (Ok (PDict r), st) ->
     lookup "hits" r = Some (PDict hit_part) ->
     lookup "hits" hit_part = Some (PList hs) ->
     lookup "total" hit_part = Some (PDict t) ->
     forallb plain_hit hs = true ->
     exists flat,
       ES.search S respond self index fs sorts pag w
       = (Ok (mkSearchResponse flat (get t "value" (PInt 0)) []),
          (st, (snd w ++ [ES.ReqSearch index q None None])%list)) /\
       ES.flatten_hits hs = Ok flat /\
       List.length flat = List.length hs).
Proof.
  split.
  - intros h src Hs. unfold ES.flatten_hit. simpl. rewrite Hs. simpl.
    eexists. split; [reflexivity|]. split; [|split].
    + rewrite lookup_set_item_other by discriminate.
      apply lookup_set_item_same.
    + apply lookup_set_item_same.
    + intros k H1 H2. now rewrite !lookup_set_item_other by congruence.
  - intros S respond self index fs sorts pag w q r st hit_part hs t
      Hc Hq Hr Hh Hhs Ht Hp.
    destruct (flatten_plain_hits hs Hp) as (flat & E & L).
    exists flat. split; [|split; assumption].
    unfold ES.search. destruct (ES.client self); [|congruence].
    rewrite Hq. unfold ES.send. rewrite Hr.
    unfold ES.response_hits. cbn [py_get bind]. unfold get at 1. rewrite Hh.
    cbn [py_get bind]. unfold get at 1. rewrite Hhs.
    cbn [py_iter bind]. rewrite E. cbn [bind].
    unfold get at 1. rewrite Hh. cbn [py_get bind].
    unfold get at 1. rewrite Ht. reflexivity.
Qed.

Lemma search_hit_reserved_keys_witness :
  exists flat,
    ES.flatten_hit
      (PDict [("_id", PStr "7"); ("_score", PFloat (S754_zero false));
              ("_source", PDict [("_id", PStr "own"); ("name", PStr "li")])])
    = Ok (PDict flat) /\
    lookup "_id" flat = Some (PStr "7") /\
    lookup "_score" flat = Some (PFloat (S754_zero false)) /\
    (forall k, k <> "_id" -> k <> "_score" ->
       lookup k flat = lookup k [("_id", PStr "own"); ("name", PStr "li")]).
Proof.
  exact (proj1 search_hit_reserved_keys
           [("_id", PStr "7"); ("_score", PFloat (S754_zero false));
            ("_source", PDict [("_id", PStr "own"); ("name", PStr "li")])]
           [("_id", PStr "own"); ("name", PStr "li")] eq_refl).
Defined.

Lemma scroll_loop_never_stops (S : Type)
    (respond : S -> ES.request -> result pyval * S) (t : string) :
  never_empty S respond ->
  forall fuel sid hs acc w,
    truthy hs = true ->
    ES.scroll_loop S respond fuel t sid hs acc w = None.
Proof.
  intros Hn. induction fuel as [|fuel IH]; intros sid hs acc w Hh.
  - rewrite scroll_loop_O. now rewrite Hh.
  - rewrite scroll_loop_S, Hh. unfold ES.send.
    destruct (Hn (fst w) (ES.ReqScroll sid t))
      as (resp & st' & sid' & hs' & items & -> & -> & Hh').
    rewrite Hh'. now apply IH.
Qed.

(** X20.  The walk has no bound of its own on the number of pages: over a
    cluster that answers every request with a page that has hits, it is
    still fetching after any number of steps and never returns. *)
Theorem scroll_walk_unbounded (S : Type)
    (respond : S -> ES.request -> result pyval * S)
    (self : ES.ElasticsearchDAO) :
  never_empty S respond ->
  ES.client self <> None ->
  forall fuel index q size t w,
    ES.scroll_search S respond fuel self index q size t w = None.
Proof.
  intros Hn Hc fuel index q size t w.
  unfold ES.scroll_search, ES.fetch_all, ES.send.
  destruct (ES.client self); [|congruence].
  destruct (Hn (fst w) (ES.ReqSearch index q (Some t) (Some size)))
    as (resp & st' & sid & hs & items & -> & -> & Hh).
  now rewrite (scroll_loop_never_stops S respond t Hn).
Qed.

Lemma endless_cluster_never_empty :
  never_empty unit (Scenario.constant_cluster Examples.endless_page).
Proof.
  intros st req. unfold Scenario.constant_cluster.
  eexists; eexists; eexists; eexists; eexists.
  split; [reflexivity|]. split; reflexivity.
Qed.

Lemma scroll_walk_unbounded_witness :
  ES.scroll_search unit (Scenario.constant_cluster Examples.endless_page)
    1000 Scenario.es_ready "docs" Scenario.match_all 1 "2m" (tt, []) = None.
Proof.
  exact (scroll_walk_unbounded unit (Scenario.constant_cluster Examples.endless_page)
           Scenario.es_ready endless_cluster_never_empty ltac:(discriminate)
           1000%nat "docs" Scenario.match_all 1 "2m" (tt, [])).
Defined.

End SearchEngineFacts.

(* ================================================================== *)
(** ** Further facts: the factory, the manager and the helpers *)
(* ================================================================== *)

Section PackageFacts.
Import Py Base PyText Notions.

Lemma find_register_same (cs : list (string * DaoPackage.adapter))
    (name : string) (a : DaoPackage.adapter) :
  DaoPackage.find name (DaoPackage.register cs name a) = Some a.
Proof.
  induction cs as [|[k v] cs IH]; simpl.
  - now rewrite String.eqb_refl.
  - destruct (String.eqb k name) eqn:E; simpl.
    + now rewrite String.eqb_refl.
    + now rewrite E.
Qed.

Lemma find_register_other (cs : list (string * DaoPackage.adapter))
    (name k : string) (a : DaoPackage.adapter) :
  k <> name ->
  DaoPackage.find k (DaoPackage.register cs name a) = DaoPackage.find k cs.
Proof.
  intros Hne. induction cs as [|[j v] cs IH]; simpl.
  - destruct (String.eqb_spec name k); [congruence | reflexivity].
  - destruct (String.eqb_spec j name) as [->|Hj]; simpl.
    + destruct (String.eqb_spec name k); [congruence|].
      destruct (String.eqb_spec name k); [congruence | reflexivity].
    + destruct (String.eqb_spec j k); [reflexivity | exact IH].
Qed.

Lemma mysql_connect_flag (create_pool : list (string * pyval) -> result nat)
    (d : MySQL.MySQLDAO) :
  exists b, fst (MySQL.connect create_pool d) = Ok b.
Proof.
  unfold MySQL.connect.
  destruct (create_pool (MySQL.pool_arguments d)); simpl; eauto.
Qed.

Lemma es_connect_flag (make_client : list (string * pyval) -> result nat)
    (info : nat -> result pyval) (d : ES.ElasticsearchDAO) :
  exists b, fst (ES.connect make_client info d) = Ok b.
Proof.
  unfold ES.connect.
  change ES.log_and_return_false with (@Ok bool false).
  destruct (make_client (ES.client_arguments d)) as [c|e]; simpl; [|eauto].
  destruct (bind (info c) _); simpl; eauto.
Qed.

Lemma initialize_mysql_ok (env : DaoPackage.environment)
    (self : DaoPackage.DatabaseManager) (d : MySQL.MySQLDAO) :
  DaoPackage.create_mysql_dao env = Ok d ->
  DaoPackage.initialize_mysql env self
  = (true,
     DaoPackage.mkDatabaseManager
       (Some (snd (MySQL.connect (DaoPackage.create_pool env) d)))
       (DaoPackage.elasticsearch_dao self)
       (DaoPackage.register (DaoPackage.connections self) "mysql"
          (DaoPackage.MySQLAdapter
             (snd (MySQL.connect (DaoPackage.create_pool env) d))))).
Proof.
  intros H. unfold DaoPackage.initialize_mysql. rewrite H.
  destruct (mysql_connect_flag (DaoPackage.create_pool env) d) as [b Hb].
  destruct (MySQL.connect (DaoPackage.create_pool env) d) as [r d'].
  simpl in Hb. subst r. reflexivity.
Qed.

Lemma initialize_es_ok (env : DaoPackage.environment)
    (self : DaoPackage.DatabaseManager) (d : ES.ElasticsearchDAO) :
  DaoPackage.create_elasticsearch_dao env = Ok d ->
  DaoPackage.initialize_es env self
  = (true,
     DaoPackage.mkDatabaseManager
       (DaoPackage.mysql_dao self)
       (Some (snd (ES.connect (DaoPackage.make_client env) (DaoPackage.info env) d)))
       (DaoPackage.register (DaoPackage.connections self) "elasticsearch"
          (DaoPackage.ESAdapter
             (snd (ES.connect (DaoPackage.make_client env)
                     (DaoPackage.info env) d))))).
Proof.
  intros H. unfold DaoPackage.initialize_es. rewrite H.
  destruct (es_connect_flag (DaoPackage.make_client env) (DaoPackage.info env) d)
    as [b Hb].
  destruct (ES.connect (DaoPackage.make_client env) (DaoPackage.info env) d)
    as [r d'].
  simpl in Hb. subst r. reflexivity.
Qed.

Lemma initialize_all_steps (env : DaoPackage.environment)
    (self : DaoPackage.DatabaseManager) :
  DaoPackage.initialize_all env self
  = ((fst (if DaoPackage.mysql_enable env
           then DaoPackage.initialize_mysql env self else (true, self))
      && fst (if DaoPackage.es_enable env
              then DaoPackage.initialize_es env
                     (snd (if DaoPackage.mysql_enable env
                           then DaoPackage.initialize_mysql env self
                           else (true, self)))
              else (true,
                    snd (if DaoPackage.mysql_enable env
                         then DaoPackage.initialize_mysql env self
                         else (true, self)))))%bool,
     snd (if DaoPackage.es_enable env
          then DaoPackage.initialize_es env
                 (snd (if DaoPackage.mysql_enable env
                       then DaoPackage.initialize_mysql env self
                       else (true, self)))
          else (true,
                snd (if DaoPackage.mysql_enable env
                     then DaoPackage.initialize_mysql env self
                     else (true, self))))).
Proof.
  unfold DaoPackage.initialize_all.
  destruct (if DaoPackage.mysql_enable env
            then DaoPackage.initialize_mysql env self else (true, self))
    as [ok1 m1]. simpl.
  destruct (if DaoPackage.es_enable env
            then DaoPackage.initialize_es env m1 else (true, m1)) as [ok2 m2].
  reflexivity.
Qed.

Lemma initialize_mysql_other (env : DaoPackage.environment)
    (self : DaoPackage.DatabaseManager) (k : string) :
  k <> "mysql" ->
  DaoPackage.find k (DaoPackage.connections (snd (DaoPackage.initialize_mysql env self)))
  = DaoPackage.find k (DaoPackage.connections self) /\
  DaoPackage.elasticsearch_dao (snd (DaoPackage.initialize_mysql env self))
  = DaoPackage.elasticsearch_dao self.
Proof.
  intros Hk. destruct (DaoPackage.create_mysql_dao env) as [d|e] eqn:E.
  - rewrite (initialize_mysql_ok env self d E). simpl.
    split; [now apply find_register_other | reflexivity].
  - unfold DaoPackage.initialize_mysql. rewrite E. now split.
Qed.

Lemma initialize_es_other (env : DaoPackage.environment)
    (self : DaoPackage.DatabaseManager) (k : string) :
  k <> "elasticsearch" ->
  DaoPackage.find k (DaoPackage.connections (snd (DaoPackage.initialize_es env self)))
  = DaoPackage.find k (DaoPackage.connections self).
Proof.
  intros Hk. destruct (DaoPackage.create_elasticsearch_dao env) as [d|e] eqn:E.
  - rewrite (initialize_es_ok env self d E). simpl.
    now apply find_register_other.
  - unfold DaoPackage.initialize_es. now rewrite E.
Qed.

Lemma initialize_all_other (env : DaoPackage.environment)
    (self : DaoPackage.DatabaseManager) (k : string) :
  k <> "mysql" -> k <> "elasticsearch" ->
  DaoPackage.find k (DaoPackage.connections (snd (DaoPackage.initialize_all env self)))
  = DaoPackage.find k (DaoPackage.connections self).
Proof.
  intros H1 H2. rewrite initialize_all_steps. simpl.
  destruct (DaoPackage.es_enable env), (DaoPackage.mysql_enable env); simpl;
    try rewrite (initialize_es_other _ _ k H2);
    try rewrite (proj1 (initialize_mysql_other _ _ k H1)); reflexivity.
Qed.

Lemma es_factory_raises (settings : Conf.Settings) :
  DAOFactory.create_elasticsearch_dao settings = Raise AttributeError.
Proof. reflexivity. Qed.

Lemma mysql_factory_returns (settings : Conf.Settings) :
  DAOFactory.create_mysql_dao settings
  = Ok (MySQL.new
          [ ("address", PStr (Conf.address (Conf.mysql settings)));
            ("port", PInt (Conf.port (Conf.mysql settings)));
            ("username", PStr (Conf.username (Conf.mysql settings)));
            ("password", PStr (Conf.password (Conf.mysql settings)));
            ("dbname", PStr (Conf.dbname (Conf.mysql settings)));
            ("charset", PStr (Conf.charset (Conf.mysql settings))) ]).
Proof. reflexivity. Qed.

(** X21.  With the repository's factory methods, [initialize_all] returns
    [True] exactly when the search engine is disabled in the settings.  A
    refused MySQL connection is never reported: when MySQL is enabled the
    adapter is stored and registered whatever [connect] returned, without
    a pool when the pool could not be created.  The search-engine factory
    method reads [settings.es.uri], which [DatabaseConfig] does not
    declare, and raises [AttributeError]: the call never stores or
    registers a search-engine adapter. *)
Theorem initialize_all_outcome (settings : Conf.Settings)
    (create_pool make_client : list (string * pyval) -> result nat)
    (info : nat -> result pyval) (self : DaoPackage.DatabaseManager) :
  let env := DAOFactory.environment settings create_pool make_client info in
  let r := DaoPackage.initialize_all env self in
  fst r = negb (Conf.enable (Conf.es settings)) /\
  DaoPackage.create_elasticsearch_dao env = Raise AttributeError /\
  DaoPackage.elasticsearch_dao (snd r) = DaoPackage.elasticsearch_dao self /\
  DaoPackage.find "elasticsearch" (DaoPackage.connections (snd r))
  = DaoPackage.find "elasticsearch" (DaoPackage.connections self) /\
  (Conf.enable (Conf.mysql settings) = true ->
   exists d,
     DAOFactory.create_mysql_dao settings = Ok d /\
     DaoPackage.mysql_dao (snd r) = Some (snd (MySQL.connect create_pool d)) /\
     (forall name, lower name = "mysql" ->
        DaoPackage.get_dao (snd r) name
        = Ok (DaoPackage.MySQLAdapter (snd (MySQL.connect create_pool d)))) /\
     (forall e, create_pool (MySQL.pool_arguments d) = Raise e ->
        MySQL.pool (snd (MySQL.connect create_pool d)) = None)).
Proof.
  intros env r. subst r.
  assert (Hes : forall m, DaoPackage.initialize_es env m = (false, m)).
  { intros m. reflexivity. }
  rewrite initialize_all_steps.
  change (DaoPackage.es_enable env) with (Conf.enable (Conf.es settings)).
  change (DaoPackage.mysql_enable env) with (Conf.enable (Conf.mysql settings)).
  pose proof (initialize_mysql_ok env self _ (mysql_factory_returns settings)) as Hm.
  split; [|split; [reflexivity|split; [|split]]].
  - destruct (Conf.enable (Conf.es settings)); rewrite ?Hes; cbn [fst snd negb].
    + apply andb_false_r.
    + destruct (Conf.enable (Conf.mysql settings)); [rewrite Hm|]; reflexivity.
  - destruct (Conf.enable (Conf.es settings)); rewrite ?Hes; cbn [fst snd];
      destruct (Conf.enable (Conf.mysql settings)); try reflexivity;
      rewrite Hm; reflexivity.
  - destruct (Conf.enable (Conf.es settings)); rewrite ?Hes; cbn [fst snd];
      destruct (Conf.enable (Conf.mysql settings)); try reflexivity;
      rewrite Hm; cbn [snd DaoPackage.connections];
      now rewrite find_register_other by discriminate.
  - intros Hen. rewrite Hen. eexists. split; [apply mysql_factory_returns|].
    assert (Hsnd : snd (if Conf.enable (Conf.es settings)
                        then DaoPackage.initialize_es env
                               (snd (DaoPackage.initialize_mysql env self))
                        else (true, snd (DaoPackage.initialize_mysql env self)))
                   = snd (DaoPackage.initialize_mysql env self)).
    { destruct (Conf.enable (Conf.es settings)); [now rewrite Hes | reflexivity]. }
    rewrite Hsnd, Hm. cbn [snd DaoPackage.mysql_dao].
    split; [reflexivity|]. split.
    + intros name Hn. unfold DaoPackage.get_dao, DaoPackage.manager_get_dao.
      rewrite Hn. cbn [DaoPackage.connections].
      now rewrite find_register_same.
    + intros e He. unfold MySQL.connect. now rewrite He.
Qed.

Lemma initialize_all_outcome_witness :
  fst (DaoPackage.initialize_all Examples.refusing_environment
         DaoPackage.new_manager) = false /\
  DaoPackage.get_dao
    (snd (DaoPackage.initialize_all Examples.refusing_environment
            DaoPackage.new_manager)) "MySQL"
  = Ok (DaoPackage.MySQLAdapter Examples.default_mysql_dao) /\
  DaoPackage.find "elasticsearch"
    (DaoPackage.connections
       (snd (DaoPackage.initialize_all Examples.refusing_environment
               DaoPackage.new_manager))) = None.
Proof.
  pose proof (initialize_all_outcome Examples.default_settings
                (fun _ => Raise Scenario.refused)
                (fun _ => Raise Scenario.refused)
                (fun _ => Raise Scenario.refused) DaoPackage.new_manager) as H.
  cbv zeta in H. destruct H as (H1 & _ & _ & H4 & H5).
  split; [exact H1|]. split; [|exact H4].
  destruct (H5 eq_refl) as (d & Hd & _ & Hg & _).
  injection Hd as <-. exact (Hg "MySQL" eq_refl).
Defined.

(** X22.  The factory accepts [es] as a name of the search-engine
    adapter, but the manager registers that adapter under
    [elasticsearch] only: on a manager started from scratch, [get_dao]
    with a name that lowers to [es] raises [RuntimeError], whatever the
    settings and the drivers are. *)
Theorem es_alias_not_registered (env : DaoPackage.environment) (name : string) :
  lower name = "es" ->
  DaoPackage.create_dao env name
  = bind (DaoPackage.create_elasticsearch_dao env)
      (fun d => Ok (DaoPackage.ESAdapter d)) /\
  DaoPackage.get_dao
    (snd (DaoPackage.initialize_all env DaoPackage.new_manager)) name
  = Raise (RuntimeError ("DAO " ++ name ++ " not initialized")).
Proof.
  intros Hn. split.
  - unfold DaoPackage.create_dao. now rewrite Hn.
  - unfold DaoPackage.get_dao, DaoPackage.manager_get_dao. rewrite Hn.
    now rewrite initialize_all_other by discriminate.
Qed.

Lemma es_alias_not_registered_witness :
  DaoPackage.create_dao Examples.refusing_environment "ES"
  = Raise AttributeError /\
  DaoPackage.get_dao
    (snd (DaoPackage.initialize_all Examples.refusing_environment
            DaoPackage.new_manager)) "ES"
  = Raise (RuntimeError "DAO ES not initialized").
Proof.
  exact (es_alias_not_registered Examples.refusing_environment "ES" eq_refl).
Defined.

Lemma close_each_flag (drv : MySQLOps.driver) (lib : ESOps.library)
    (cs : list (string * DaoPackage.adapter))
    (tr1 : MySQLOps.trace) (tr2 : ESOps.trace) :
  fst (fst (DaoPackage.close_each drv lib cs tr1 tr2)) = true.
Proof.
  revert tr1 tr2. induction cs as [|[name [d|d]] cs IH]; intros tr1 tr2; simpl.
  - reflexivity.
  - unfold MySQLOps.disconnect.
    destruct (MySQL.pool d); [destruct (MySQLOps.pool_close drv)|];
      match goal with
      | |- context [DaoPackage.close_each drv lib cs ?t1 ?t2] =>
          specialize (IH t1 t2);
          destruct (DaoPackage.close_each drv lib cs t1 t2) as [[ok t1'] t2']
      end; simpl in *; now rewrite IH.
  - unfold ESOps.disconnect.
    change ES.log_and_return_false with (@Ok bool false).
    change (ES.log "LOG_INFO") with (Ok tt).
    destruct (ES.client d); [destruct (ESOps.answer lib ESOps.CallClose)|];
      match goal with
      | |- context [DaoPackage.close_each drv lib cs ?t1 ?t2] =>
          specialize (IH t1 t2);
          destruct (DaoPackage.close_each drv lib cs t1 t2) as [[ok t1'] t2']
      end; simpl in *; now rewrite IH.
Qed.

(** X23.  [close_all] always reports success, also when closing a pool
    or a client fails, because [disconnect] never raises.  It forgets every
    registered adapter, so that [get_dao] raises for every name afterwards,
    while the attributes [mysql_dao] and [elasticsearch_dao] keep the
    adapters. *)
Theorem close_all_reports_success (drv : MySQLOps.driver) (lib : ESOps.library)
    (self : DaoPackage.DatabaseManager)
    (tr1 : MySQLOps.trace) (tr2 : ESOps.trace) :
  exists tr1' tr2',
    DaoPackage.close_all drv lib self tr1 tr2
    = (true,
       DaoPackage.mkDatabaseManager (DaoPackage.mysql_dao self)
         (DaoPackage.elasticsearch_dao self) [],
       tr1', tr2') /\
    forall name,
      DaoPackage.get_dao
        (DaoPackage.mkDatabaseManager (DaoPackage.mysql_dao self)
           (DaoPackage.elasticsearch_dao self) []) name
      = Raise (RuntimeError ("DAO " ++ name ++ " not initialized")).
Proof.
  unfold DaoPackage.close_all.
  pose proof (close_each_flag drv lib (DaoPackage.connections self) tr1 tr2) as H.
  destruct (DaoPackage.close_each drv lib (DaoPackage.connections self) tr1 tr2)
    as [[ok t1] t2].
  simpl in H. subst ok. exists t1, t2. split; reflexivity.
Qed.

(** X24.  When the search engine is disabled in the settings or its
    factory method raised at start, as the repository's factory method
    does, no search-engine adapter is registered: [search_by_keywords] on
    a manager started from scratch raises [RuntimeError] with the message
    [DAO elasticsearch not initialized] and sends nothing. *)
Theorem keywords_search_needs_engine (S : Type)
    (respond : S -> ES.request -> result pyval * S) (srv : MySQL.server)
    (env : DaoPackage.environment) (index : string)
    (key_fields : list (string * pyval)) (agg_field : option string)
    (offset size : Z) (w : DaoPackage.worlds S) :
  DaoPackage.es_enable env = false \/
  (exists e, DaoPackage.create_elasticsearch_dao env = Raise e) ->
  DaoPackage.search_by_keywords S respond srv
    (snd (DaoPackage.initialize_all env DaoPackage.new_manager))
    index key_fields agg_field offset size w
  = (Raise (RuntimeError "DAO elasticsearch not initialized"), w).
Proof.
  intros H.
  assert (Hm : DaoPackage.find "elasticsearch"
                 (DaoPackage.connections
                    (snd (if DaoPackage.mysql_enable env
                          then DaoPackage.initialize_mysql env DaoPackage.new_manager
                          else (true, DaoPackage.new_manager)))) = None).
  { destruct (DaoPackage.mysql_enable env); [|reflexivity].
    now rewrite (proj1 (initialize_mysql_other env DaoPackage.new_manager
                         "elasticsearch" ltac:(discriminate))). }
  unfold DaoPackage.search_by_keywords, DaoPackage.get_dao,
    DaoPackage.manager_get_dao.
  change (lower "elasticsearch") with "elasticsearch".
  rewrite initialize_all_steps. cbn [snd].
  destruct H as [Hoff | [e He]].
  - rewrite Hoff. cbn [snd]. now rewrite Hm.
  - destruct (DaoPackage.es_enable env); cbn [snd].
    + unfold DaoPackage.initialize_es. rewrite He. cbn [snd]. now rewrite Hm.
    + now rewrite Hm.
Qed.

Lemma keywords_search_needs_engine_witness :
  DaoPackage.es_enable Examples.refusing_environment = true /\
  DaoPackage.search_by_keywords unit
    (Scenario.constant_cluster Examples.endless_page) Scenario.empty_server
    (snd (DaoPackage.initialize_all Examples.refusing_environment
            DaoPackage.new_manager))
    "people" [("name", PStr "li"); ("age", PNone)] (Some "age") 0 10
    ((tt, []), [])
  = (Raise (RuntimeError "DAO elasticsearch not initialized"), ((tt, []), [])).
Proof.
  split; [reflexivity|].
  apply (keywords_search_needs_engine unit
           (Scenario.constant_cluster Examples.endless_page) Scenario.empty_server
           Examples.refusing_environment "people"
           [("name", PStr "li"); ("age", PNone)] (Some "age") 0 10 ((tt, []), [])).
  right. exists AttributeError. reflexivity.
Defined.

(** X25.  The package's table of time fields and the adapter's own copy
    of it agree on every field name: they hold the same 37 names, none of
    them twice, and every flexible time field is a time field. *)
Theorem time_field_tables_agree :
  (forall s, DaoPackage.is_time_field s = ES._is_time_field s) /\
  (forall s, In s DaoPackage.time_fields <-> In s ES.time_fields) /\
  NoDup DaoPackage.time_fields /\ NoDup ES.time_fields /\
  List.length DaoPackage.time_fields = 37%nat /\
  (forall s, DaoPackage.is_flexible_time_field s = true ->
             DaoPackage.is_time_field s = true).
Proof.
  split; [reflexivity|]. split; [intros s; reflexivity|].
  split; [|split; [|split; [reflexivity|]]].
  - unfold DaoPackage.time_fields.
    repeat (constructor; [simpl; intuition discriminate|]). constructor.
  - unfold ES.time_fields.
    repeat (constructor; [simpl; intuition discriminate|]). constructor.
  - intros s. unfold DaoPackage.is_flexible_time_field, DaoPackage.is_time_field.
    simpl. destruct (String.eqb s "SJSJ"); [reflexivity|].
    destruct (String.eqb s "XJSJ"); [reflexivity|]. discriminate.
Qed.

Lemma char_eqb_refl (c : ascii) : char_eqb c c = true.
Proof. unfold char_eqb. apply Ascii.eqb_refl. Qed.

Lemma split_no_separator (c : ascii) (s : string) :
  contains_char c s = false -> split_char c s = [s].
Proof.
  induction s as [|a r IH]; simpl; [reflexivity|].
  intros H. apply orb_false_iff in H as [Ha Hr].
  rewrite Ha, (IH Hr). reflexivity.
Qed.

Lemma split_at_separator (c : ascii) (a b : string) :
  contains_char c a = false ->
  split_char c (a ++ String c b) = a :: split_char c b.
Proof.
  induction a as [|x a IH]; simpl.
  - intros _. now rewrite char_eqb_refl.
  - intros H. apply orb_false_iff in H as [Hx Ha].
    rewrite Hx, (IH Ha). reflexivity.
Qed.

Lemma contains_separator (c : ascii) (a b : string) :
  contains_char c (a ++ String c b) = true.
Proof.
  induction a as [|x a IH]; simpl.
  - now rewrite char_eqb_refl.
  - rewrite IH. apply orb_true_r.
Qed.

Lemma split_length (c : ascii) (s : string) :
  List.length (split_char c s) = Datatypes.S (count_char c s).
Proof.
  induction s as [|a r IH]; simpl; [reflexivity|].
  destruct (char_eqb a c); simpl.
  - now rewrite IH.
  - destruct (split_char c r) as [|w ws]; simpl in *; [discriminate | exact IH].
Qed.

Lemma count_char_app (c : ascii) (a b : string) :
  count_char c (a ++ b) = (count_char c a + count_char c b)%nat.
Proof.
  induction a as [|x a IH]; simpl; [reflexivity|]. rewrite IH. lia.
Qed.

(** X26.  [parse_time_range] never fails.  A text without a comma is
    returned as it is; a text with exactly one comma becomes the pair of
    its two sides, each stripped of surrounding white space, under [start]
    and [end]; a text with two or more commas is returned as it is, as a
    string and not as a range. *)
Theorem parse_time_range_shape :
  (forall s, contains_char "," s = false ->
     DaoPackage.parse_time_range s = PStr s) /\
  (forall a b,
     contains_char "," a = false -> contains_char "," b = false ->
     DaoPackage.parse_time_range (a ++ "," ++ b)
     = PDict [("start", PStr (str_strip a)); ("end", PStr (str_strip b))]) /\
  (forall a b c,
     DaoPackage.parse_time_range (a ++ "," ++ b ++ "," ++ c)
     = PStr (a ++ "," ++ b ++ "," ++ c)).
Proof.
  split; [|split].
  - intros s H. unfold DaoPackage.parse_time_range. now rewrite H.
  - intros a b Ha Hb. unfold DaoPackage.parse_time_range.
    change ("," ++ b) with (String "," b).
    rewrite contains_separator, (split_at_separator _ a b Ha),
      (split_no_separator _ b Hb).
    reflexivity.
  - intros a b c. unfold DaoPackage.parse_time_range.
    assert (C : (2 <= count_char "," (a ++ "," ++ b ++ "," ++ c))%nat).
    { rewrite !count_char_app. simpl. lia. }
    pose proof (split_length "," (a ++ "," ++ b ++ "," ++ c)) as L.
    destruct (contains_char "," (a ++ "," ++ b ++ "," ++ c)); [|reflexivity].
    destruct (split_char "," (a ++ "," ++ b ++ "," ++ c)) as [|x [|y [|z l]]];
      cbn [List.length] in L; try reflexivity; lia.
Qed.

Lemma parse_time_range_shape_witness :
  DaoPackage.parse_time_range "20240101" = PStr "20240101" /\
  DaoPackage.parse_time_range (" 20240101 " ++ "," ++ "20240131 ")
  = PDict [("start", PStr "20240101"); ("end", PStr "20240131")].
Proof.
  split.
  - exact (proj1 parse_time_range_shape "20240101" eq_refl).
  - exact (proj1 (proj2 parse_time_range_shape) " 20240101 " "20240131 "
             eq_refl eq_refl).
Defined.

End PackageFacts.

(* ================================================================== *)
(** ** Further facts: the data service *)
(* ================================================================== *)

Section ServiceFacts.
Import Py Base Notions.

Lemma es_search_world (S : Type)
    (respond : S -> ES.request -> result pyval * S) 
    (d : ES.ElasticsearchDAO) (index : string)
    (fs : list QueryFilter) (sorts : option (list SortOption))
    (pag : option PaginationOptions) (q : pyval) (w : ES.world S) :
  ES.client d <> None ->
  ES._build_search_query fs sorts pag = Ok q ->
  snd (ES.search S respond d index fs sorts pag w)
  = (snd (respond (fst w) (ES.ReqSearch index q None None)),
     (snd w ++ [ES.ReqSearch index q None None])%list).
Proof.
  intros Hc Hq. unfold ES.search. destruct (ES.client d); [|congruence].
  rewrite Hq. unfold ES.send.
  destruct (respond (fst w) (ES.ReqSearch index q None None)) as [[r|e] st];
    [|reflexivity].
  match goal with |- context [match ?x with Ok _ => _ | Raise _ => _ end] =>
    destruct x end; reflexivity.
Qed.

(** X27.  For a page request with a positive limit and a backend total
    that is a non-negative integer, [search_data] returns the hits and the
    total of the adapter, the limit as page size, the number of the page
    that holds the offset (pages counted from 1) and the least number of
    pages of that size that hold the total: 0 when nothing was found, so
    the page number can exceed the number of pages. *)
Theorem search_data_pages (S : Type)
    (respond : S -> ES.request -> result pyval * S) (srv : MySQL.server)
    (float_pages : spec_float -> Z -> Service.outcome pyval)
    (self : Service.DataService) (dao : DaoPackage.adapter)
    (index : string) (fs : list QueryFilter) (sorts : option (list SortOption))
    (p : PaginationOptions) (w w' : DaoPackage.worlds S)
    (response : SearchResponse) (n : Z) :
  Service._dao self = Some dao ->
  Service.dao_search S respond srv dao index fs sorts (Some p) w = (Ok response, w') ->
  total response = PInt n ->
  0 <= n -> 0 <= offset p -> 0 < limit p ->
  exists pg k,
    Service.search_data S respond srv float_pages self index fs sorts (Some p) w
    = (Service.Done
         (Service.mkSearchResult (hits response) (PInt n) pg (limit p) (PInt k)
            (stats response)), w') /\
    (pg - 1) * limit p <= offset p < pg * limit p /\
    (k - 1) * limit p < n <= k * limit p /\
    (n = 0 -> k = 0 /\ k < pg).
Proof.
  intros Hd Hs Ht Hn Ho Hl.
  exists (offset p / limit p + 1), ((n + limit p - 1) / limit p).
  split; [|split; [|split]].
  - unfold Service.search_data. rewrite Hd, Hs. unfold Service.floordiv.
    destruct (Z.eqb_spec (limit p) 0) as [E|_]; [lia|].
    cbn [Service.obind]. unfold Service.page_count.
    destruct (Z.gtb_spec (limit p) 0) as [_|E]; [|lia].
    rewrite Ht. reflexivity.
  - pose proof (Z.mul_div_le (offset p) (limit p) Hl).
    pose proof (Z.mul_succ_div_gt (offset p) (limit p) Hl). nia.
  - pose proof (Z.mul_div_le (n + limit p - 1) (limit p) Hl).
    pose proof (Z.mul_succ_div_gt (n + limit p - 1) (limit p) Hl). nia.
  - intros ->. replace (0 + limit p - 1) with (limit p - 1) by lia.
    rewrite (Z.div_small (limit p - 1) (limit p)) by lia.
    pose proof (Z.div_pos (offset p) (limit p) Ho Hl). lia.
Qed.

Lemma search_data_pages_witness :
  exists pg k,
    Service.search_data unit (Scenario.constant_cluster Examples.seven_found)
      Scenario.empty_server Examples.no_float_pages Examples.engine_service
      "docs" [] None (Some (mkPaginationOptions 4 2 1000)) ((tt, []), [])
    = (Service.Done
         (Service.mkSearchResult
            [PDict [("n", PInt 1); ("_id", PStr "1"); ("_score", PNone)]]
            (PInt 7) pg 2 (PInt k) []),
       ((tt, [ES.ReqSearch "docs"
                (PDict [("query", Scenario.match_all); ("size", PInt 2);
                        ("from", PInt 4)]) None None]), [])) /\
    (pg - 1) * 2 <= 4 < pg * 2 /\
    (k - 1) * 2 < 7 <= k * 2 /\
    (7 = 0 -> k = 0 /\ k < pg).
Proof.
  exact (search_data_pages unit (Scenario.constant_cluster Examples.seven_found)
           Scenario.empty_server Examples.no_float_pages Examples.engine_service
           (DaoPackage.ESAdapter Scenario.es_ready) "docs" [] None
           (mkPaginationOptions 4 2 1000) ((tt, []), []) _ _ 7
           eq_refl eq_refl eq_refl ltac:(lia) ltac:(simpl; lia) ltac:(simpl; lia)).
Defined.

(** X28.  [search_data] checks the limit only after the adapter has
    answered.  With a limit of 0 the search is made and the call then
    raises [ZeroDivisionError]; with a negative limit it reports one page
    of that negative size; without pagination it reports page 1 with the
    number of hits as size, and one page when there is no hit, whatever the
    total is. *)
Theorem search_data_degenerate_limits (S : Type)
    (respond : S -> ES.request -> result pyval * S) (srv : MySQL.server)
    (float_pages : spec_float -> Z -> Service.outcome pyval)
    (self : Service.DataService)
    (dao : DaoPackage.adapter) (index : string) (fs : list QueryFilter)
    (sorts : option (list SortOption)) (w w' : DaoPackage.worlds S)
    (response : SearchResponse) :
  Service._dao self = Some dao ->
  (forall p,
     Service.dao_search S respond srv dao index fs sorts (Some p) w
     = (Ok response, w') ->
     (limit p = 0 ->
      Service.search_data S respond srv float_pages self index fs sorts (Some p) w
      = (Service.Throw Service.ZeroDivisionError, w')) /\
     (limit p < 0 ->
      Service.search_data S respond srv float_pages self index fs sorts (Some p) w
      = (Service.Done
           (Service.mkSearchResult (hits response) (total response)
              (offset p / limit p + 1) (limit p) (PInt 1) (stats response)),
         w'))) /\
  (Service.dao_search S respond srv dao index fs sorts None w = (Ok response, w') ->
   hits response = [] ->
   Service.search_data S respond srv float_pages self index fs sorts None w
   = (Service.Done
        (Service.mkSearchResult [] (total response) 1 0 (PInt 1) (stats response)),
      w')).
Proof.
  intros Hd. split.
  - intros p Hs. split; intros Hl; unfold Service.search_data;
      rewrite Hd, Hs; unfold Service.floordiv.
    + rewrite Hl. reflexivity.
    + destruct (Z.eqb_spec (limit p) 0) as [E|_]; [lia|].
      cbn [Service.obind]. unfold Service.page_count.
      destruct (Z.gtb_spec (limit p) 0) as [E|_]; [lia|]. reflexivity.
  - intros Hs Hh. unfold Service.search_data. rewrite Hd, Hs, Hh. reflexivity.
Qed.

Lemma search_data_degenerate_limits_witness :
  Service.search_data unit (Scenario.constant_cluster Examples.seven_found)
    Scenario.empty_server Examples.no_float_pages Examples.engine_service
    "docs" [] None (Some (mkPaginationOptions 0 0 1000)) ((tt, []), [])
  = (Service.Throw Service.ZeroDivisionError,
     ((tt, [ES.ReqSearch "docs"
              (PDict [("query", Scenario.match_all); ("size", PInt 0);
                      ("from", PInt 0)]) None None]), [])).
Proof.
  exact (proj1 (proj1 (search_data_degenerate_limits unit
                         (Scenario.constant_cluster Examples.seven_found)
                         Scenario.empty_server Examples.no_float_pages
                         Examples.engine_service
                         (DaoPackage.ESAdapter Scenario.es_ready) "docs" [] None
                         ((tt, []), []) _ _ eq_refl)
                  (mkPaginationOptions 0 0 1000) eq_refl) eq_refl).
Defined.

Lemma id_query (v : pyval) :
  ES._build_search_query [mkQueryFilter "id" "eq" v] None
    (Some (mkPaginationOptions 0 1 1000))
  = Ok (PDict
          [("query",
            ES.dict1 "bool"
              (ES.dict1 "must"
                 (PList [if isinstance_int_float v
                         then ES.dict1 "term" (ES.dict1 "id" v)
                         else ES.dict1 "wildcard"
                                (ES.dict1 "id" (PStr ("*" ++ py_str v ++ "*")))])));
           ("size", PInt 1); ("from", PInt 0)]).
Proof.
  unfold ES._build_search_query, ES._build_bool_query, ES.must_clauses.
  rewrite (es_eq_clause_of_value (mkQueryFilter "id" "eq" v) v eq_refl eq_refl).
  cbn [bind field]. destruct (isinstance_int_float v); reflexivity.
Qed.

(** X29.  [get_by_id] over the search-engine adapter is one search on the
    field [id], limited to one hit, and it returns the first hit of the
    answer or [None].  A numeric identifier is matched exactly, by a term
    clause; a text identifier is matched by the wildcard pattern [*id*],
    that is as a substring of the stored identifier. *)
Theorem get_by_id_request (S : Type)
    (respond : S -> ES.request -> result pyval * S) (srv : MySQL.server)
    (self : Service.DataService) (d : ES.ElasticsearchDAO) (index : string)
    (w : DaoPackage.worlds S) :
  Service._dao self = Some (DaoPackage.ESAdapter d) ->
  ES.client d <> None ->
  let body clause :=
    PDict [("query", ES.dict1 "bool" (ES.dict1 "must" (PList [clause])));
           ("size", PInt 1); ("from", PInt 0)] in
  let sent record_id :=
    snd (fst (snd (Service.get_by_id S respond srv self index record_id w))) in
  (forall s,
     sent (PStr s)
     = (snd (fst w)
        ++ [ES.ReqSearch index
              (body (ES.dict1 "wildcard" (ES.dict1 "id" (PStr ("*" ++ s ++ "*")))))
              None None])%list) /\
  (forall n,
     sent (PInt n)
     = (snd (fst w)
        ++ [ES.ReqSearch index (body (ES.dict1 "term" (ES.dict1 "id" (PInt n))))
              None None])%list) /\
  (forall record_id response w',
     Service.dao_search S respond srv (DaoPackage.ESAdapter d) index
       [mkQueryFilter "id" "eq" record_id] None
       (Some (mkPaginationOptions 0 1 1000)) w = (Ok response, w') ->
     Service.get_by_id S respond srv self index record_id w
     = (Service.Done (hd PNone (hits response)), w')).
Proof.
  intros Hd Hc body sent.
  assert (Hsent : forall v,
            sent v
            = (snd (fst w)
               ++ [ES.ReqSearch index
                     (body (if isinstance_int_float v
                            then ES.dict1 "term" (ES.dict1 "id" v)
                            else ES.dict1 "wildcard"
                                   (ES.dict1 "id" (PStr ("*" ++ py_str v ++ "*")))))
                     None None])%list).
  { intros v. subst sent. cbv beta.
    unfold Service.get_by_id. rewrite Hd. unfold Service.dao_search.
    pose proof (es_search_world S respond d index
                  [mkQueryFilter "id" "eq" v] None
                  (Some (mkPaginationOptions 0 1 1000)) _ (fst w) Hc (id_query v))
      as Hw.
    destruct (ES.search S respond d index [mkQueryFilter "id" "eq" v] None
                (Some (mkPaginationOptions 0 1 1000)) (fst w)) as [[r|e] w1];
      cbn [snd fst] in *; rewrite Hw; reflexivity. }
  split; [|split].
  - intros s. exact (Hsent (PStr s)).
  - intros n. exact (Hsent (PInt n)).
  - intros rid response w' Hs. unfold Service.get_by_id. rewrite Hd, Hs.
    destruct (hits response); reflexivity.
Qed.

Lemma get_by_id_request_witness :
  snd (fst (snd (Service.get_by_id unit
                   (Scenario.constant_cluster Examples.seven_found)
                   Scenario.empty_server Examples.engine_service "docs"
                   (PStr "1") ((tt, []), []))))
  = [ES.ReqSearch "docs"
       (PDict [("query",
                ES.dict1 "bool"
                  (ES.dict1 "must"
                     (PList [ES.dict1 "wildcard" (ES.dict1 "id" (PStr "*1*"))])));
               ("size", PInt 1); ("from", PInt 0)]) None None].
Proof.
  exact (proj1 (get_by_id_request unit
                  (Scenario.constant_cluster Examples.seven_found)
                  Scenario.empty_server Examples.engine_service Scenario.es_ready
                  "docs" ((tt, []), []) eq_refl ltac:(discriminate)) "1").
Defined.

Lemma es_aggregate_world (S : Type)
    (respond : S -> ES.request -> result pyval * S)
    (d : ES.ElasticsearchDAO) (index : string)
    (fs : list QueryFilter) (agg_field : string) (q : pyval) (w : ES.world S) :
  ES.client d <> None ->
  ES._build_bool_query fs = Ok q ->
  snd (ES.aggregate S respond d index fs agg_field w)
  = (snd (respond (fst w)
            (ES.ReqSearch index (ES.aggregation_body q agg_field) None None)),
     (snd w ++ [ES.ReqSearch index (ES.aggregation_body q agg_field) None None])%list).
Proof.
  intros Hc Hq. unfold ES.aggregate. destruct (ES.client d); [|congruence].
  rewrite Hq. unfold ES.send.
  destruct (respond (fst w)
              (ES.ReqSearch index (ES.aggregation_body q agg_field) None None))
    as [[r|e] st]; [|reflexivity].
  destruct (ES.stat_of_response r); reflexivity.
Qed.

Lemma keyword_filters_equalities (key_fields : list (string * pyval)) :
  Forall (fun f => operator f = "eq" /\ value f <> PNone /\
                   In (field f, value f) key_fields)
    (DaoPackage.keyword_filters key_fields).
Proof.
  induction key_fields as [|[fld v] rest IH]; simpl; [constructor|].
  assert (IH' : Forall (fun f => operator f = "eq" /\ value f <> PNone /\
                                 In (field f, value f) ((fld, v) :: rest))
                  (DaoPackage.keyword_filters rest)).
  { eapply Forall_impl; [|exact IH]. intros f (H1 & H2 & H3).
    split; [exact H1|]. split; [exact H2 | now right]. }
  destruct v; try exact IH';
    (constructor; [split; [reflexivity|]; split; [discriminate | now left]
                  | exact IH']).
Qed.

Lemma keyword_filters_in_vocabulary (key_fields : list (string * pyval)) :
  forallb (fun f => Spec.in_vocabulary (operator f))
    (DaoPackage.keyword_filters key_fields) = true.
Proof.
  apply forallb_forall. intros f Hf.
  pose proof (keyword_filters_equalities key_fields) as H.
  rewrite Forall_forall in H. destruct (H f Hf) as [-> _]. reflexivity.
Qed.

(** X30.  [search_by_keywords] over a registered, connected search-engine
    adapter turns every key whose value is not [None] into an equality
    filter, which always compiles, and sends the search with [size] and
    [from] as given.  The aggregation request follows, over the same
    query, only when an aggregation field is named, it is not the empty
    text, and the search itself succeeded; nothing else is sent. *)
Theorem keywords_search_requests (S : Type)
    (respond : S -> ES.request -> result pyval * S) (srv : MySQL.server)
    (db_manager : DaoPackage.DatabaseManager) (d : ES.ElasticsearchDAO)
    (index : string) (key_fields : list (string * pyval))
    (agg_field : option string) (offset size : Z) (w : DaoPackage.worlds S) :
  DaoPackage.find "elasticsearch" (DaoPackage.connections db_manager)
  = Some (DaoPackage.ESAdapter d) ->
  ES.client d <> None ->
  let fs := DaoPackage.keyword_filters key_fields in
  let pag := mkPaginationOptions offset size 1000 in
  exists q,
    ES._build_bool_query fs = Ok q /\
    Forall (fun f => operator f = "eq" /\ value f <> PNone /\
                     In (field f, value f) key_fields) fs /\
    snd (fst (snd (DaoPackage.search_by_keywords S respond srv db_manager index
                     key_fields agg_field offset size w)))
    = (snd (fst w)
       ++ ES.ReqSearch index
            (PDict [("query", q); ("size", PInt size); ("from", PInt offset)])
            None None
          :: match agg_field with
             | Some (String a r) =>
                 if is_ok (fst (ES.search S respond d index fs None (Some pag) (fst w)))
                 then [ES.ReqSearch index
                         (ES.aggregation_body q (String a r)) None None]
                 else []
             | _ => []
             end)%list.
Proof.
  intros Hf Hc fs pag.
  destruct (must_clauses_in_vocabulary fs (keyword_filters_in_vocabulary key_fields))
    as (cs & Hcs & _).
  assert (Hq : exists q, ES._build_bool_query fs = Ok q).
  { unfold ES._build_bool_query. destruct fs; [eauto|]. rewrite Hcs. simpl. eauto. }
  destruct Hq as [q Hq]. exists q. split; [exact Hq|].
  split; [apply keyword_filters_equalities|].
  assert (Hbody : ES._build_search_query fs None (Some pag)
                  = Ok (PDict [("query", q); ("size", PInt size);
                               ("from", PInt offset)])).
  { unfold ES._build_search_query. rewrite Hq. reflexivity. }
  unfold DaoPackage.search_by_keywords, DaoPackage.get_dao,
    DaoPackage.manager_get_dao.
  change (lower "elasticsearch") with "elasticsearch". rewrite Hf.
  unfold DaoPackage.adapter_search. fold fs. fold pag.
  pose proof (es_search_world S respond d index fs None (Some pag) _ (fst w)
                Hc Hbody) as Hw.
  destruct (ES.search S respond d index fs None (Some pag) (fst w))
    as [[r|e] w1]; cbn [snd fst is_ok] in *.
  - destruct agg_field as [[|a name]|]; cbn [snd fst]; try (rewrite Hw; reflexivity).
    unfold DaoPackage.adapter_aggregate. cbn [fst snd].
    pose proof (es_aggregate_world S respond d index fs (String a name) q w1
                  Hc Hq) as Ha.
    destruct (ES.aggregate S respond d index fs (String a name) w1)
      as [[st|e] w2]; cbn [snd fst] in *; rewrite Ha, Hw; cbn [snd];
      now rewrite <- app_assoc.
  - destruct agg_field as [[|a name]|]; cbn [snd fst]; rewrite Hw; reflexivity.
Qed.

Lemma keywords_search_requests_witness :
  exists q,
    ES._build_bool_query
      (DaoPackage.keyword_filters [("name", PStr "li"); ("age", PNone)]) = Ok q /\
    snd (fst (snd (DaoPackage.search_by_keywords unit
                     (Scenario.constant_cluster Examples.seven_found)
                     Scenario.empty_server
                     (DaoPackage.mkDatabaseManager None (Some Scenario.es_ready)
                        [("elasticsearch", DaoPackage.ESAdapter Scenario.es_ready)])
                     "people" [("name", PStr "li"); ("age", PNone)] None 0 10
                     ((tt, []), []))))
    = [ES.ReqSearch "people"
         (PDict [("query", q); ("size", PInt 10); ("from", PInt 0)]) None None].
Proof.
  destruct (keywords_search_requests unit
              (Scenario.constant_cluster Examples.seven_found)
              Scenario.empty_server
              (DaoPackage.mkDatabaseManager None (Some Scenario.es_ready)
                 [("elasticsearch", DaoPackage.ESAdapter Scenario.es_ready)])
              Scenario.es_ready "people" [("name", PStr "li"); ("age", PNone)]
              None 0 10 ((tt, []), []) eq_refl ltac:(discriminate))
    as (q & Hq & _ & Hs).
  exists q. split; [exact Hq | exact Hs].
Defined.

End ServiceFacts.
